(** * pyPreservica: a shallow embedding of the session, entity and package layers

    The development follows the three modules of the package:
    - [common.py]    : [sanitize], the credential resolution of the constructor,
                       [__token__], [__version_number__], [__version_namespace__],
                       [entity_from_string], [security_tags_base];
    - [entityAPI.py] : the read operations of [EntityAPI];
    - [uploadAPI.py] : the XIP package builders.

    Library functions the package calls but does not define (Unicode
    normalisation, SHA1, the JSON and XML parsers, the pretty printer) are
    section variables. *)

From Stdlib Require Import String Ascii List ZArith NArith Lia Bool.
From Stdlib Require Import DecimalString Decimal DecimalNat.
From Stdlib Require DecimalZ DecimalPos.
From stdpp Require Import base option list strings gmap fin_maps.

Open Scope string_scope.
Open Scope list_scope.
Open Scope Z_scope.

Set Warnings "-register-all".

(* ===================================================================== *)
(** * Python values shared by all modules *)
(* ===================================================================== *)

(** Python values that travel between JSON documents, form data and
    instance attributes. [PNone] is Python's [None]. *)
Inductive pyval : Type :=
| PNone
| PBool (b : bool)
| PInt (n : Z)
| PStr (s : string)
| PList (l : list pyval)
| PDict (d : list (string * pyval)).

(** Python exceptions that the modelled code can raise, with the
    arguments the source gives them. *)
Inductive exn : Type :=
| RuntimeError (args : list pyval)
| NameError (name : string)
| AttributeError (attr : string)
| KeyError (key : string)
| IndexError
| ValueError (what : string)
| TypeError (what : string)
| ParseError
| JSONDecodeError
| RecursionError
| FileExistsError (path : string)
| FileNotFoundError (path : string)
| MissingSchema
| IsADirectoryError (path : string)
| SameFileError (path : string)
| SystemExit.

(** The outcome of running a piece of Python code. *)
Inductive result (A : Type) : Type :=
| Return (a : A)
| Raise (e : exn).
Arguments Return {A} a.
Arguments Raise {A} e.

(* ===================================================================== *)
(** * common.py : sanitize *)
(* ===================================================================== *)

Module Sanitize.

(** A Python [str] is a sequence of Unicode code points; [ord c] is the
    code point itself. *)
Definition pystr := list N.

Definition ord (c : N) : N := c.

(** Code points of a literal. *)
Definition lit (s : string) : pystr := map N_of_ascii (list_ascii_of_string s).

Definition str_eqb (a b : pystr) : bool := bool_decide (a = b).

Definition str_in (x : pystr) (l : list pystr) : bool := existsb (str_eqb x) l.

Fixpoint drop_while (p : N -> bool) (s : pystr) : pystr :=
  match s with
  | [] => []
  | c :: s' => if p c then drop_while p s' else s
  end.

(** [s.rstrip(chars)] *)
Definition rstrip_chars (chars : pystr) (s : pystr) : pystr :=
  rev (drop_while (fun c => existsb (N.eqb c) chars) (rev s)).

(** [s[:k]] for an arbitrary integer [k] (negative [k] counts from the end). *)
Definition slice_to (s : pystr) (k : Z) : pystr :=
  if k <? 0 then take (Z.to_nat (Z.of_nat (length s) + k)) s
  else take (Z.to_nat k) s.

(** [s[k:]] for [0 <= k]. *)
Definition slice_from (s : pystr) (k : nat) : pystr := drop k s.

(** Splitting at every character satisfying [p], keeping empty pieces:
    [re.split(r"[...]", s)] for a character class and [s.split(sep)] for a
    one-character separator. *)
Fixpoint split_on (p : N -> bool) (s : pystr) : list pystr :=
  match s with
  | [] => [[]]
  | c :: s' =>
      if p c then [] :: split_on p s'
      else match split_on p s' with
           | [] => [[c]]
           | w :: ws => (c :: w) :: ws
           end
  end.

Definition blacklist : list pystr :=
  [lit "\"; lit "/"; lit ":"; lit "*"; lit "?"; [34%N]; lit "<"; lit ">"; lit "|"; [0%N]].

Definition reserved : list pystr :=
  map lit ["CON"; "PRN"; "AUX"; "NUL"; "COM1"; "COM2"; "COM3"; "COM4"; "COM5";
           "COM6"; "COM7"; "COM8"; "COM9"; "LPT1"; "LPT2"; "LPT3"; "LPT4"; "LPT5";
           "LPT6"; "LPT7"; "LPT8"; "LPT9"].

Section WithUnicode.

(** [unicodedata.normalize("NFKD", s)] *)
Variable normalize_NFKD : pystr -> pystr.
(** [c.isspace()], the characters removed by [str.strip()] *)
Variable isspace : N -> bool.

(** [s.strip()] *)
Definition strip (s : pystr) : pystr :=
  rev (drop_while isspace (rev (drop_while isspace s))).

(** The block executed when [len(filename) > 255]. *)
Definition truncate (filename : pystr) : pystr :=
  let parts :=
    split_on (N.eqb 46)
      (List.last (split_on (fun c => orb (N.eqb c 47) (N.eqb c 92)) filename) []) in
  let '(filename, ext) :=
    if (1 <? length parts)%nat
    then let ext := lit "." ++ List.last parts [] in
         (slice_to filename (- Z.of_nat (length ext)), ext)
    else (filename, []) in
  let filename := if str_eqb filename [] then lit "__" else filename in
  let ext := if (254 <? length ext)%nat then slice_from ext 254 else ext in
  let maxl := 255 - Z.of_nat (length ext) in
  let filename := slice_to filename maxl in
  let filename := filename ++ ext in
  let filename := rstrip_chars (lit ". ") filename in
  if (length filename =? 0)%nat then lit "__" else filename.

Definition sanitize (filename : pystr) : pystr :=
  let filename := List.filter (fun c => negb (str_in [c] blacklist)) filename in
  let filename := List.filter (fun c => (31 <? ord c)%N) filename in
  let filename := normalize_NFKD filename in
  let filename := rstrip_chars (lit ". ") filename in
  let filename := strip filename in
  let filename := if forallb (N.eqb 46) filename then lit "__" ++ filename else filename in
  let filename := if str_in filename reserved then lit "__" ++ filename else filename in
  let filename := if (length filename =? 0)%nat then lit "__" else filename in
  if (255 <? length filename)%nat then truncate filename else filename.

End WithUnicode.

(** On ASCII text NFKD normalisation changes nothing and the only white
    space character above code point 31 is the blank. These two instances
    are what [unicodedata] and [str.isspace] do on ASCII inputs. *)
Definition ascii_NFKD (s : pystr) : pystr := s.
Definition ascii_isspace (c : N) : bool :=
  (N.eqb c 32 || ((9 <=? c) && (c <=? 13)) || ((28 <=? c) && (c <=? 31)))%N.

Definition repeat_char (c : string) (n : nat) : pystr := concat (replicate n (lit c)).

End Sanitize.

(* ===================================================================== *)
(** * Python string primitives used by common.py *)
(* ===================================================================== *)

Module PyStr.

(** [str(n)] and the [{n}] field of an f-string, for an integer. *)
Definition str_of_Z (n : Z) : string := NilZero.string_of_int (Z.to_int n).

Fixpoint starts_with (sub s : string) : bool :=
  match sub, s with
  | EmptyString, _ => true
  | String a sub', String b s' => if Ascii.eqb a b then starts_with sub' s' else false
  | String _ _, EmptyString => false
  end.

Fixpoint find_from (sub s : string) (i : Z) : Z :=
  if starts_with sub s then i
  else match s with
       | EmptyString => -1
       | String _ s' => find_from sub s' (i + 1)
       end.

(** [s.find(sub)]: index of the first occurrence, or [-1]. *)
Definition find (s sub : string) : Z := find_from sub s 0.

Definition len (s : string) : Z := Z.of_nat (String.length s).

(** Normalisation of a slice bound as Python does it for [s[i:j]]. *)
Definition clamp (n : Z) (i : Z) : Z :=
  let i := if i <? 0 then i + n else i in
  Z.max 0 (Z.min n i).

(** [s[i:j]] *)
Definition slice (s : string) (i j : Z) : string :=
  let n := len s in
  let i := clamp n i in
  let j := clamp n j in
  String.substring (Z.to_nat i) (Z.to_nat (j - i)) s.

(** [s.split(sep)] for a one-character separator. *)
Fixpoint split (sep : ascii) (s : string) : list string :=
  match s with
  | EmptyString => [EmptyString]
  | String c s' =>
      if Ascii.eqb c sep then EmptyString :: split sep s'
      else match split sep s' with
           | [] => [String c EmptyString]
           | w :: ws => String c w :: ws
           end
  end.

Definition is_digit (c : ascii) : bool :=
  let n := N_of_ascii c in ((48 <=? n) && (n <=? 57))%N.

Definition is_space (c : ascii) : bool :=
  let n := N_of_ascii c in
  ((n =? 32) || ((9 <=? n) && (n <=? 13)) || ((28 <=? n) && (n <=? 31)))%N.

Fixpoint lstrip (s : string) : string :=
  match s with
  | String c s' => if is_space c then lstrip s' else s
  | EmptyString => EmptyString
  end.

Definition rev_string (s : string) : string :=
  string_of_list_ascii (rev (list_ascii_of_string s)).

Definition strip (s : string) : string := rev_string (lstrip (rev_string (lstrip s))).

(** The digits of an integer literal: decimal digits, with single
    underscores allowed between two digits. [after_digit] tells whether
    the previous character was a digit. *)
Fixpoint digits_value (s : string) (after_digit : bool) (acc : Z) : option Z :=
  match s with
  | EmptyString => if after_digit then Some acc else None
  | String c s' =>
      if is_digit c then digits_value s' true (10 * acc + (Z.of_N (N_of_ascii c) - 48))
      else if Ascii.eqb c "_" then
             if after_digit then
               match s' with
               | String d _ => if is_digit d then digits_value s' false acc else None
               | EmptyString => None
               end
             else None
      else None
  end.

(** [int(s)] on ASCII text: surrounding white space, an optional sign,
    decimal digits. *)
Definition int (s : string) : result Z :=
  let s := strip s in
  let '(neg, body) :=
    match s with
    | String "-" r => (true, r)
    | String "+" r => (false, r)
    | _ => (false, s)
    end in
  match digits_value body false 0 with
  | Some v => Return (if neg then - v else v)
  | None => Raise (ValueError s)
  end.

(** [l[i]] for a non-negative literal index. *)
Definition index {A} (l : list A) (i : nat) : result A :=
  match l !! i with
  | Some x => Return x
  | None => Raise IndexError
  end.

End PyStr.


(* ===================================================================== *)
(** * xml.etree.ElementTree : the part of the element API the package uses *)
(* ===================================================================== *)

Module XML.

(** An element: qualified tag ([{namespace}Name]), attributes, text and
    children in document order. *)
Inductive Element : Type :=
| Elem (tag : string) (attrib : list (string * string)) (text : option string)
       (children : list Element).

Definition tag (e : Element) : string := let 'Elem t _ _ _ := e in t.
Definition attrib (e : Element) : list (string * string) := let 'Elem _ a _ _ := e in a.
Definition text (e : Element) : option string := let 'Elem _ _ t _ := e in t.
Definition children (e : Element) : list Element := let 'Elem _ _ _ c := e in c.

(** [SubElement(parent, tag)] followed by the assignments to the new
    child: the child is appended after the existing children. *)
Definition SubElement (parent child : Element) : Element :=
  let 'Elem t a x cs := parent in Elem t a x (cs ++ [child]).

(** All elements below [e] in document order, [e] excluded. *)
Fixpoint descendants (e : Element) : list Element :=
  let 'Elem _ _ _ cs := e in
  (fix go (l : list Element) : list Element :=
     match l with
     | [] => []
     | c :: l' => c :: descendants c ++ go l'
     end) cs.

Definition has_tag (t : string) (e : Element) : bool := String.eqb (tag e) t.

(** [e.findall('.//T')] *)
Definition findall (e : Element) (t : string) : list Element :=
  List.filter (has_tag t) (descendants e).

(** [e.find('.//T')]: the first match or [None]. *)
Definition find (e : Element) (t : string) : option Element :=
  head (findall e t).

(** [e.findall('.//T/U')]: the [U] children of every [T] below [e]. *)
Definition findall_child (e : Element) (t u : string) : list Element :=
  flat_map (fun m => List.filter (has_tag u) (children m)) (findall e t).

(** A tag qualified by a namespace, [f'{{{ns}}}Name']. *)
Definition qname (ns name : string) : string := "{" +:+ ns +:+ "}" +:+ name.

(** [d[key]] on an attribute dictionary. *)
Definition get_attrib (e : Element) (key : string) : result string :=
  match List.find (fun kv => String.eqb (fst kv) key) (attrib e) with
  | Some kv => Return (snd kv)
  | None => Raise (KeyError key)
  end.

End XML.

(* ===================================================================== *)
(** * common.py : constants and data classes *)
(* ===================================================================== *)

Definition NS_XIP_ROOT := "http://preservica.com/XIP/".
Definition NS_ENTITY_ROOT := "http://preservica.com/EntityAPI/".
Definition NS_RM_ROOT := "http://preservica.com/RetentionManagement/".
Definition NS_SEC_ROOT := "http://preservica.com/SecurityAPI".
Definition NS_ADMIN := "http://preservica.com/AdminAPI".
Definition NS_XIP_V6 := "http://preservica.com/XIP/v6.0".
Definition NS_ENTITY := "http://preservica.com/EntityAPI/v6.0".
Definition HEADER_TOKEN := "Preservica-Access-Token".
Definition IO_PATH := "information-objects".
Definition SO_PATH := "structural-objects".
Definition CO_PATH := "content-objects".

Inductive EntityType : Type := ASSET | FOLDER | CONTENT_OBJECT.

(** [EntityType.X.value] *)
Definition EntityType_value (t : EntityType) : string :=
  match t with ASSET => "IO" | FOLDER => "SO" | CONTENT_OBJECT => "CO" end.

(** A Python dictionary keeps its keys in insertion order; assigning to a
    key that is present replaces the value in place. *)
Fixpoint dict_set {K V} `{EqDecision K} (d : list (K * V)) (k : K) (v : V) : list (K * V) :=
  match d with
  | [] => [(k, v)]
  | (k', v') :: d' => if decide (k' = k) then (k, v) :: d' else (k', v') :: dict_set d' k v
  end.

Fixpoint dict_get {K V} `{EqDecision K} (d : list (K * V)) (k : K) : option V :=
  match d with
  | [] => None
  | (k', v') :: d' => if decide (k' = k) then Some v' else dict_get d' k
  end.

(** [Entity] and its three subclasses. The subclass is recorded in
    [entity_type]; [path] and [tag] are the attributes the constructors
    set. A text attribute holds [None] or a string. *)
Inductive Entity : Type := mkEntity {
  reference : option string;
  title : option string;
  description : option string;
  security_tag : option string;
  parent : option string;
  metadata : option (list (option string * string));
  entity_type : EntityType;
  path : string;
  tag : string;
  representation_type : option string;
  asset_of : option Entity
}.

Definition Folder reference title description security_tag parent metadata : Entity :=
  mkEntity reference title description security_tag parent metadata
           FOLDER SO_PATH "StructuralObject" None None.

Definition Asset reference title description security_tag parent metadata : Entity :=
  mkEntity reference title description security_tag parent metadata
           ASSET IO_PATH "InformationObject" None None.

Definition ContentObject reference title description security_tag parent metadata : Entity :=
  mkEntity reference title description security_tag parent metadata
           CONTENT_OBJECT CO_PATH "ContentObject" None None.

(** The dictionary returned by [entity_from_string]. *)
Record EntityDict : Type := mkEntityDict {
  d_reference : option string;
  d_title : option string;
  d_description : option string;
  d_security_tag : option string;
  d_parent : option string;
  d_metadata : list (option string * string)
}.

Record PagedSet : Type := mkPagedSet {
  results : list Entity;
  has_more : bool;
  total : Z;
  next_page : option string
}.

Record Bitstream : Type := mkBitstream {
  bs_filename : option string;
  bs_length : Z;
  bs_fixity : list (option string * option string);
  bs_content_url : option string
}.

Record Generation : Type := mkGeneration {
  g_original : bool;
  g_active : bool;
  g_content_object : option Entity;
  g_format_group : option string;
  g_effective_date : option string;
  g_bitstreams : list Bitstream
}.

Record Representation : Type := mkRepresentation {
  rep_asset : Entity;
  rep_type : string;
  rep_name : string;
  rep_url : option string
}.

(* ===================================================================== *)
(** * The HTTP session and the client object *)
(* ===================================================================== *)

Inductive method : Type := GET | POST | PUT | DELETE.

Record request : Type := mkRequest {
  rq_method : method;
  rq_url : string;
  rq_headers : list (string * pyval);
  rq_params : list (string * pyval);
  rq_data : list (string * pyval)
}.

Record response : Type := mkResponse {
  status_code : Z;
  content : string
}.

(** [requests.codes] *)
Module codes.
Definition ok := 200.
Definition accepted := 202.
Definition no_content := 204.
Definition unauthorized := 401.
Definition not_found := 404.
End codes.

(** What the package takes from outside: the remote server and the
    library functions it calls. The server answers the last request of
    the history it is given; the clock gives [int(time.time())] at that
    point of the history. *)
Record Platform : Type := mkPlatform {
  server : list request -> response;
  clock : list request -> Z;
  sha1_hexdigest : string -> string;
  json_loads : string -> option pyval;
  fromstring : string -> option XML.Element;
  tostring : XML.Element -> string
}.

(** The attributes of an [AuthenticatedAPI] instance. An attribute that
    the constructor assigns only on some paths is an [option]: [None]
    means that the attribute does not exist yet and reading it raises
    [AttributeError]. *)
Record Client : Type := mkClient {
  username : string;
  password : string;
  tenant : pyval;
  server_name : string;
  shared_secret : bool;
  token : option pyval;
  version_hash : option string;
  major_version : option Z;
  minor_version : option Z;
  patch_version : option Z;
  version : option pyval;
  xip_ns : option string;
  entity_ns : option string;
  rm_ns : option string;
  sec_ns : option string;
  admin_ns : option string;
  roles : option pyval
}.

Definition with_tenant (c : Client) (v : pyval) : Client :=
  mkClient c.(username) c.(password) v c.(server_name) c.(shared_secret) c.(token)
    c.(version_hash) c.(major_version) c.(minor_version) c.(patch_version) c.(version)
    c.(xip_ns) c.(entity_ns) c.(rm_ns) c.(sec_ns) c.(admin_ns) c.(roles).
Definition with_token (c : Client) (v : pyval) : Client :=
  mkClient c.(username) c.(password) c.(tenant) c.(server_name) c.(shared_secret) (Some v)
    c.(version_hash) c.(major_version) c.(minor_version) c.(patch_version) c.(version)
    c.(xip_ns) c.(entity_ns) c.(rm_ns) c.(sec_ns) c.(admin_ns) c.(roles).
Definition with_version_hash (c : Client) (v : string) : Client :=
  mkClient c.(username) c.(password) c.(tenant) c.(server_name) c.(shared_secret) c.(token)
    (Some v) c.(major_version) c.(minor_version) c.(patch_version) c.(version)
    c.(xip_ns) c.(entity_ns) c.(rm_ns) c.(sec_ns) c.(admin_ns) c.(roles).
Definition with_major_version (c : Client) (v : Z) : Client :=
  mkClient c.(username) c.(password) c.(tenant) c.(server_name) c.(shared_secret) c.(token)
    c.(version_hash) (Some v) c.(minor_version) c.(patch_version) c.(version)
    c.(xip_ns) c.(entity_ns) c.(rm_ns) c.(sec_ns) c.(admin_ns) c.(roles).
Definition with_minor_version (c : Client) (v : Z) : Client :=
  mkClient c.(username) c.(password) c.(tenant) c.(server_name) c.(shared_secret) c.(token)
    c.(version_hash) c.(major_version) (Some v) c.(patch_version) c.(version)
    c.(xip_ns) c.(entity_ns) c.(rm_ns) c.(sec_ns) c.(admin_ns) c.(roles).
Definition with_patch_version (c : Client) (v : Z) : Client :=
  mkClient c.(username) c.(password) c.(tenant) c.(server_name) c.(shared_secret) c.(token)
    c.(version_hash) c.(major_version) c.(minor_version) (Some v) c.(version)
    c.(xip_ns) c.(entity_ns) c.(rm_ns) c.(sec_ns) c.(admin_ns) c.(roles).
Definition with_version (c : Client) (v : pyval) : Client :=
  mkClient c.(username) c.(password) c.(tenant) c.(server_name) c.(shared_secret) c.(token)
    c.(version_hash) c.(major_version) c.(minor_version) c.(patch_version) (Some v)
    c.(xip_ns) c.(entity_ns) c.(rm_ns) c.(sec_ns) c.(admin_ns) c.(roles).
Definition with_xip_ns (c : Client) (v : string) : Client :=
  mkClient c.(username) c.(password) c.(tenant) c.(server_name) c.(shared_secret) c.(token)
    c.(version_hash) c.(major_version) c.(minor_version) c.(patch_version) c.(version)
    (Some v) c.(entity_ns) c.(rm_ns) c.(sec_ns) c.(admin_ns) c.(roles).
Definition with_entity_ns (c : Client) (v : string) : Client :=
  mkClient c.(username) c.(password) c.(tenant) c.(server_name) c.(shared_secret) c.(token)
    c.(version_hash) c.(major_version) c.(minor_version) c.(patch_version) c.(version)
    c.(xip_ns) (Some v) c.(rm_ns) c.(sec_ns) c.(admin_ns) c.(roles).
Definition with_rm_ns (c : Client) (v : string) : Client :=
  mkClient c.(username) c.(password) c.(tenant) c.(server_name) c.(shared_secret) c.(token)
    c.(version_hash) c.(major_version) c.(minor_version) c.(patch_version) c.(version)
    c.(xip_ns) c.(entity_ns) (Some v) c.(sec_ns) c.(admin_ns) c.(roles).
Definition with_sec_ns (c : Client) (v : string) : Client :=
  mkClient c.(username) c.(password) c.(tenant) c.(server_name) c.(shared_secret) c.(token)
    c.(version_hash) c.(major_version) c.(minor_version) c.(patch_version) c.(version)
    c.(xip_ns) c.(entity_ns) c.(rm_ns) (Some v) c.(admin_ns) c.(roles).
Definition with_admin_ns (c : Client) (v : string) : Client :=
  mkClient c.(username) c.(password) c.(tenant) c.(server_name) c.(shared_secret) c.(token)
    c.(version_hash) c.(major_version) c.(minor_version) c.(patch_version) c.(version)
    c.(xip_ns) c.(entity_ns) c.(rm_ns) c.(sec_ns) (Some v) c.(roles).
Definition with_roles (c : Client) (v : pyval) : Client :=
  mkClient c.(username) c.(password) c.(tenant) c.(server_name) c.(shared_secret) c.(token)
    c.(version_hash) c.(major_version) c.(minor_version) c.(patch_version) c.(version)
    c.(xip_ns) c.(entity_ns) c.(rm_ns) c.(sec_ns) c.(admin_ns) (Some v).

(** The state a method runs in: the client object [self] and the
    requests sent so far, oldest first. *)
Record world : Type := mkWorld {
  self : Client;
  log : list request
}.

(** A piece of Python code running on a state [St]: it ends by returning
    or raising, and leaves a state behind in both cases. *)
Definition Prog (St A : Type) : Type := St -> result A * St.

Definition ret {St A} (a : A) : Prog St A := fun w => (Return a, w).
Definition raise {St A} (e : exn) : Prog St A := fun w => (Raise e, w).
Definition bind {St A B} (m : Prog St A) (k : A -> Prog St B) : Prog St B :=
  fun w => match m w with
           | (Return a, w') => k a w'
           | (Raise e, w') => (Raise e, w')
           end.
Definition lift {St A} (r : result A) : Prog St A := fun w => (r, w).

(** A method body of the client. *)
Definition M (A : Type) : Type := Prog world A.

Declare Scope py_scope.
Delimit Scope py_scope with py.
Notation "x <~ m ;; k" := (bind m (fun x => k))
  (at level 100, m at next level, right associativity) : py_scope.
Notation "m ;;; k" := (bind m (fun _ => k))
  (at level 100, right associativity) : py_scope.
Open Scope py_scope.

Definition get_self : M Client := fun w => (Return (self w), w).
Definition update (f : Client -> Client) : M unit :=
  fun w => (Return tt, mkWorld (f (self w)) (log w)).

(** Reading an attribute that may not exist. *)
Definition attr {A} (name : string) (f : Client -> option A) : M A :=
  fun w => match f (self w) with
           | Some a => (Return a, w)
           | None => (Raise (AttributeError name), w)
           end.

(** Running the elements of a list through a method, in order. *)
Fixpoint for_each {St A B} (f : A -> Prog St B) (l : list A) : Prog St (list B) :=
  match l with
  | [] => ret []
  | a :: l' => b <~ f a ;; bs <~ for_each f l' ;; ret (b :: bs)
  end.

(** [d[key]] on a decoded JSON value. *)
Definition getitem (v : pyval) (key : string) : result pyval :=
  match v with
  | PDict d =>
      match dict_get d key with
      | Some x => Return x
      | None => Raise (KeyError key)
      end
  | _ => Raise (TypeError "subscript")
  end.

(* ===================================================================== *)
(** * common.py : class AuthenticatedAPI *)
(* ===================================================================== *)

Section AuthenticatedAPI.

Variable P : Platform.

(** Sending a request: it is appended to the log and the server's
    answer to the extended history is returned. [session.get],
    [session.post], [requests.get] and [requests.delete] all go
    through here. *)
Definition send (r : request) : M response :=
  fun w => let l := log w ++ [r] in (Return (server P l), mkWorld (self w) l).

Definition http_get (url : string) (headers : list (string * pyval)) : M response :=
  send (mkRequest GET url headers [] []).
Definition http_get_params (url : string) (params headers : list (string * pyval)) : M response :=
  send (mkRequest GET url headers params []).
Definition http_post (url : string) (data : list (string * pyval)) : M response :=
  send (mkRequest POST url [] [] data).
Definition http_delete (url : string) (headers : list (string * pyval)) : M response :=
  send (mkRequest DELETE url headers [] []).

(** [int(time.time())] *)
Definition time_now : M Z := fun w => (Return (clock P (log w)), w).

(** [response.json()] *)
Definition json (r : response) : M pyval :=
  match json_loads P (content r) with
  | Some v => ret v
  | None => raise JSONDecodeError
  end.

(** [xml.etree.ElementTree.fromstring(s)] *)
Definition parse_xml (s : string) : M XML.Element :=
  match fromstring P s with
  | Some e => ret e
  | None => raise ParseError
  end.

Definition login_failed_msg :=
  "Failed to create a password based authentication token. Check your credentials are correct".
Definition secret_failed_msg :=
  "Failed to create a shared secret authentication token. Check your credentials are correct".

Definition login_url (c : Client) : string :=
  "https://" +:+ server_name c +:+ "/api/accesstoken/login".
Definition acquire_external_url (c : Client) : string :=
  "https://" +:+ server_name c +:+ "/" +:+ "api/accesstoken/acquire-external".

Definition login_data (c : Client) : list (string * pyval) :=
  match tenant c with
  | PNone => [("username", PStr (username c)); ("password", PStr (password c));
              ("includeUserDetails", PStr "true")]
  | t => [("username", PStr (username c)); ("password", PStr (password c)); ("tenant", t)]
  end.

Definition to_hash (timestamp : Z) (c : Client) : string :=
  "preservica-external-auth" +:+ PyStr.str_of_Z timestamp +:+ username c +:+ password c.

Definition is_None (v : pyval) : bool := match v with PNone => true | _ => false end.

Definition __token__ : M pyval :=
  c <~ get_self ;;
  if negb (shared_secret c) then
    let data := login_data c in
    response <~ http_post (login_url c) data ;;
    if status_code response =? codes.ok then
      (if is_None (tenant c) then
         j <~ json response ;;
         t <~ lift (getitem j "tenant") ;;
         update (fun c => with_tenant c t)
       else ret tt) ;;;
      j <~ json response ;;
      lift (getitem j "token")
    else
      raise (RuntimeError [PInt (status_code response); PStr login_failed_msg])
  else
    timestamp <~ time_now ;;
    let data := [("username", PStr (username c)); ("tenant", tenant c);
                 ("timestamp", PInt timestamp);
                 ("hash", PStr (sha1_hexdigest P (to_hash timestamp c)))] in
    response <~ http_post (acquire_external_url c) data ;;
    if status_code response =? codes.ok then
      j <~ json response ;;
      lift (getitem j "token")
    else
      raise (RuntimeError [PInt (status_code response); PStr secret_failed_msg]).

(** [self.token = self.__token__()] *)
Definition refresh_token : M unit :=
  t <~ __token__ ;; update (fun c => with_token c t).

(** The text the constructor takes for the version: the slice between
    the first opening and the first closing [CurrentVersion] tag. *)
Definition current_version (xml_ : string) : string :=
  PyStr.slice xml_
    (PyStr.find xml_ "<CurrentVersion>" + PyStr.len "<CurrentVersion>")
    (PyStr.find xml_ "</CurrentVersion>").

Definition version_url (c : Client) : string :=
  "https://" +:+ server_name c +:+ "/api/entity/versiondetails/version".

(** A method that calls itself after a 401 uses one Python stack frame
    per call; [fuel] is the number of frames left before the
    interpreter raises [RecursionError]. *)
Fixpoint __version_number__ (fuel : nat) : M pyval :=
  match fuel with
  | O => raise RecursionError
  | S fuel' =>
      tok <~ attr "token" token ;;
      let headers := [(HEADER_TOKEN, tok)] in
      update (fun c => with_version_hash c "RHVOMzJHNzdk") ;;;
      c <~ get_self ;;
      request <~ http_get (version_url c) headers ;;
      if status_code request =? codes.ok then
        let xml_ := content request in
        let version := current_version xml_ in
        let version_numbers := PyStr.split "." version in
        v0 <~ lift (PyStr.index version_numbers 0) ;;
        major <~ lift (PyStr.int v0) ;;
        update (fun c => with_major_version c major) ;;;
        v1 <~ lift (PyStr.index version_numbers 1) ;;
        minor <~ lift (PyStr.int v1) ;;
        update (fun c => with_minor_version c minor) ;;;
        v2 <~ lift (PyStr.index version_numbers 2) ;;
        patch <~ lift (PyStr.int v2) ;;
        update (fun c => with_patch_version c patch) ;;;
        ret (PStr version)
      else if status_code request =? codes.unauthorized then
        refresh_token ;;;
        __version_number__ fuel'
      else
        (* the source builds a RuntimeError here without raising it *)
        ret PNone
  end.

Definition versioned (root sep : string) (major minor : Z) : string :=
  root +:+ sep +:+ PyStr.str_of_Z major +:+ "." +:+ PyStr.str_of_Z minor.

Definition __version_namespace__ : M unit :=
  major <~ attr "major_version" major_version ;;
  if major =? 6 then
    minor <~ attr "minor_version" minor_version ;;
    if minor <? 2 then
      update (fun c => with_xip_ns c NS_XIP_V6) ;;;
      update (fun c => with_entity_ns c NS_ENTITY)
    else
      update (fun c => with_xip_ns c (versioned NS_XIP_ROOT "v" major minor)) ;;;
      update (fun c => with_entity_ns c (versioned NS_ENTITY_ROOT "v" major minor)) ;;;
      update (fun c => with_rm_ns c (versioned NS_RM_ROOT "v" major 2)) ;;;
      update (fun c => with_sec_ns c (versioned NS_SEC_ROOT "/v" major minor)) ;;;
      update (fun c => with_admin_ns c (versioned NS_ADMIN "/v" major minor))
  else ret tt.

Definition user_details_url (c : Client) : string :=
  "https://" +:+ server_name c +:+ "/api/user/details".

Definition xml_headers (tok : pyval) : list (string * pyval) :=
  [(HEADER_TOKEN, tok); ("Content-Type", PStr "application/xml;charset=UTF-8")].

Fixpoint __find_user_roles_ (fuel : nat) : M pyval :=
  match fuel with
  | O => raise RecursionError
  | S fuel' =>
      tok <~ attr "token" token ;;
      c <~ get_self ;;
      request <~ http_get (user_details_url c) (xml_headers tok) ;;
      if status_code request =? codes.ok then
        j <~ json request ;;
        lift (getitem j "roles")
      else if status_code request =? codes.unauthorized then
        refresh_token ;;;
        __find_user_roles_ fuel'
      else ret PNone
  end.

(** [entity_from_string], the method of [AuthenticatedAPI]. *)
Definition text_or_None (e : option XML.Element) : option string :=
  match e with
  | Some x => XML.text x
  | None => None
  end.

(** [x.text] where [x] may be [None]. *)
Definition text_of (e : option XML.Element) : result (option string) :=
  match e with
  | Some x => Return (XML.text x)
  | None => Raise (AttributeError "text")
  end.

Fixpoint fragments_to_dict (fragments : list XML.Element)
         (metadata : list (option string * string))
  : result (list (option string * string)) :=
  match fragments with
  | [] => Return metadata
  | fragment :: rest =>
      match XML.get_attrib fragment "schema" with
      | Return schema => fragments_to_dict rest (dict_set metadata (XML.text fragment) schema)
      | Raise e => Raise e
      end
  end.

Definition entity_from_string (xml_data : string) : M EntityDict :=
  entity_response <~ parse_xml xml_data ;;
  xip <~ attr "xip_ns" xip_ns ;;
  let reference := XML.find entity_response (XML.qname xip "Ref") in
  let title := XML.find entity_response (XML.qname xip "Title") in
  let security_tag := XML.find entity_response (XML.qname xip "SecurityTag") in
  let description := XML.find entity_response (XML.qname xip "Description") in
  let parent := XML.find entity_response (XML.qname xip "Parent") in
  let parent := text_or_None parent in
  ens <~ attr "entity_ns" entity_ns ;;
  let fragments :=
    XML.findall_child entity_response (XML.qname ens "Metadata") (XML.qname ens "Fragment") in
  metadata <~ lift (fragments_to_dict fragments []) ;;
  reference_text <~ lift (text_of reference) ;;
  security_tag_text <~ lift (text_of security_tag) ;;
  ret (mkEntityDict reference_text (text_or_None title) (text_or_None description)
                    security_tag_text parent metadata).

Definition security_tags_url (c : Client) : string :=
  "https://" +:+ server_name c +:+ "/api/security/tags".

Definition pyval_of_text (t : option string) : pyval :=
  match t with Some s => PStr s | None => PNone end.

(** The loop over the [Tag] elements of [security_tags_base]. *)
Fixpoint collect_tags (with_permissions : bool) (tags : list XML.Element)
         (security_tags : list (string * pyval)) : M (list (string * pyval)) :=
  match tags with
  | [] => ret security_tags
  | tag :: rest =>
      sec <~ attr "sec_ns" sec_ns ;;
      let permissions :=
        map (fun p => pyval_of_text (XML.text p)) (XML.findall tag (XML.qname sec "Permission")) in
      name <~ lift (XML.get_attrib tag "name") ;;
      collect_tags with_permissions rest
        (dict_set security_tags name (if with_permissions then PList permissions else PStr name))
  end.

(** The version guard at the top of [security_tags_base]; [and]
    evaluates its operands from left to right and stops at the first
    false one. *)
Definition older_than_6_3_1 : M bool :=
  major <~ attr "major_version" major_version ;;
  if major <? 7 then
    minor <~ attr "minor_version" minor_version ;;
    if minor <? 4 then
      patch <~ attr "patch_version" patch_version ;;
      ret (patch <? 1)
    else ret false
  else ret false.

Fixpoint security_tags_base (fuel : nat) (with_permissions : bool)
  : M (list (string * pyval)) :=
  match fuel with
  | O => raise RecursionError
  | S fuel' =>
      old <~ older_than_6_3_1 ;;
      if (old : bool) then
        raise (RuntimeError
                 [PStr "security_tags API call is only available with a Preservica v6.3.1 system or higher"])
      else
        tok <~ attr "token" token ;;
        c <~ get_self ;;
        request <~ http_get (security_tags_url c) (xml_headers tok) ;;
        if status_code request =? codes.ok then
          entity_response <~ parse_xml (content request) ;;
          sec <~ attr "sec_ns" sec_ns ;;
          collect_tags with_permissions (XML.findall entity_response (XML.qname sec "Tag")) []
        else if status_code request =? codes.unauthorized then
          refresh_token ;;;
          (* the retry calls [self.security_tags_base()] with the default argument *)
          security_tags_base fuel' false
        else
          raise (RuntimeError [PInt (status_code request); PStr "security_tags failed"])
  end.

End AuthenticatedAPI.

(* ===================================================================== *)
(** * common.py : AuthenticatedAPI.__init__ *)
(* ===================================================================== *)

Section Constructor.

Variable P : Platform.
(** [os.environ] *)
Variable environ : gmap string string.
(** The sections of [credentials.properties] as [ConfigParser] read
    them; a missing file gives no section. *)
Variable config : gmap string (gmap string string).

(** [bool(x)] for an argument that is [None] or a string. *)
Definition truthy (x : option string) : bool :=
  match x with
  | None => false
  | Some s => negb (String.eqb s "")
  end.

(** [config['credentials'][key]], where [KeyError] is caught and the
    variable keeps the [None] it had. *)
Definition config_credential (key : string) : option string :=
  match config !! "credentials" with
  | Some section => section !! key
  | None => None
  end.

(** The cascade the constructor runs for one credential. *)
Definition resolve (arg : option string) (env_name key : string) : option string :=
  if negb (truthy arg) then
    let value := environ !! env_name in
    match value with
    | None => config_credential key
    | Some _ => value
    end
  else arg.

Definition no_valid (what : string) : string :=
  "No valid " +:+ what +:+
  " found in method arguments, environment variables or credentials.properties file".

Definition new_client (username password : string) (tenant : pyval) (server : string)
           (use_shared_secret : bool) : Client :=
  mkClient username password tenant server use_shared_secret
           None None None None None None None None None None None None.

(** The credential part of the constructor: the four cascades and the
    three checks, in source order. *)
Definition credentials (username password tenant server : option string)
           (use_shared_secret : bool) : result Client :=
  let username := resolve username "PRESERVICA_USERNAME" "username" in
  match (if truthy username then username else None) with
  | None => Raise (RuntimeError [PStr (no_valid "username")])
  | Some u =>
      let password := resolve password "PRESERVICA_PASSWORD" "password" in
      match (if truthy password then password else None) with
      | None => Raise (RuntimeError [PStr (no_valid "password")])
      | Some p =>
          let tenant := resolve tenant "PRESERVICA_TENANT" "tenant" in
          let server := resolve server "PRESERVICA_SERVER" "server" in
          match (if truthy server then server else None) with
          | None => Raise (RuntimeError [PStr (no_valid "server")])
          | Some s => Return (new_client u p (pyval_of_text tenant) s use_shared_secret)
          end
      end
  end.

(** [self.version = self.__version_number__()] followed by
    [self.__version_namespace__()]. *)
Definition version_and_namespace (fuel : nat) : M unit :=
  v <~ __version_number__ P fuel ;;
  update (fun c => with_version c v) ;;;
  __version_namespace__.

(** The network part of the constructor. *)
Definition connect (fuel : nat) : M Client :=
  refresh_token P ;;;
  version_and_namespace fuel ;;;
  r <~ __find_user_roles_ P fuel ;;
  update (fun c => with_roles c r) ;;;
  _ <~ attr "xip_ns" xip_ns ;;
  _ <~ attr "entity_ns" entity_ns ;;
  get_self.

(** [AuthenticatedAPI(username, password, tenant, server, use_shared_secret)]
    on a fresh session. The result is the constructed object; the state
    carries the requests that were sent. *)
Definition __init__ (fuel : nat) (username password tenant server : option string)
           (use_shared_secret : bool) : result Client * list request :=
  match credentials username password tenant server use_shared_secret with
  | Raise e => (Raise e, [])
  | Return c => let '(r, w) := connect fuel (mkWorld c []) in (r, log w)
  end.

End Constructor.

(* ===================================================================== *)
(** * entityAPI.py : class EntityAPI(AuthenticatedAPI) *)
(* ===================================================================== *)

Section EntityAPI.

Variable P : Platform.

(** entityAPI.py takes its global names from
    [from pyPreservica.common import *]. common.py defines
    [entity_from_string] only as a method of [AuthenticatedAPI], so the
    bare name [entity_from_string] that [asset], [folder] and
    [content_object] call is not bound in the module: evaluating it
    raises [NameError]. *)
Definition global_entity_from_string (xml_response : string) : M EntityDict :=
  raise (NameError "entity_from_string").

(** Likewise the classes of common.py set [path], never [_path]:
    reading [entity._path] raises [AttributeError]. *)
Definition getattr__path (entity : Entity) : M string :=
  raise (AttributeError "_path").

(** [f'{x}'] for a value that is [None] or a string. *)
Definition fmt (x : option string) : string :=
  match x with Some s => s | None => "None" end.

Definition token_header (tok : pyval) : list (string * pyval) := [(HEADER_TOKEN, tok)].

Definition entity_url (c : Client) (path : string) (reference : option string) : string :=
  "https://" +:+ server_name c +:+ "/api/entity/" +:+ path +:+ "/" +:+ fmt reference.

Definition not_found_msg := "The requested reference is not found in the repository".

(** [requests.get(url, headers=headers)] where [url] comes from a
    response: [None] has no scheme and is refused before anything is
    sent. *)
Definition get_url (url : option string) (headers : list (string * pyval)) : M response :=
  match url with
  | Some u => http_get P u headers
  | None => raise MissingSchema
  end.

Fixpoint asset (fuel : nat) (reference : option string) : M Entity :=
  match fuel with
  | O => raise RecursionError
  | S fuel' =>
      tok <~ attr "token" token ;;
      c <~ get_self ;;
      request <~ http_get P (entity_url c IO_PATH reference) (token_header tok) ;;
      if status_code request =? codes.ok then
        let xml_response := content request in
        entity <~ global_entity_from_string xml_response ;;
        ret (Asset entity.(d_reference) entity.(d_title) entity.(d_description)
                   entity.(d_security_tag) entity.(d_parent) (Some entity.(d_metadata)))
      else if status_code request =? codes.unauthorized then
        refresh_token P ;;;
        asset fuel' reference
      else if status_code request =? codes.not_found then
        raise (RuntimeError [pyval_of_text reference; PStr not_found_msg])
      else
        raise (RuntimeError [PInt (status_code request);
                             PStr ("asset failed for " +:+ fmt reference)])
  end.

Fixpoint folder (fuel : nat) (reference : option string) : M Entity :=
  match fuel with
  | O => raise RecursionError
  | S fuel' =>
      tok <~ attr "token" token ;;
      c <~ get_self ;;
      request <~ http_get P (entity_url c SO_PATH reference) (token_header tok) ;;
      if status_code request =? codes.ok then
        let xml_response := content request in
        entity <~ global_entity_from_string xml_response ;;
        ret (Folder entity.(d_reference) entity.(d_title) entity.(d_description)
                    entity.(d_security_tag) entity.(d_parent) (Some entity.(d_metadata)))
      else if status_code request =? codes.unauthorized then
        refresh_token P ;;;
        folder fuel' reference
      else if status_code request =? codes.not_found then
        raise (RuntimeError [pyval_of_text reference; PStr not_found_msg])
      else
        raise (RuntimeError [PInt (status_code request);
                             PStr ("folder failed for " +:+ fmt reference)])
  end.

Fixpoint content_object (fuel : nat) (reference : option string) : M Entity :=
  match fuel with
  | O => raise RecursionError
  | S fuel' =>
      tok <~ attr "token" token ;;
      c <~ get_self ;;
      request <~ http_get P (entity_url c CO_PATH reference) (token_header tok) ;;
      if status_code request =? codes.ok then
        let xml_response := content request in
        entity <~ global_entity_from_string xml_response ;;
        ret (ContentObject entity.(d_reference) entity.(d_title) entity.(d_description)
                           entity.(d_security_tag) entity.(d_parent) (Some entity.(d_metadata)))
      else if status_code request =? codes.unauthorized then
        refresh_token P ;;;
        content_object fuel' reference
      else if status_code request =? codes.not_found then
        raise (RuntimeError [pyval_of_text reference; PStr not_found_msg])
      else
        raise (RuntimeError [PInt (status_code request);
                             PStr ("content_object failed for " +:+ fmt reference)])
  end.

Definition XIP6 (name : string) : string := XML.qname "http://preservica.com/XIP/v6.0" name.
Definition ENT6 (name : string) : string := XML.qname "http://preservica.com/EntityAPI/v6.0" name.

(** [content[0]] where [content] is the result of a [find]. *)
Definition first_child (content : option XML.Element) : result XML.Element :=
  match content with
  | None => Raise (TypeError "subscript")
  | Some e => PyStr.index (XML.children e) 0
  end.

Fixpoint metadata_of (fuel : nat) (uri : string) : M string :=
  match fuel with
  | O => raise RecursionError
  | S fuel' =>
      tok <~ attr "token" token ;;
      request <~ http_get P uri (token_header tok) ;;
      if status_code request =? codes.ok then
        entity_response <~ parse_xml P (content request) ;;
        let content := XML.find entity_response (XIP6 "Content") in
        child <~ lift (first_child content) ;;
        ret (tostring P child)
      else if status_code request =? codes.unauthorized then
        refresh_token P ;;;
        metadata_of fuel' uri
      else
        raise (RuntimeError [PInt (status_code request); PStr ("metadata failed for " +:+ uri)])
  end.

Definition children_url (c : Client) (folder_reference : option string) (maximum : Z) : string :=
  match folder_reference with
  | None => "https://" +:+ server_name c +:+ "/api/entity/root/children?start=" +:+
            PyStr.str_of_Z 0 +:+ "&max=" +:+ PyStr.str_of_Z maximum
  | Some r => "https://" +:+ server_name c +:+ "/api/entity/structural-objects/" +:+ r +:+
              "/children?start=" +:+ PyStr.str_of_Z 0 +:+ "&max=" +:+ PyStr.str_of_Z maximum
  end.

(** The loop of [children] over the [Child] elements. *)
Fixpoint child_entities (folder_reference : option string) (children : list XML.Element)
  : result (list Entity) :=
  match children with
  | [] => Return []
  | c :: rest =>
      match XML.get_attrib c "type" with
      | Raise e => Raise e
      | Return ty =>
          match XML.get_attrib c "ref" with
          | Raise e => Raise e
          | Return ref =>
              match XML.get_attrib c "title" with
              | Raise e => Raise e
              | Return title =>
                  let x := if String.eqb ty (EntityType_value FOLDER)
                           then Folder (Some ref) (Some title) None None folder_reference None
                           else Asset (Some ref) (Some title) None None folder_reference None in
                  match child_entities folder_reference rest with
                  | Raise e => Raise e
                  | Return xs => Return (x :: xs)
                  end
              end
          end
      end
  end.

(** [int(total)] in the constructor of [PagedSet]. *)
Definition int_of_text (t : option string) : result Z :=
  match t with
  | None => Raise (TypeError "int")
  | Some s => PyStr.int s
  end.

Fixpoint children (fuel : nat) (folder_reference : option string) (maximum : Z)
         (next_page : option string) : M PagedSet :=
  match fuel with
  | O => raise RecursionError
  | S fuel' =>
      tok <~ attr "token" token ;;
      c <~ get_self ;;
      request <~ (match next_page with
                  | None => http_get P (children_url c folder_reference maximum) (token_header tok)
                  | Some url => http_get P url (token_header tok)
                  end) ;;
      if status_code request =? codes.ok then
        entity_response <~ parse_xml P (content request) ;;
        let children := XML.findall entity_response (ENT6 "Child") in
        let next_url := XML.find entity_response (ENT6 "Next") in
        let total_hits := XML.find entity_response (ENT6 "TotalResults") in
        result <~ lift (child_entities folder_reference children) ;;
        let has_more := match next_url with None => false | Some _ => true end in
        let url := match next_url with None => None | Some n => XML.text n end in
        total_text <~ lift (text_of total_hits) ;;
        total <~ lift (int_of_text total_text) ;;
        ret (mkPagedSet result has_more total url)
      else if status_code request =? codes.unauthorized then
        refresh_token P ;;;
        children fuel' folder_reference maximum next_page
      else
        raise (RuntimeError [PInt (status_code request); PStr "children failed"])
  end.

Definition identifiers_url (c : Client) (path : string) (reference : option string) : string :=
  "https://" +:+ server_name c +:+ "/api/entity/" +:+ path +:+ "/" +:+ fmt reference +:+
  "/identifiers".

(** The inner loop of [identifiers_for_entity] over the children of one
    [Identifier] element. *)
Fixpoint type_and_value (children : list XML.Element)
         (identifier_type identifier_value : option string)
  : option string * option string :=
  match children with
  | [] => (identifier_type, identifier_value)
  | child :: rest =>
      let identifier_type :=
        if String.eqb (XML.tag child) (XIP6 "Type") then XML.text child else identifier_type in
      let identifier_value :=
        if String.eqb (XML.tag child) (XIP6 "Value") then XML.text child else identifier_value in
      type_and_value rest identifier_type identifier_value
  end.

Fixpoint identifiers_for_entity (fuel : nat) (entity : Entity)
  : M (gset (option string * option string)) :=
  match fuel with
  | O => raise RecursionError
  | S fuel' =>
      tok <~ attr "token" token ;;
      c <~ get_self ;;
      path <~ getattr__path entity ;;
      request <~ http_get P (identifiers_url c path entity.(reference)) (token_header tok) ;;
      if status_code request =? codes.ok then
        entity_response <~ parse_xml P (content request) ;;
        let identifier_list := XML.findall entity_response (XIP6 "Identifier") in
        ret (list_to_set
               (map (fun identifier => type_and_value (XML.children identifier) (Some "") (Some ""))
                    identifier_list))
      else if status_code request =? codes.unauthorized then
        refresh_token P ;;;
        identifiers_for_entity fuel' entity
      else
        raise (RuntimeError [PInt (status_code request); PStr "identifiers_for_entity failed"])
  end.

Definition is_Asset (e : Entity) : bool :=
  match e.(entity_type) with ASSET => true | _ => false end.

(** The loop of [representations]. *)
Fixpoint representation_list (asset : Entity) (rs : list XML.Element)
  : result (list Representation) :=
  match rs with
  | [] => Return []
  | r :: rest =>
      match XML.get_attrib r "type" with
      | Raise e => Raise e
      | Return ty =>
          match XML.get_attrib r "name" with
          | Raise e => Raise e
          | Return name =>
              match representation_list asset rest with
              | Raise e => Raise e
              | Return xs => Return (mkRepresentation asset ty name (XML.text r) :: xs)
              end
          end
      end
  end.

(** [representations]; the result is [None] when the argument is not
    an [Asset]. *)
Fixpoint representations (fuel : nat) (asset : Entity) : M (option (list Representation)) :=
  match fuel with
  | O => raise RecursionError
  | S fuel' =>
      tok <~ attr "token" token ;;
      if negb (is_Asset asset) then ret None
      else
        c <~ get_self ;;
        path <~ getattr__path asset ;;
        request <~ http_get P ("https://" +:+ server_name c +:+ "/api/entity/" +:+ path +:+ "/"
                               +:+ fmt asset.(reference) +:+ "/representations")
                            (token_header tok) ;;
        if status_code request =? codes.ok then
          entity_response <~ parse_xml P (content request) ;;
          let representations := XML.findall entity_response (ENT6 "Representation") in
          result <~ lift (representation_list asset representations) ;;
          ret (Some result)
        else if status_code request =? codes.unauthorized then
          refresh_token P ;;;
          representations fuel' asset
        else
          raise (RuntimeError [PInt (status_code request); PStr "representations failed"])
  end.

(** [f[0].text] and [f[1].text] for one [Fixity] element. *)
Definition fixity_pair (f : XML.Element) : result (option string * option string) :=
  match PyStr.index (XML.children f) 0 with
  | Raise e => Raise e
  | Return k =>
      match PyStr.index (XML.children f) 1 with
      | Raise e => Raise e
      | Return v => Return (XML.text k, XML.text v)
      end
  end.

Fixpoint fixity_dict (fs : list XML.Element) (fixity : list (option string * option string))
  : result (list (option string * option string)) :=
  match fs with
  | [] => Return fixity
  | f :: rest =>
      match fixity_pair f with
      | Raise e => Raise e
      | Return (k, v) => fixity_dict rest (dict_set fixity k v)
      end
  end.

Fixpoint bitstream (fuel : nat) (url : option string) : M Bitstream :=
  match fuel with
  | O => raise RecursionError
  | S fuel' =>
      tok <~ attr "token" token ;;
      request <~ get_url url (token_header tok) ;;
      if status_code request =? codes.ok then
        entity_response <~ parse_xml P (content request) ;;
        let filename := XML.find entity_response (XIP6 "Filename") in
        let filesize := XML.find entity_response (XIP6 "FileSize") in
        let fixity_values := XML.findall entity_response (XIP6 "Fixity") in
        let content := XML.find entity_response (ENT6 "Content") in
        fixity <~ lift (fixity_dict fixity_values []) ;;
        length <~ lift (int_of_text (text_or_None filesize)) ;;
        ret (mkBitstream (text_or_None filename) length fixity (text_or_None content))
      else if status_code request =? codes.unauthorized then
        refresh_token P ;;;
        bitstream fuel' url
      else
        raise (RuntimeError [PInt (status_code request); PStr "bitstream failed"])
  end.

(** [bool(ge.attrib[key])]: a string is true when it is not empty. *)
Definition bool_attrib (ge : option XML.Element) (key : string) : result bool :=
  match ge with
  | None => Raise (AttributeError "attrib")
  | Some e =>
      match XML.get_attrib e key with
      | Raise x => Raise x
      | Return s => Return (negb (String.eqb s ""))
      end
  end.

Fixpoint generation (fuel : nat) (url : option string) : M Generation :=
  match fuel with
  | O => raise RecursionError
  | S fuel' =>
      tok <~ attr "token" token ;;
      request <~ get_url url (token_header tok) ;;
      if status_code request =? codes.ok then
        entity_response <~ parse_xml P (content request) ;;
        let ge := XML.find entity_response (XIP6 "Generation") in
        let format_group := XML.find entity_response (XIP6 "FormatGroup") in
        let effective_date := XML.find entity_response (XIP6 "EffectiveDate") in
        let bitstreams := XML.findall entity_response (ENT6 "Bitstream") in
        bitstream_list <~ for_each (fun bit => bitstream fuel' (XML.text bit)) bitstreams ;;
        original <~ lift (bool_attrib ge "original") ;;
        active <~ lift (bool_attrib ge "active") ;;
        ret (mkGeneration original active None (text_or_None format_group)
                          (text_or_None effective_date) bitstream_list)
      else if status_code request =? codes.unauthorized then
        refresh_token P ;;;
        generation fuel' url
      else
        raise (RuntimeError [PInt (status_code request); PStr "generation failed"])
  end.

Definition with_content_object (g : Generation) (co : Entity) : Generation :=
  mkGeneration g.(g_original) g.(g_active) (Some co) g.(g_format_group)
               g.(g_effective_date) g.(g_bitstreams).

Definition generations_url (c : Client) (reference : option string) : string :=
  "https://" +:+ server_name c +:+ "/api/entity/" +:+ CO_PATH +:+ "/" +:+ fmt reference +:+
  "/generations".

Fixpoint generations (fuel : nat) (content_object : Entity) : M (list Generation) :=
  match fuel with
  | O => raise RecursionError
  | S fuel' =>
      tok <~ attr "token" token ;;
      c <~ get_self ;;
      request <~ http_get P (generations_url c content_object.(reference)) (token_header tok) ;;
      if status_code request =? codes.ok then
        entity_response <~ parse_xml P (content request) ;;
        let generations := XML.findall entity_response (ENT6 "Generation") in
        for_each (fun g =>
                    generation <~ generation fuel' (XML.text g) ;;
                    ret (with_content_object generation content_object))
                 generations
      else if status_code request =? codes.unauthorized then
        refresh_token P ;;;
        generations fuel' content_object
      else
        raise (RuntimeError [PInt (status_code request); PStr "generations failed"])
  end.

Definition with_representation (co : Entity) (r : Representation) : Entity :=
  mkEntity co.(reference) co.(title) co.(description) co.(security_tag) co.(parent)
           co.(metadata) co.(entity_type) co.(path) co.(tag)
           (Some r.(rep_type)) (Some r.(rep_asset)).

(** [content_objects]; a [Representation] argument is assumed, so the
    [isinstance] test passes. The URL is [f'{representation.url}']. *)
Fixpoint content_objects (fuel : nat) (representation : Representation) : M (list Entity) :=
  match fuel with
  | O => raise RecursionError
  | S fuel' =>
      tok <~ attr "token" token ;;
      request <~ get_url representation.(rep_url) (token_header tok) ;;
      if status_code request =? codes.ok then
        entity_response <~ parse_xml P (content request) ;;
        let content_objects := XML.findall entity_response (XIP6 "ContentObject") in
        for_each (fun co =>
                    content_object <~ content_object fuel' (XML.text co) ;;
                    ret (with_representation content_object representation))
                 content_objects
      else if status_code request =? codes.unauthorized then
        refresh_token P ;;;
        content_objects fuel' representation
      else
        raise (RuntimeError [PInt (status_code request); PStr "content_objects failed"])
  end.

(** The inner loop of [delete_identifiers] over the children of one
    [Identifier] element. *)
Fixpoint identifier_fields (children : list XML.Element)
         (identifier_type identifier_value : option string)
         (_ref _type _value _aipid : option string)
  : option string * option string * option string * option string :=
  match children with
  | [] => (_ref, _type, _value, _aipid)
  | identifier :: rest =>
      let _ref :=
        if String.eqb (XML.tag identifier) (XIP6 "Entity") then XML.text identifier else _ref in
      let _type :=
        if String.eqb (XML.tag identifier) (XIP6 "Type") && bool_decide (identifier_type <> None)
        then XML.text identifier else _type in
      let _value :=
        if String.eqb (XML.tag identifier) (XIP6 "Value") && bool_decide (identifier_value <> None)
        then XML.text identifier else _value in
      let _aipid :=
        if String.eqb (XML.tag identifier) (XIP6 "ApiId") then XML.text identifier else _aipid in
      identifier_fields rest identifier_type identifier_value _ref _type _value _aipid
  end.

(** [delete_identifiers]; the result is the entity, or [None] when a
    DELETE was answered by something else than 204 or 401. *)
Fixpoint delete_identifiers (fuel : nat) (entity : Entity)
         (identifier_type identifier_value : option string) : M (option Entity) :=
  match fuel with
  | O => raise RecursionError
  | S fuel' =>
      tok <~ attr "token" token ;;
      let headers := token_header tok in
      c <~ get_self ;;
      path <~ getattr__path entity ;;
      request <~ http_get P (identifiers_url c path entity.(reference)) headers ;;
      if status_code request =? codes.ok then
        entity_response <~ parse_xml P (content request) ;;
        let identifier_list := XML.findall entity_response (XIP6 "Identifier") in
        (fix loop (l : list XML.Element) : M (option Entity) :=
           match l with
           | [] => ret (Some entity)
           | identifier_element :: rest =>
               let '(_ref, _type, _value, _aipid) :=
                 identifier_fields (XML.children identifier_element)
                                   identifier_type identifier_value None None None None in
               if bool_decide (_ref = entity.(reference)) && bool_decide (_type = identifier_type)
                  && bool_decide (_value = identifier_value)
               then
                 c <~ get_self ;;
                 path <~ getattr__path entity ;;
                 del_req <~ http_delete P (identifiers_url c path entity.(reference) +:+ "/"
                                           +:+ fmt _aipid) headers ;;
                 if status_code del_req =? codes.unauthorized then
                   refresh_token P ;;;
                   delete_identifiers fuel' entity identifier_type identifier_value
                 else if status_code del_req =? codes.no_content then loop rest
                 else ret None
               else loop rest
           end) identifier_list
      else if status_code request =? codes.unauthorized then
        refresh_token P ;;;
        delete_identifiers fuel' entity identifier_type identifier_value
      else
        raise (RuntimeError [PInt (status_code request); PStr "delete_identifier failed"])
  end.

End EntityAPI.

(* ===================================================================== *)
(** * Test platforms *)
(* ===================================================================== *)

(** A server that answers the n-th request it sees with the n-th
    response of a script, and with [fallback] once the script is used up. *)
Definition scripted (script : list response) (fallback : response) : list request -> response :=
  fun history => nth (length history - 1) script fallback.

(** A JSON decoder for tests: every body is an object whose [token] is
    the body text. *)
Definition body_as_token (body : string) : option pyval :=
  Some (PDict [("token", PStr body); ("tenant", PStr "acme"); ("roles", PList [])]).

(** An XML parser for tests: the body is the text of a single element. *)
Definition body_as_element (body : string) : option XML.Element :=
  Some (XML.Elem "Body" [] (Some body) []).

Definition test_platform (script : list response) : Platform :=
  mkPlatform (scripted script (mkResponse 500 "")) (fun _ => 1700000000)
             (fun s => "sha1:" +:+ s) body_as_token body_as_element XML.tag.

Definition test_client (tenant : pyval) (secret : bool) : Client :=
  mkClient "alice" "pw" tenant "example.org" secret (Some (PStr "t0"))
           None None None None None None None None None None None.

Definition r401 := mkResponse 401 "".
Definition r404 := mkResponse 404 "".
Definition r200 (body : string) := mkResponse 200 body.

(* ===================================================================== *)
(** * os.path *)
(* ===================================================================== *)

Module path.

Definition chars (s : string) : list ascii := list_ascii_of_string s.
Definition str (l : list ascii) : string := string_of_list_ascii l.

Definition is_sep (c : ascii) : bool := Ascii.eqb c "/".

(** The characters after the last character that satisfies [p], and the
    characters up to and including it. *)
Fixpoint after_last (p : ascii -> bool) (l : list ascii) : list ascii :=
  match l with
  | [] => []
  | c :: l' => if existsb p l' then after_last p l' else if p c then l' else c :: l'
  end.

Definition upto_last (p : ascii -> bool) (l : list ascii) : list ascii :=
  take (length l - length (after_last p l)) l.

(** [os.path.basename(p)] *)
Definition basename (p : string) : string := str (after_last is_sep (chars p)).

(** [s.rstrip('/')] *)
Definition rstrip_sep (l : list ascii) : list ascii :=
  rev ((fix go (r : list ascii) :=
          match r with
          | c :: r' => if is_sep c then go r' else r
          | [] => []
          end) (rev l)).

(** [os.path.dirname(p)] *)
Definition dirname (p : string) : string :=
  let head := if existsb is_sep (chars p) then upto_last is_sep (chars p) else [] in
  if forallb is_sep head then str head else str (rstrip_sep head).

(** [os.path.join(a, b)] *)
Definition join (a b : string) : string :=
  match chars b with
  | "/"%char :: _ => b
  | _ =>
      match rev (chars a) with
      | [] => b
      | "/"%char :: _ => a +:+ b
      | _ => a +:+ "/" +:+ b
      end
  end.

Fixpoint drop_dots (l : list ascii) : list ascii :=
  match l with
  | "."%char :: l' => drop_dots l'
  | _ => l
  end.

(** [os.path.splitext(p)[0]]: the extension starts at the last dot of
    the base name, unless only dots precede it there. *)
Definition splitext_root (p : string) : string :=
  let l := chars p in
  let name := after_last is_sep l in
  let core := drop_dots name in
  if existsb (fun c => Ascii.eqb c ".") core
  then str (take (length l - length (after_last (fun c => Ascii.eqb c ".") core) - 1) l)
  else p.

End path.

(* ===================================================================== *)
(** * uploadAPI.py : the package builders *)
(* ===================================================================== *)

(** What a path of the file system holds. A zip archive holds the tree
    that was packed, keyed by the paths relative to its root. *)
Inductive node : Type :=
| Dir
| File (bytes : string)
| ZipFile (entries : gmap string node).

(** The file system is keyed by path strings in canonical spelling (no
    trailing separator, no [.] or [..] component). *)
Definition filesystem := gmap string node.

(** The state of a package builder: the disk, and how many identifiers
    and time stamps have been drawn. *)
Record disk : Type := mkDisk {
  fs : gmap string node;
  uuids_drawn : nat;
  clock_reads : nat
}.

(** The result of a fixity callback. *)
Inductive fixity_result : Type :=
| FixityTuple (algorithm value : string)
| FixityDict (d : list (string * string))
| FixityOther.

(** What the builders take from outside. *)
Record Host : Type := mkHost {
  uuid4 : nat -> string;
  now_isoformat : nat -> string;
  st_size : node -> Z;
  sha1_of_file : node -> string;
  parse_file : node -> option XML.Element;
  parse_string : string -> option XML.Element;
  prettify : XML.Element -> string;
  gettempdir : string
}.

(** A content title or description in the keyword arguments: a string
    for all files or a dictionary by file. *)
Inductive text_or_dict : Type :=
| Text (s : string)
| Dict (d : list (string * string)).

(** The keyword arguments the builders read; [None] is an absent key. *)
Record Kwargs : Type := mkKwargs {
  Title : option string;
  Description : option string;
  SecurityTag : option string;
  CustomType : option string;
  Preservation_Content_Title : option text_or_dict;
  Preservation_Content_Description : option text_or_dict;
  Access_Content_Title : option text_or_dict;
  Access_Content_Description : option text_or_dict;
  Preservation_Generation_Label : option string;
  Access_Generation_Label : option string;
  Asset_Metadata : option (list (string * string));
  Identifiers : option (list (string * string));
  Preservation_files_fixity_callback : option (string -> string -> fixity_result);
  Access_files_fixity_callback : option (string -> string -> fixity_result);
  IO_Identifier_callback : option string;
  Preservation_Representation_Name : option string;
  Access_Representation_Name : option string
}.

Definition no_kwargs : Kwargs :=
  mkKwargs None None None None None None None None None None None None None None None None None.

(** The [parent_folder] argument when it is not [None]: an object with a
    [reference] attribute, a string, or something else. *)
Inductive parent_arg : Type :=
| ParentFolder (reference : option string)
| ParentRef (reference : string)
| ParentOther.

Section Packages.

Variable host : Host.

Definition B (A : Type) : Type := Prog disk A.

(** [str(uuid.uuid4())] *)
Definition new_uuid : B string :=
  fun d => (Return (uuid4 host (uuids_drawn d)), mkDisk (fs d) (S (uuids_drawn d)) (clock_reads d)).

(** [datetime.now().isoformat()] *)
Definition now : B string :=
  fun d => (Return (now_isoformat host (clock_reads d)),
            mkDisk (fs d) (uuids_drawn d) (S (clock_reads d))).

Definition read_fs : B (gmap string node) := fun d => (Return (fs d), d).
Definition write_fs (f : gmap string node) : B unit :=
  fun d => (Return tt, mkDisk f (uuids_drawn d) (clock_reads d)).

Definition isdir (f : gmap string node) (p : string) : bool :=
  match f !! p with Some Dir => true | _ => false end.

Definition isfile (f : gmap string node) (p : string) : bool :=
  match f !! p with Some (File _) | Some (ZipFile _) => true | _ => false end.

(** [os.mkdir(p)] *)
Definition mkdir (p : string) : B unit :=
  f <~ read_fs ;;
  match f !! p with
  | Some _ => raise (FileExistsError p)
  | None =>
      if isdir f (path.dirname p) then write_fs (<[p := Dir]> f)
      else raise (FileNotFoundError p)
  end.

(** Writing a whole file: [open(p, "wt")], [write], [close]. *)
Definition write_file (p : string) (n : node) : B unit :=
  f <~ read_fs ;;
  match f !! p with
  | Some Dir => raise (IsADirectoryError p)
  | _ =>
      if isdir f (path.dirname p) then write_fs (<[p := n]> f)
      else raise (FileNotFoundError p)
  end.

(** The file at [p], for [os.stat], [open] and the parsers. *)
Definition read_file (p : string) : B node :=
  f <~ read_fs ;;
  match f !! p with
  | Some Dir => raise (IsADirectoryError p)
  | Some n => ret n
  | None => raise (FileNotFoundError p)
  end.

(** [os.stat(p).st_size] *)
Definition stat_size (p : string) : B Z :=
  f <~ read_fs ;;
  match f !! p with
  | Some n => ret (st_size host n)
  | None => raise (FileNotFoundError p)
  end.

(** [shutil.copyfile(src, dst)] *)
Definition copyfile (src dst : string) : B unit :=
  if String.eqb src dst then raise (SameFileError src)
  else n <~ read_file src ;; write_file dst n.

(** [p] relative to the directory [root], when it lies below it. *)
Fixpoint strip_prefix (pre s : list ascii) : option (list ascii) :=
  match pre, s with
  | [], _ => Some s
  | a :: pre', b :: s' => if Ascii.eqb a b then strip_prefix pre' s' else None
  | _ :: _, [] => None
  end.

Definition below (root p : string) : option string :=
  match strip_prefix (path.chars (root +:+ "/")) (path.chars p) with
  | Some (c :: rel) => Some (path.str (c :: rel))
  | _ => None
  end.

(** The tree below [root], keyed by relative path. *)
Definition subtree (root : string) (f : gmap string node) : gmap string node :=
  list_to_map
    (omap (M := list)
          (fun kv : string * node =>
             match below root kv.1 with
             | Some rel => Some (rel, kv.2)
             | None => None
             end)
          (map_to_list f)).

(** [shutil.rmtree(root)], for a directory. *)
Definition rmtree (root : string) : B unit :=
  f <~ read_fs ;;
  if isdir f root then
    write_fs (filter (fun kv => kv.1 <> root /\ below root kv.1 = None) f)
  else raise (FileNotFoundError root).

(** [shutil.make_archive(base, format, root_dir)] with the two formats
    of the builders. The built-in [zip] format packs the tree below
    [root_dir] into [base + ".zip"]. The format [szip] is the function
    [_make_stored_zipfile] of common.py, registered by the builders;
    [make_archive] calls a registered function with the keyword
    arguments [dry_run], [logger], [owner] and [group], and
    [_make_stored_zipfile] has no parameter [logger] (it names it
    [zlogger]), so the call raises [TypeError]. *)
Definition make_archive (base : string) (compress : bool) (root_dir : string) : B string :=
  f <~ read_fs ;;
  if negb (isdir f root_dir) then raise (FileNotFoundError root_dir)
  else if compress then
    write_file (base +:+ ".zip") (ZipFile (subtree root_dir f)) ;;;
    ret (base +:+ ".zip")
  else raise (TypeError "_make_stored_zipfile() got an unexpected keyword argument 'logger'").

(** [kwargs.get(key, default)] *)
Definition kwargs_get {A} (value : option A) (default : A) : A :=
  match value with Some v => v | None => default end.

Definition leaf (tag : string) (text : option string) : XML.Element :=
  XML.Elem tag [] text [].

(** The tree and the reference of the asset, once [__create_io__] has
    run; [None] while [xip] and [io_ref] are still [None]. *)
Definition asset_state : Type := option (XML.Element * string).

(** [SubElement(xip, ...)] where [xip] may still be [None]. *)
Definition SubElement_opt (asset : asset_state) (child : string -> XML.Element)
  : B asset_state :=
  match asset with
  | Some (xip, io_ref) => ret (Some (XML.SubElement xip (child io_ref), io_ref))
  | None => raise (TypeError "SubElement() argument 1 must be xml.etree.ElementTree.Element, not None")
  end.

(** [xip.set(key, value)] *)
Definition set_attrib (e : XML.Element) (key value : string) : XML.Element :=
  let 'XML.Elem t a x cs := e in XML.Elem t (dict_set a key value) x cs.

Definition __create_io__ (xip : option XML.Element) (file_name : string)
           (parent_folder : parent_arg) (kwargs : Kwargs) : B (XML.Element * string) :=
  let xip := match xip with None => XML.Elem "XIP" [] None [] | Some x => x end in
  let xip := set_attrib xip "xmlns" "http://preservica.com/XIP/v6.0" in
  ref <~ (match IO_Identifier_callback kwargs with
          | Some ident => ret ident
          | None => new_uuid
          end) ;;
  let parent :=
    match parent_folder with
    | ParentFolder reference => reference
    | ParentRef s => Some s
    | ParentOther => None
    end in
  let io :=
    XML.Elem "InformationObject" [] None
      [leaf "Ref" (Some ref);
       leaf "Title" (Some (kwargs_get (Title kwargs) file_name));
       leaf "Description" (Some (kwargs_get (Description kwargs) file_name));
       leaf "SecurityTag" (Some (kwargs_get (SecurityTag kwargs) "open"));
       leaf "CustomType" (Some (kwargs_get (CustomType kwargs) ""));
       leaf "Parent" parent] in
  ret (XML.SubElement xip io, ref).

(** The loop of [__make_representation_multiple_co__]: one fresh
    reference per file, entered in the [ContentObjects] element and in
    the dictionary from reference to file. *)
Fixpoint content_object_refs (rep_files : list string) (content_objects : list XML.Element)
         (refs_dict : list (string * string))
  : B (list XML.Element * list (string * string)) :=
  match rep_files with
  | [] => ret (content_objects, refs_dict)
  | f :: rest =>
      content_object_ref <~ new_uuid ;;
      content_object_refs rest
        (content_objects ++ [leaf "ContentObject" (Some content_object_ref)])
        (dict_set refs_dict content_object_ref f)
  end.

Definition __make_representation_multiple_co__ (xip : XML.Element) (rep_name rep_type : string)
           (rep_files : list string) (io_ref : string)
  : B (XML.Element * list (string * string)) :=
  r <~ content_object_refs rep_files [] [] ;;
  let '(content_objects, refs_dict) := r in
  let representation :=
    XML.Elem "Representation" [] None
      [leaf "InformationObject" (Some io_ref);
       leaf "Name" (Some rep_name);
       leaf "Type" (Some rep_type);
       XML.Elem "ContentObjects" [] None content_objects] in
  ret (XML.SubElement xip representation, refs_dict).

Definition __make_content_objects__ (xip : XML.Element) (content_title co_ref io_ref tag
                                     content_description content_type : string) : XML.Element :=
  XML.SubElement xip
    (XML.Elem "ContentObject" [] None
       [leaf "Ref" (Some co_ref);
        leaf "Title" (Some content_title);
        leaf "Description" (Some content_description);
        leaf "SecurityTag" (Some tag);
        leaf "CustomType" (Some content_type);
        leaf "Parent" (Some io_ref)]).

Definition __make_generation__ (xip : XML.Element) (filename co_ref generation_label : string)
  : B XML.Element :=
  let label := if String.eqb generation_label "" then path.splitext_root filename
               else generation_label in
  effective_date <~ now ;;
  ret (XML.SubElement xip
         (XML.Elem "Generation" [("original", "true"); ("active", "true")] None
            [leaf "ContentObject" (Some co_ref);
             leaf "Label" (Some label);
             leaf "EffectiveDate" (Some effective_date);
             XML.Elem "Bitstreams" [] None [leaf "Bitstream" (Some filename)];
             leaf "Formats" None;
             leaf "Properties" None])).

(** [Sha1FixityCallBack()(filename, full_path)] reads the file. *)
Definition Sha1FixityCallBack (filename full_path : string) : B fixity_result :=
  n <~ read_file full_path ;;
  ret (FixityTuple "SHA1" (sha1_of_file host n)).

Definition fixity_element (algorithm value : string) : XML.Element :=
  XML.Elem "Fixity" [] None
    [leaf "FixityAlgorithmRef" (Some algorithm); leaf "FixityValue" (Some value)].

Definition __make_bitstream__ (xip : XML.Element) (file_name full_path : string)
           (callback : string -> string -> B fixity_result) : B XML.Element :=
  size <~ stat_size full_path ;;
  let filesize := PyStr.str_of_Z size in
  fixity_result <~ callback file_name full_path ;;
  fixities <~ (match fixity_result with
               | FixityTuple a v => ret [fixity_element a v]
               | FixityDict d => ret (map (fun kv => fixity_element kv.1 kv.2) d)
               | FixityOther => raise (RuntimeError [PStr "Could Not Find Fixity Value"])
               end) ;;
  ret (XML.SubElement xip
         (XML.Elem "Bitstream" [] None
            [leaf "Filename" (Some file_name);
             leaf "FileSize" (Some filesize);
             leaf "PhysicalLocation" None;
             XML.Elem "Fixities" [] None fixities])).

(** The fixity callback of a representation: the one of the keyword
    arguments, or [Sha1FixityCallBack()]. *)
Definition fixity_callback (given : option (string -> string -> fixity_result))
  : string -> string -> B fixity_result :=
  match given with
  | Some f => fun name full_path => ret (f name full_path)
  | None => Sha1FixityCallBack
  end.

(** Running the entries of a dictionary through a step that extends the
    tree. *)
Fixpoint fold_xip {A} (step : XML.Element -> A -> B XML.Element) (l : list A)
         (xip : XML.Element) : B XML.Element :=
  match l with
  | [] => ret xip
  | a :: rest => x <~ step xip a ;; fold_xip step rest x
  end.

(** The [Identifiers] block, the same in both builders. *)
Fixpoint add_identifiers (identifier_map : list (string * string)) (asset : asset_state)
  : B asset_state :=
  match identifier_map with
  | [] => ret asset
  | (identifier_key, identifier_value) :: rest =>
      if negb (String.eqb identifier_key "") && negb (String.eqb identifier_value "") then
        asset <~ SubElement_opt asset
                   (fun io_ref =>
                      XML.Elem "Identifier" [] None
                        [leaf "Type" (Some identifier_key);
                         leaf "Value" (Some identifier_value);
                         leaf "Entity" (Some io_ref)]) ;;
        add_identifiers rest asset
      else add_identifiers rest asset
  end.

(** One [Metadata] element: [SubElement(xip, 'Metadata', ...)] comes
    first, then the reference is drawn. *)
Definition metadata_element (asset : asset_state) (metadata_ns : string) (root : XML.Element)
  : B asset_state :=
  match asset with
  | None => raise (TypeError "SubElement() argument 1 must be xml.etree.ElementTree.Element, not None")
  | Some _ =>
      metadata_ref <~ new_uuid ;;
      SubElement_opt asset
        (fun io_ref =>
           XML.Elem "Metadata" [("schemaUri", metadata_ns)] None
             [leaf "Ref" (Some metadata_ref); leaf "Entity" (Some io_ref);
              XML.Elem "Content" [] None [root]])
  end.

(** The [Asset_Metadata] block. [inline] tells whether a value that is
    not the path of a file is parsed as a document, which
    [complex_asset_package] does and [generic_asset_package] does not. *)
Fixpoint add_asset_metadata (inline : bool) (metadata_map : list (string * string))
         (asset : asset_state) : B asset_state :=
  match metadata_map with
  | [] => ret asset
  | (metadata_ns, metadata_path) :: rest =>
      if negb (String.eqb metadata_ns "") && negb (String.eqb metadata_path "") then
        f <~ read_fs ;;
        if isfile f metadata_path then
          n <~ read_file metadata_path ;;
          match parse_file host n with
          | None => raise ParseError
          | Some root =>
              asset <~ metadata_element asset metadata_ns root ;;
              add_asset_metadata inline rest asset
          end
        else if inline then
          match parse_string host metadata_path with
          | None => raise ParseError
          | Some root =>
              asset <~ metadata_element asset metadata_ns root ;;
              add_asset_metadata inline rest asset
          end
        else add_asset_metadata inline rest asset
      else add_asset_metadata inline rest asset
  end.

(** The copies into the [content] folder, for one dictionary from
    reference to file. *)
Fixpoint copy_content (inner_folder : string) (refs_dict : list (string * string)) : B unit :=
  match refs_dict with
  | [] => ret tt
  | (content_ref, filename) :: rest =>
      let src_file := filename in
      let dst_file := path.join (path.join inner_folder "content") (path.basename filename) in
      copyfile src_file dst_file ;;;
      copy_content inner_folder rest
  end.

(** The last block of both builders, entered when [xip] is not [None]:
    staging folders, [metadata.xml], copies, archive, clean-up. *)
Definition write_package (xip : XML.Element) (io_ref export_folder : string) (compress : bool)
           (preservation_refs access_refs : list (string * string)) : B string :=
  let top_level_folder := path.join export_folder io_ref in
  mkdir top_level_folder ;;;
  let inner_folder := path.join top_level_folder io_ref in
  mkdir inner_folder ;;;
  mkdir (path.join inner_folder "content") ;;;
  let metadata_path := path.join inner_folder "metadata.xml" in
  write_file metadata_path (File (prettify host xip)) ;;;
  copy_content inner_folder preservation_refs ;;;
  copy_content inner_folder access_refs ;;;
  make_archive top_level_folder compress top_level_folder ;;;
  rmtree top_level_folder ;;;
  ret (top_level_folder +:+ ".zip").

(** The blocks after the bitstreams, the same in both builders up to
    [inline]: identifiers, asset metadata, and the package when there is
    a tree. The result is [None] when there is none. *)
Definition finish (inline : bool) (asset : asset_state) (export_folder : string)
           (compress : bool) (kwargs : Kwargs)
           (preservation_refs access_refs : list (string * string)) : B (option string) :=
  asset <~ (match Identifiers kwargs with
            | Some identifier_map => add_identifiers identifier_map asset
            | None => ret asset
            end) ;;
  asset <~ (match Asset_Metadata kwargs with
            | Some metadata_map => add_asset_metadata inline metadata_map asset
            | None => ret asset
            end) ;;
  match asset with
  | Some (xip, io_ref) =>
      zip <~ write_package xip io_ref export_folder compress preservation_refs access_refs ;;
      ret (Some zip)
  | None => ret None
  end.

(** [bool((l is not None) and (len(l) > 0))] *)
Definition has_files {A} (l : option (list A)) : bool :=
  match l with
  | Some (_ :: _) => true
  | _ => false
  end.

Definition files_of {A} (l : option (list A)) : list A :=
  match l with Some x => x | None => [] end.

(** [d[filename]] on a content title given as a dictionary. *)
Definition by_file (d : list (string * string)) (filename : string) : B string :=
  match dict_get d filename with
  | Some v => ret v
  | None => raise (KeyError filename)
  end.

(** The validation both builders start with. *)
Definition validate (export_folder : option string) (parent_folder : option parent_arg)
  : B (string * parent_arg) :=
  let export_folder := match export_folder with
                       | None => gettempdir host
                       | Some e => e
                       end in
  f <~ read_fs ;;
  if negb (isdir f export_folder) then
    raise (RuntimeError [PStr export_folder; PStr "Export Folder Does Not Exist"])
  else
    match parent_folder with
    | None => raise (RuntimeError [PStr "You must specify a parent folder for the package asset"])
    | Some p => ret (export_folder, p)
    end.

(** [os.path.splitext(os.path.basename(l[0]))[0]] *)
Definition first_title (l : list string) : B string :=
  match l with
  | f :: _ => ret (path.splitext_root (path.basename f))
  | [] => raise IndexError
  end.

(** The content object of one preservation file in
    [complex_asset_package]. *)
Definition complex_preservation_content (kwargs : Kwargs) (io_ref security_tag content_type : string)
           (xip : XML.Element) (item : string * string) : B XML.Element :=
  let '(content_ref, filename) := item in
  let default_content_objects_title := path.splitext_root (path.basename filename) in
  let preservation_content_title :=
    kwargs_get (Preservation_Content_Title kwargs) (Text default_content_objects_title) in
  let preservation_content_description :=
    kwargs_get (Preservation_Content_Description kwargs) (Text default_content_objects_title) in
  title <~ (match preservation_content_title with
            | Text s => ret s
            | Dict d => by_file d filename
            end) ;;
  description <~ (match preservation_content_description with
                  | Text s => ret s
                  | Dict d => by_file d filename
                  end) ;;
  ret (__make_content_objects__ xip title content_ref io_ref security_tag description content_type).

(** The content object of one access file in [complex_asset_package].
    When the description is a dictionary the source subscripts the
    title, by then a string, with the file name. *)
Definition complex_access_content (kwargs : Kwargs) (io_ref security_tag content_type : string)
           (xip : XML.Element) (item : string * string) : B XML.Element :=
  let '(content_ref, filename) := item in
  let default_content_objects_title := path.splitext_root (path.basename filename) in
  let access_content_title :=
    kwargs_get (Access_Content_Title kwargs) (Text default_content_objects_title) in
  let access_content_description :=
    kwargs_get (Access_Content_Description kwargs) (Text default_content_objects_title) in
  title <~ (match access_content_title with
            | Text s => ret s
            | Dict d => by_file d filename
            end) ;;
  match access_content_description with
  | Text description =>
      ret (__make_content_objects__ xip title content_ref io_ref security_tag description
                                    content_type)
  | Dict _ => raise (TypeError "string indices must be integers")
  end.

Definition generation_step (label : string) (xip : XML.Element) (item : string * string)
  : B XML.Element :=
  let '(content_ref, filename) := item in
  __make_generation__ xip (path.basename filename) content_ref label.

Definition bitstream_step (callback : string -> string -> B fixity_result)
           (xip : XML.Element) (item : string * string) : B XML.Element :=
  let '(content_ref, filename) := item in
  __make_bitstream__ xip (path.basename filename) filename callback.

(** [complex_asset_package]. The blocks that the source guards with
    [has_preservation_files] or [has_access_files] loop over a
    dictionary that is empty when the guard is false. *)
Definition complex_asset_package (preservation_files_list access_files_list : option (list string))
           (export_folder : option string) (parent_folder : option parent_arg)
           (compress : bool) (kwargs : Kwargs) : B (option string) :=
  v <~ validate export_folder parent_folder ;;
  let '(export_folder, parent_folder) := v in
  let security_tag := kwargs_get (SecurityTag kwargs) "open" in
  let content_type := kwargs_get (CustomType kwargs) "" in
  let has_preservation_files := has_files preservation_files_list in
  let has_access_files := has_files access_files_list in
  asset <~ (if has_preservation_files then
              default_asset_title <~ first_title (files_of preservation_files_list) ;;
              r <~ __create_io__ None default_asset_title parent_folder kwargs ;;
              ret (Some r)
            else if has_access_files then
              default_asset_title <~ first_title (files_of access_files_list) ;;
              r <~ __create_io__ None default_asset_title parent_folder kwargs ;;
              ret (Some r)
            else ret None) ;;
  match asset with
  | None => finish true None export_folder compress kwargs [] []
  | Some (xip, io_ref) =>
      r <~ (if has_preservation_files then
              __make_representation_multiple_co__
                xip (kwargs_get (Preservation_Representation_Name kwargs) "Preservation")
                "Preservation" (files_of preservation_files_list) io_ref
            else ret (xip, [])) ;;
      let '(xip, preservation_refs_dict) := r in
      r <~ (if has_access_files then
              __make_representation_multiple_co__
                xip (kwargs_get (Access_Representation_Name kwargs) "Access")
                "Access" (files_of access_files_list) io_ref
            else ret (xip, [])) ;;
      let '(xip, access_refs_dict) := r in
      xip <~ fold_xip (complex_preservation_content kwargs io_ref security_tag content_type)
                      preservation_refs_dict xip ;;
      xip <~ fold_xip (complex_access_content kwargs io_ref security_tag content_type)
                      access_refs_dict xip ;;
      xip <~ fold_xip (generation_step (kwargs_get (Preservation_Generation_Label kwargs) ""))
                      preservation_refs_dict xip ;;
      xip <~ fold_xip (generation_step (kwargs_get (Access_Generation_Label kwargs) ""))
                      access_refs_dict xip ;;
      xip <~ fold_xip (bitstream_step (fixity_callback (Preservation_files_fixity_callback kwargs)))
                      preservation_refs_dict xip ;;
      xip <~ fold_xip (bitstream_step (fixity_callback (Access_files_fixity_callback kwargs)))
                      access_refs_dict xip ;;
      finish true (Some (xip, io_ref)) export_folder compress kwargs
             preservation_refs_dict access_refs_dict
  end.

(** [title.get("filename", default)] in [generic_asset_package]: the
    key is the literal ["filename"]. *)
Definition generic_title (value : option text_or_dict) (default : string) : string :=
  match kwargs_get value (Text default) with
  | Text s => s
  | Dict d => kwargs_get (dict_get d "filename") default
  end.

Definition generic_preservation_content (kwargs : Kwargs)
           (io_ref security_tag content_type : string)
           (xip : XML.Element) (item : string * string) : B XML.Element :=
  let '(content_ref, filename) := item in
  let default_content_objects_title := path.splitext_root (path.basename filename) in
  ret (__make_content_objects__
         xip (generic_title (Preservation_Content_Title kwargs) default_content_objects_title)
         content_ref io_ref security_tag
         (generic_title (Preservation_Content_Description kwargs) default_content_objects_title)
         content_type).

(** For an access file the source calls [get] on the title, by then a
    string, when the description is a dictionary. *)
Definition generic_access_content (kwargs : Kwargs) (io_ref security_tag content_type : string)
           (xip : XML.Element) (item : string * string) : B XML.Element :=
  let '(content_ref, filename) := item in
  let default_content_objects_title := path.splitext_root (path.basename filename) in
  match kwargs_get (Access_Content_Description kwargs) (Text default_content_objects_title) with
  | Text description =>
      ret (__make_content_objects__
             xip (generic_title (Access_Content_Title kwargs) default_content_objects_title)
             content_ref io_ref security_tag description content_type)
  | Dict _ => raise (AttributeError "get")
  end.

(** The loop over the representations of one dictionary. *)
Fixpoint make_representations (rep_type : string) (files_dict : list (string * list string))
         (io_ref : string) (xip : XML.Element)
         (refs_dict : list (string * list (string * string)))
  : B (XML.Element * list (string * list (string * string))) :=
  match files_dict with
  | [] => ret (xip, refs_dict)
  | (representation_name, files_list) :: rest =>
      r <~ __make_representation_multiple_co__ xip representation_name rep_type files_list
                                               io_ref ;;
      let '(xip, refs) := r in
      make_representations rep_type rest io_ref xip (dict_set refs_dict representation_name refs)
  end.

(** The items of all representations, in the order of the nested loops. *)
Definition all_items (refs_dict : list (string * list (string * string)))
  : list (string * string) :=
  concat (map snd refs_dict).

(** [d[list(d.keys())[0]]] *)
Definition first_files (d : list (string * list string)) : list string :=
  match d with
  | (_, files) :: _ => files
  | [] => []
  end.

Definition generic_asset_package
           (preservation_files_dict access_files_dict : option (list (string * list string)))
           (export_folder : option string) (parent_folder : option parent_arg)
           (compress : bool) (kwargs : Kwargs) : B (option string) :=
  v <~ validate export_folder parent_folder ;;
  let '(export_folder, parent_folder) := v in
  let security_tag := kwargs_get (SecurityTag kwargs) "open" in
  let content_type := kwargs_get (CustomType kwargs) "" in
  let has_preservation_files := has_files preservation_files_dict in
  let has_access_files := has_files access_files_dict in
  title <~ (if has_preservation_files then
              t <~ first_title (first_files (files_of preservation_files_dict)) ;;
              ret (Some t)
            else ret None) ;;
  asset <~ (match title with
            | Some default_asset_title =>
                r <~ __create_io__ None default_asset_title parent_folder kwargs ;;
                ret (Some r)
            | None => ret None
            end) ;;
  asset <~ (if has_access_files then
              match asset with
              | Some r => ret (Some r)
              | None =>
                  default_asset_title <~ first_title (first_files (files_of access_files_dict)) ;;
                  r <~ __create_io__ None default_asset_title parent_folder kwargs ;;
                  ret (Some r)
              end
            else ret asset) ;;
  match asset with
  | None => finish false None export_folder compress kwargs [] []
  | Some (xip, io_ref) =>
      r <~ make_representations "Preservation" (files_of preservation_files_dict) io_ref xip [] ;;
      let '(xip, preservation_representation_refs_dict) := r in
      r <~ make_representations "Access" (files_of access_files_dict) io_ref xip [] ;;
      let '(xip, access_representation_refs_dict) := r in
      let preservation_items := all_items preservation_representation_refs_dict in
      let access_items := all_items access_representation_refs_dict in
      xip <~ fold_xip (generic_preservation_content kwargs io_ref security_tag content_type)
                      preservation_items xip ;;
      xip <~ fold_xip (generic_access_content kwargs io_ref security_tag content_type)
                      access_items xip ;;
      xip <~ fold_xip (generation_step (kwargs_get (Preservation_Generation_Label kwargs) ""))
                      preservation_items xip ;;
      xip <~ fold_xip (generation_step (kwargs_get (Access_Generation_Label kwargs) ""))
                      access_items xip ;;
      xip <~ fold_xip (bitstream_step (fixity_callback (Preservation_files_fixity_callback kwargs)))
                      preservation_items xip ;;
      xip <~ fold_xip (bitstream_step (fixity_callback (Access_files_fixity_callback kwargs)))
                      access_items xip ;;
      finish false (Some (xip, io_ref)) export_folder compress kwargs
             preservation_items access_items
  end.

End Packages.

(* ===================================================================== *)
(** * The statements of the specification, as definitions *)
(* ===================================================================== *)

(** An explicit argument counts as given when it is neither [None] nor
    the empty string. *)
Definition given (arg : option string) : option string :=
  if truthy arg then arg else None.

(** The first value found among candidates tried in order. *)
Fixpoint first_found (candidates : list (option string)) : option string :=
  match candidates with
  | [] => None
  | Some v :: _ => Some v
  | None :: rest => first_found rest
  end.

(** The three sources of a credential, in the order of the
    specification: method argument, environment variable, properties
    file. *)
Definition credential_sources (environ : gmap string string)
           (config : gmap string (gmap string string))
           (arg : option string) (env_name key : string) : list (option string) :=
  [given arg; environ !! env_name; config_credential config key].

(** The fields of the client other than [token] and [tenant]. *)
Definition frame (c : Client) :=
  (username c, password c, server_name c, shared_secret c, version_hash c,
   (major_version c, minor_version c, patch_version c, version c),
   (xip_ns c, entity_ns c, rm_ns c, sec_ns c, admin_ns c, roles c)).

(** The fields of the client other than [token]. *)
Definition frame_but_token (c : Client) := (frame c, tenant c).

(** Number of requests of a log that use a method on a URL. *)
Definition is_request (m : method) (url : string) (r : request) : bool :=
  match m, rq_method r with
  | GET, GET | POST, POST | PUT, PUT | DELETE, DELETE => String.eqb (rq_url r) url
  | _, _ => false
  end.

Definition count_requests (m : method) (url : string) (l : list request) : nat :=
  length (List.filter (is_request m url) l).

(** The request [__token__] sends from a state. *)
Definition token_request (P : Platform) (w : world) : request :=
  let c := self w in
  if shared_secret c then
    mkRequest POST (acquire_external_url c) [] []
      [("username", PStr (username c)); ("tenant", tenant c);
       ("timestamp", PInt (clock P (log w)));
       ("hash", PStr (sha1_hexdigest P (to_hash (clock P (log w)) c)))]
  else mkRequest POST (login_url c) [] [] (login_data c).

(** The relation between the client before and after a read operation:
    the fields other than [token] and [tenant] are equal, and [tenant]
    differs only if it was [None] before. *)
Definition refreshed (c c' : Client) : Prop :=
  frame c' = frame c /\ (tenant c <> PNone -> tenant c' = tenant c).

(** A method body that only refreshes the client. *)
Definition preserves {A} (m : M A) : Prop :=
  forall w, refreshed (self w) (self (snd (m w))).

(** ** Rounds of 401 answers *)

Section Rounds.

Variable P : Platform.
(** The request an operation sends, given the client and its token. *)
Variable rq : Client -> pyval -> request.

Definition current_token (w : world) : pyval := default PNone (token (self w)).

(** The state once the request has been sent. *)
Definition sent (w : world) : world :=
  mkWorld (self w) (log w ++ [rq (self w) (current_token w)]).

(** The state after one round: request sent, token refreshed. *)
Definition after_round (w : world) : world := snd (refresh_token P (sent w)).

Fixpoint after_rounds (k : nat) (w : world) : world :=
  match k with
  | O => w
  | S k' => after_rounds k' (after_round w)
  end.

(** The server answers [k] requests in a row with 401, and every token
    request in between succeeds. *)
Fixpoint unauthorized_rounds (k : nat) (w : world) : Prop :=
  match k with
  | O => True
  | S k' =>
      is_Some (token (self w)) /\
      status_code (server P (log (sent w))) = 401 /\
      fst (refresh_token P (sent w)) = Return tt /\
      unauthorized_rounds k' (after_round w)
  end.

(** The requests of [k] rounds: the operation's request and the token
    request, alternating. *)
Fixpoint rounds_trace (k : nat) (w : world) : list request :=
  match k with
  | O => []
  | S k' =>
      rq (self w) (current_token w) :: token_request P (sent w) :: rounds_trace k' (after_round w)
  end.

End Rounds.

Definition get_request (url : string) (tok : pyval) : request :=
  mkRequest GET url [("Preservica-Access-Token", tok)] [] [].

Definition asset_request (reference : option string) (c : Client) (tok : pyval) : request :=
  get_request ("https://" +:+ server_name c +:+ "/api/entity/information-objects/" +:+ fmt reference)
              tok.

Definition folder_request (reference : option string) (c : Client) (tok : pyval) : request :=
  get_request ("https://" +:+ server_name c +:+ "/api/entity/structural-objects/" +:+ fmt reference)
              tok.

Definition content_object_request (reference : option string) (c : Client) (tok : pyval)
  : request :=
  get_request ("https://" +:+ server_name c +:+ "/api/entity/content-objects/" +:+ fmt reference)
              tok.

Definition security_tags_request (c : Client) (tok : pyval) : request :=
  mkRequest GET ("https://" +:+ server_name c +:+ "/api/security/tags")
            [("Preservica-Access-Token", tok);
             ("Content-Type", PStr "application/xml;charset=UTF-8")] [] [].

Definition children_request (folder_reference : option string) (maximum : Z)
           (next_page : option string) (c : Client) (tok : pyval) : request :=
  get_request
    match next_page with
    | Some url => url
    | None =>
        match folder_reference with
        | None => "https://" +:+ server_name c +:+ "/api/entity/root/children?start=0&max="
                  +:+ PyStr.str_of_Z maximum
        | Some r => "https://" +:+ server_name c +:+ "/api/entity/structural-objects/" +:+ r
                    +:+ "/children?start=0&max=" +:+ PyStr.str_of_Z maximum
        end
    end tok.

(** The version guard of [security_tags_base] lets the client through. *)
Definition at_least_6_3_1 (c : Client) : Prop :=
  exists major minor patch,
    major_version c = Some major /\ minor_version c = Some minor /\
    patch_version c = Some patch /\
    ((major <? 7) && (minor <? 4) && (patch <? 1) = false).

(** ** Inputs of [sanitize] *)

(** A name of 602 characters: [a.] followed by 600 times [x]. *)
Definition long_extension : Sanitize.pystr :=
  Sanitize.lit "a." ++ Sanitize.repeat_char "x" 600.

(** A name of 257 characters: [CO.], 253 times [x], and [N]. *)
Definition hidden_reserved : Sanitize.pystr :=
  Sanitize.lit "CO." ++ Sanitize.repeat_char "x" 253 ++ Sanitize.lit "N".

Definition all_ascii (s : Sanitize.pystr) : bool := forallb (fun c => (c <? 128)%N) s.

(** ** Path spellings and the package *)

(** A name without separator, as a reference or a base name is. *)
Definition simple_name (s : string) : Prop :=
  s <> "" /\ existsb path.is_sep (path.chars s) = false.

(** A directory path in canonical spelling: not empty, no separator at
    the end. *)
Definition proper_dir (s : string) : Prop :=
  exists l c, path.chars s = l ++ [c] /\ path.is_sep c = false.

(** The tree with further children. *)
Definition add_children (xip : XML.Element) (cs : list XML.Element) : XML.Element :=
  let 'XML.Elem t a x c := xip in XML.Elem t a x (c ++ cs).

(** A step that adds one child with tag [T] to the tree and leaves the
    files as they are. *)
Definition adds (T : string) (fsys : gmap string node) {A}
           (step : XML.Element -> A -> Prog disk XML.Element) (a : A) : Prop :=
  forall xip d, fs d = fsys ->
    exists child d', step xip a d = (Return (XML.SubElement xip child), d') /\
                     XML.tag child = T /\ fs d' = fsys.

(** An entry of [Identifiers] that is added: key and value are not empty. *)
Definition identifier_added (kv : string * string) : bool :=
  negb (String.eqb kv.1 "") && negb (String.eqb kv.2 "").

(** An entry of [Asset_Metadata] can be parsed: as a file when it names
    one, as a document otherwise. *)
Definition metadata_parses (host : Host) (fsys : gmap string node) (kv : string * string) : Prop :=
  identifier_added kv = true ->
  if isfile fsys kv.2
  then exists n root, fsys !! kv.2 = Some n /\ parse_file host n = Some root
  else exists root, parse_string host kv.2 = Some root.

Definition is_text (v : option text_or_dict) : Prop :=
  match v with Some (Dict _) => False | _ => True end.

Definition never_other (callback : option (string -> string -> fixity_result)) : Prop :=
  match callback with
  | Some f => forall name full_path, f name full_path <> FixityOther
  | None => True
  end.

(** A content title or description covers a file: it is a string, or a
    dictionary with an entry for the file. *)
Definition covers (v : option text_or_dict) (filename : string) : Prop :=
  match v with Some (Dict d) => is_Some (dict_get d filename) | _ => True end.

(** Keyword arguments that lead to no error: a title or description
    given as a dictionary has an entry for every file (the description
    of the access files is a string), fixity callbacks return a tuple or
    a dictionary, asset metadata can be parsed. *)
Definition kwargs_ok (host : Host) (fsys : gmap string node) (files access : list string)
           (kwargs : Kwargs) : Prop :=
  Forall (covers (Preservation_Content_Title kwargs)) files /\
  Forall (covers (Preservation_Content_Description kwargs)) files /\
  Forall (covers (Access_Content_Title kwargs)) access /\
  is_text (Access_Content_Description kwargs) /\
  never_other (Preservation_files_fixity_callback kwargs) /\
  never_other (Access_files_fixity_callback kwargs) /\
  Forall (metadata_parses host fsys) (kwargs_get (Asset_Metadata kwargs) []).

(** The tags of the children of the XIP tree of a package. *)
Definition package_tags (files access : list string) (kwargs : Kwargs) : list string :=
  ["InformationObject"; "Representation"] ++
  (if has_files (Some access) then ["Representation"] else []) ++
  replicate (length files + length access) "ContentObject" ++
  replicate (length files + length access) "Generation" ++
  replicate (length files + length access) "Bitstream" ++
  replicate (length (List.filter identifier_added (kwargs_get (Identifiers kwargs) [])))
            "Identifier" ++
  replicate (length (List.filter identifier_added (kwargs_get (Asset_Metadata kwargs) [])))
            "Metadata".

(** The disk with other files. *)
Definition with_fs (d : disk) (f : gmap string node) : disk :=
  mkDisk f (uuids_drawn d) (clock_reads d).

(** The files after the copies of [copy_content] into [content]. *)
Definition copies (content : string) (items : list (string * string)) (f : gmap string node)
  : gmap string node :=
  fold_left (fun f item =>
               match f !! item.2 with
               | Some n => <[content +:+ "/" +:+ path.basename item.2 := n]> f
               | None => f
               end) items f.

(** The staging folder of a package, before it is packed. *)
Definition staged (host : Host) (top io_ref : string) (xip : XML.Element)
           (items : list (string * string)) (f : gmap string node) : gmap string node :=
  let inner := top +:+ "/" +:+ io_ref in
  copies (inner +:+ "/" +:+ "content") items
         (<[inner +:+ "/" +:+ "metadata.xml" := File (prettify host xip)]>
            (<[inner +:+ "/" +:+ "content" := Dir]> (<[inner := Dir]> (<[top := Dir]> f)))).

(** An input file: a file of the disk, named by a path with a base name. *)
Definition input_file (f : gmap string node) (p : string) : Prop :=
  isfile f p = true /\ path.basename p <> "".

(** The path [content/<base name>] an item is copied to. *)
Definition target (content : string) (item : string * string) : string :=
  content +:+ "/" +:+ path.basename item.2.

(** What [copy_content] needs of the files: the [content] folder exists,
    holds no directory, and the sources are files outside of it. *)
Definition copy_ready (content : string) (items : list (string * string))
           (f : gmap string node) : Prop :=
  isdir f content = true /\
  (forall p rel, below content p = Some rel -> f !! p <> Some Dir) /\
  Forall (fun item => path.basename item.2 <> "" /\ below content item.2 = None /\
                      isfile f item.2 = true) items.

(** The files once the package is written: the archive is added and the
    staging folder removed. *)
Definition packaged (host : Host) (top io_ref : string) (xip : XML.Element)
           (items : list (string * string)) (f : gmap string node) : gmap string node :=
  let s := staged host top io_ref xip items f in
  filter (fun kv => kv.1 <> top /\ below top kv.1 = None)
         (<[top +:+ ".zip" := ZipFile (subtree top s)]> s).

(* ===================================================================== *)
(** * Test data *)
(* ===================================================================== *)

Definition test_environ : gmap string string := {[ "PRESERVICA_USERNAME" := "bob" ]}.

Definition test_config : gmap string (gmap string string) :=
  {[ "credentials" := {[ "server" := "example.org" ]} ]}.

Definition version_body (v : string) : string :=
  "<Version><CurrentVersion>" +:+ v +:+ "</CurrentVersion></Version>".

(** A server for the constructor: token, version, user details. *)
Definition server_of_version (v : string) : Platform :=
  test_platform [r200 "tok"; r200 (version_body v); r200 "details"].

(** An XML parser for the listings of [generations]: three bodies are
    known, one per level. *)
Definition listing_xml (body : string) : option XML.Element :=
  if String.eqb body "generations" then
    Some (XML.Elem "GenerationsResponse" [] None
            [XML.Elem (ENT6 "Generation") [] (Some "https://example.org/g1") []])
  else if String.eqb body "generation" then
    Some (XML.Elem "GenerationResponse" [] None
            [XML.Elem (XIP6 "Generation") [("original", "true"); ("active", "true")] None [];
             XML.Elem (ENT6 "Bitstream") [] (Some "https://example.org/b1") []])
  else if String.eqb body "bitstream" then
    Some (XML.Elem "BitstreamResponse" [] None
            [XML.Elem (XIP6 "Filename") [] (Some "a.txt") [];
             XML.Elem (XIP6 "FileSize") [] (Some "3") []])
  else None.

Definition listing_platform (script : list response) : Platform :=
  mkPlatform (scripted script (mkResponse 500 "")) (fun _ => 1700000000)
             (fun s => "sha1:" +:+ s) body_as_token listing_xml XML.tag.

Definition test_content_object : Entity :=
  ContentObject (Some "co1") (Some "page") None None None None.

(** A parsed entity response in the namespace of a 6.4 server. *)
Definition entity_xml : XML.Element :=
  XML.Elem "EntityResponse" [] None
    [XML.Elem (XML.qname "http://preservica.com/XIP/v6.4" "InformationObject") [] None
       [XML.Elem (XML.qname "http://preservica.com/XIP/v6.4" "Ref") [] (Some "a1") [];
        XML.Elem (XML.qname "http://preservica.com/XIP/v6.4" "Title") [] (Some "Letter") [];
        XML.Elem (XML.qname "http://preservica.com/XIP/v6.4" "SecurityTag") [] (Some "open") [];
        XML.Elem (XML.qname "http://preservica.com/XIP/v6.4" "Parent") [] (Some "f1") []];
     XML.Elem (XML.qname "http://preservica.com/EntityAPI/v6.4" "AdditionalInformation") [] None
       [XML.Elem (XML.qname "http://preservica.com/EntityAPI/v6.4" "Metadata") [] None
          [XML.Elem (XML.qname "http://preservica.com/EntityAPI/v6.4" "Fragment")
             [("schema", "http://purl.org/dc/elements/1.1/")]
             (Some "https://example.org/api/entity/information-objects/a1/metadata/m1") []]]].

Definition entity_platform : Platform :=
  mkPlatform (scripted [] (mkResponse 500 "")) (fun _ => 1700000000)
             (fun s => "sha1:" +:+ s) body_as_token (fun _ => Some entity_xml) XML.tag.

Definition client_6_4 : Client :=
  mkClient "alice" "pw" (PStr "acme") "example.org" false (Some (PStr "t0"))
           (Some "RHVOMzJHNzdk") (Some 6) (Some 4) (Some 1) (Some (PStr "6.4.1"))
           (Some "http://preservica.com/XIP/v6.4") (Some "http://preservica.com/EntityAPI/v6.4")
           (Some "http://preservica.com/RetentionManagement/v6.2")
           (Some "http://preservica.com/SecurityAPI/v6.4")
           (Some "http://preservica.com/AdminAPI/v6.4") (Some (PList [])).

(** A host for the package builders: the k-th identifier is [uuid-k]. *)
Definition test_host : Host :=
  mkHost (fun k => "uuid-" +:+ PyStr.str_of_Z (Z.of_nat k))
         (fun k => "2024-01-01T00:00:0" +:+ PyStr.str_of_Z (Z.of_nat k))
         (fun n => match n with File s => Z.of_nat (String.length s) | _ => 0 end)
         (fun n => match n with File s => "sha1:" +:+ s | _ => "sha1:" end)
         (fun n => match n with File s => Some (XML.Elem s [] None []) | _ => None end)
         (fun s => Some (XML.Elem s [] None []))
         (fun e => "<" +:+ XML.tag e +:+ ">")
         "/tmp".

(** A disk with an export folder and two files of the same base name. *)
Definition test_fs : gmap string node :=
  {[ "/tmp" := Dir; "/out" := Dir; "/in" := Dir; "/in/a" := Dir; "/in/b" := Dir;
     "/in/a/x.txt" := File "first"; "/in/b/x.txt" := File "second";
     "/in/y.txt" := File "third" ]}.

Definition test_disk : disk := mkDisk test_fs 0 0.

Definition with_identifiers (identifier_map : list (string * string)) : Kwargs :=
  mkKwargs None None None None None None None None None None None (Some identifier_map)
           None None None None None.

(* ===================================================================== *)
(** * Further functions of the three modules *)
(* ===================================================================== *)

(** ** common.py : [content_api_identifier_to_type] *)

(** [s.replace(old, "")] for a non-empty [old]: every occurrence found
    scanning from the left is dropped. [skip] counts the characters of
    the occurrence being dropped. *)
Fixpoint remove_from (old s : string) (skip : nat) : string :=
  match s with
  | EmptyString => EmptyString
  | String c s' =>
      match skip with
      | S k => remove_from old s' k
      | O => if PyStr.starts_with old s then remove_from old s' (String.length old - 1)
             else String c (remove_from old s' 0)
      end
  end.

Definition remove_all (old s : string) : string := remove_from old s 0.

(** [EntityType(value)] *)
Definition EntityType_of_value (value : string) : result EntityType :=
  if String.eqb value "IO" then Return ASSET
  else if String.eqb value "SO" then Return FOLDER
  else if String.eqb value "CO" then Return CONTENT_OBJECT
  else Raise (ValueError ("'" +:+ value +:+ "' is not a valid EntityType")).

Definition content_api_identifier_to_type (ref : string) : result (EntityType * string) :=
  let ref := remove_all "sdb:" ref in
  let parts := PyStr.split "|" ref in
  match PyStr.index parts 0 with
  | Raise e => Raise e
  | Return type_value =>
      match EntityType_of_value type_value with
      | Raise e => Raise e
      | Return entity_type =>
          match PyStr.index parts 1 with
          | Raise e => Raise e
          | Return reference => Return (entity_type, reference)
          end
      end
  end.

(** The [id] parameter that [download] and [thumbnail] send,
    [f'sdb:{entity.entity_type.value}|{entity.reference}']. *)
Definition content_id (entity : Entity) : string :=
  "sdb:" +:+ EntityType_value (entity_type entity) +:+ "|" +:+ fmt (reference entity).

(** ** uploadAPI.py : [_unpad] *)

(** [s[k:]] for an arbitrary integer [k]. *)
Definition slice_from_int (s : Sanitize.pystr) (k : Z) : Sanitize.pystr :=
  if k <? 0 then drop (Z.to_nat (Z.of_nat (length s) + k)) s
  else drop (Z.to_nat k) s.

(** [s[:-ord(s[len(s) - 1:])]]; [ord] wants a string of length one. *)
Definition _unpad (s : Sanitize.pystr) : result Sanitize.pystr :=
  match slice_from_int s (Z.of_nat (length s) - 1) with
  | [c] => Return (Sanitize.slice_to s (- Z.of_N (Sanitize.ord c)))
  | _ => Raise (TypeError "ord() expected a character, but string of length 0 found")
  end.

(** ** common.py and entityAPI.py : further methods *)

Section MoreMethods.

Variable P : Platform.

(** [manager_token]: on an answer other than 200 the source builds a
    [RuntimeError] and does not raise it. *)
Definition manager_token (username password : string) : M pyval :=
  c <~ get_self ;;
  let data := [("username", PStr username); ("password", PStr password);
               ("tenant", tenant c)] in
  response <~ http_post P (login_url c) data ;;
  if status_code response =? codes.ok then
    j <~ json P response ;;
    lift (getitem j "token")
  else ret PNone.

(** [requests.put(url, data=body, headers=headers)] with a text body,
    which travels as the one entry of [rq_data], under the empty key. *)
Definition http_put_text (url body : string) (headers : list (string * pyval)) : M response :=
  send P (mkRequest PUT url headers [] [("", PStr body)]).

Definition text_headers (tok : pyval) : list (string * pyval) :=
  [(HEADER_TOKEN, tok); ("Content-Type", PStr "text/plain")].

Definition security_descriptor_url (c : Client) (end_point : string) : string :=
  "https://" +:+ server_name c +:+ "/api/entity" +:+ end_point +:+ "?includeDescendants=true".

Fixpoint security_tag_async (fuel : nat) (entity : Entity) (new_tag : string) : M string :=
  match fuel with
  | O => raise RecursionError
  | S fuel' =>
      tok <~ attr "token" token ;;
      let headers := text_headers tok in
      end_point <~ (match entity_type entity with
                    | ASSET => ret ("/information-objects/" +:+ fmt (reference entity)
                                    +:+ "/security-descriptor")
                    | FOLDER => ret ("/structural-objects/" +:+ fmt (reference entity)
                                     +:+ "/security-descriptor")
                    | CONTENT_OBJECT => raise SystemExit
                    end) ;;
      let data := new_tag in
      c <~ get_self ;;
      request <~ http_put_text (security_descriptor_url c end_point) data headers ;;
      if status_code request =? codes.accepted then ret (content request)
      else if status_code request =? codes.unauthorized then
        refresh_token P ;;;
        security_tag_async fuel' entity new_tag
      else
        raise (RuntimeError [PInt (status_code request);
                             PStr ("security_tag_async change failed on "
                                   +:+ fmt (reference entity))])
  end.

(** [self.metadata(u)] for a key of [entity.metadata], which is [None]
    or a string. *)
Definition metadata_at (fuel : nat) (u : option string) : M string :=
  match u with
  | Some uri => metadata_of P fuel uri
  | None => tok <~ attr "token" token ;; raise MissingSchema
  end.

(** [metadata_for_entity]: the fragment of the first entry of
    [entity.metadata] with the schema, or [None]. An entity made by
    [children] has [metadata] [None]. *)
Definition metadata_for_entity (fuel : nat) (entity : Entity) (schema : string)
  : M (option string) :=
  match metadata entity with
  | None => raise (AttributeError "items")
  | Some items =>
      match List.find (fun us : option string * string => String.eqb schema us.2) items with
      | Some (u, s) => r <~ metadata_at fuel u ;; ret (Some r)
      | None => ret None
      end
  end.

End MoreMethods.

(** ** uploadAPI.py : [simple_asset_package] *)

Definition simple_asset_package (host : Host) (preservation_file access_file : option string)
           (export_folder : option string) (parent_folder : option parent_arg)
           (compress : bool) (kwargs : Kwargs) : Prog disk (option string) :=
  v <~ validate host export_folder parent_folder ;;
  let '(export_folder, parent_folder) := v in
  let preservation_file_list := match preservation_file with Some f => [f] | None => [] end in
  let access_file_list := match access_file with Some f => [f] | None => [] end in
  complex_asset_package host (Some preservation_file_list) (Some access_file_list)
                        (Some export_folder) (Some parent_folder) compress kwargs.


(** ** Statements about the entity layer *)

(** An attribute that is present. *)
Definition has_attrib (key : string) (e : XML.Element) : Prop :=
  exists v, XML.get_attrib e key = Return v.

(** [e.attrib[key]], or the empty string. *)
Definition attrib_or_empty (e : XML.Element) (key : string) : string :=
  match XML.get_attrib e key with Return v => v | Raise _ => "" end.

(** The entity [children] makes of one [Child] element: a folder when
    the type is [SO], an asset for every other type. *)
Definition listed_child (folder_reference : option string) (c : XML.Element) : Entity :=
  (if String.eqb (attrib_or_empty c "type") "SO" then Folder else Asset)
    (Some (attrib_or_empty c "ref")) (Some (attrib_or_empty c "title"))
    None None folder_reference None.

(** ** Statements about the package builders *)

(** The next [n] references [uuid4] gives from the state [d] on. *)
Definition fresh_refs (host : Host) (d : disk) (n : nat) : list string :=
  map (fun k => uuid4 host (uuids_drawn d + k)) (seq 0 n).


(** ** Further test data *)

(** A platform whose XML parser gives the same document for every
    body. *)
Definition document_platform (script : list response) (document : XML.Element) : Platform :=
  mkPlatform (scripted script (mkResponse 500 "")) (fun _ => 1700000000)
             (fun s => "sha1:" +:+ s) body_as_token (fun _ => Some document) XML.tag.

(** A page of children: a folder, a content object, a link to the next
    page. *)
Definition children_xml : XML.Element :=
  XML.Elem "ChildrenResponse" [] None
    [XML.Elem (ENT6 "Children") [] None
       [XML.Elem (ENT6 "Child") [("title", "Box"); ("ref", "f2"); ("type", "SO")] None [];
        XML.Elem (ENT6 "Child") [("title", "Page"); ("ref", "c9"); ("type", "CO")] None []];
     XML.Elem (ENT6 "Paging") [] None
       [XML.Elem (ENT6 "Next") [] (Some "https://example.org/next") [];
        XML.Elem (ENT6 "TotalResults") [] (Some "7") []]].

(** A generation that is neither original nor active, without
    bitstreams. *)
Definition generation_xml : XML.Element :=
  XML.Elem "GenerationResponse" [] None
    [XML.Elem (XIP6 "Generation") [("original", "false"); ("active", "false")] None []].

(** Two security tags. *)
Definition tags_xml : XML.Element :=
  XML.Elem "TagsResponse" [] None
    [XML.Elem (XML.qname "http://preservica.com/SecurityAPI/v6.4" "Tag") [("name", "open")] None [];
     XML.Elem (XML.qname "http://preservica.com/SecurityAPI/v6.4" "Tag") [("name", "closed")]
              None []].

(** A metadata container with one fragment. *)
Definition fragment_xml : XML.Element :=
  XML.Elem "MetadataResponse" [] None
    [XML.Elem (XIP6 "MetadataContainer") [] None
       [XML.Elem (XIP6 "Content") [] None [XML.Elem "dc" [] (Some "text") []]]].

(** A client connected to a server of version 6.2.5. *)
Definition client_6_2_5 : Client :=
  mkClient "alice" "pw" (PStr "acme") "example.org" false (Some (PStr "t0"))
           (Some "RHVOMzJHNzdk") (Some 6) (Some 2) (Some 5) (Some (PStr "6.2.5"))
           (Some "http://preservica.com/XIP/v6.2") (Some "http://preservica.com/EntityAPI/v6.2")
           (Some "http://preservica.com/RetentionManagement/v6.2")
           (Some "http://preservica.com/SecurityAPI/v6.2")
           (Some "http://preservica.com/AdminAPI/v6.2") (Some (PList [])).

Definition test_asset : Entity := Asset (Some "a1") (Some "Letter") None None None None.

(** The test disk with a folder where the staging folder would go. *)
Definition test_fs_busy : gmap string node := <["/out/uuid-0" := Dir]> test_fs.

(* ===================================================================== *)
(** * Facts about the monad *)
(* ===================================================================== *)

Lemma bind_Return {A B} (m : M A) (k : A -> M B) (w w' : world) (a : A) :
  m w = (Return a, w') -> bind m k w = k a w'.
Proof. intros H. unfold bind. now rewrite H. Qed.

Lemma bind_Raise {A B} (m : M A) (k : A -> M B) (w w' : world) (e : exn) :
  m w = (Raise e, w') -> bind m k w = (Raise e, w').
Proof. intros H. unfold bind. now rewrite H. Qed.

Lemma attr_Some {A} (name : string) (f : Client -> option A) (w : world) (a : A) :
  f (self w) = Some a -> attr name f w = (Return a, w).
Proof. intros H. unfold attr. now rewrite H. Qed.

Lemma world_eta (w : world) : mkWorld (self w) (log w) = w.
Proof. now destruct w. Qed.

(* ===================================================================== *)
(** * __token__ *)
(* ===================================================================== *)

(** Case analysis on the scrutinee of a [match] or [if] of the goal. *)
Ltac case_scrutinee :=
  match goal with
  | |- context [match ?x with _ => _ end] =>
      lazymatch x with
      | context [match _ with _ => _ end] => fail
      | _ => destruct x eqn:?; simpl
      end
  end.

Ltac unfold_monad :=
  unfold bind, get_self, http_post, http_get, http_delete, send, time_now, json, parse_xml,
    lift, update, attr, ret, raise in *.

(** [__token__] sends exactly one request, whatever the answer. *)
Lemma token_log (P : Platform) (w : world) :
  log (snd (__token__ P w)) = log w ++ [token_request P w].
Proof.
  unfold __token__, token_request. unfold_monad.
  destruct (shared_secret (self w)); simpl; repeat case_scrutinee; reflexivity.
Qed.

(** [__token__] changes no attribute but [tenant]. *)
Lemma token_self (P : Platform) (w : world) :
  exists t, self (snd (__token__ P w)) = with_tenant (self w) t.
Proof.
  assert (Hid : self w = with_tenant (self w) (tenant (self w))) by now destruct (self w).
  unfold __token__. unfold_monad.
  destruct (shared_secret (self w)); simpl; repeat case_scrutinee; eauto.
Qed.



(* ===================================================================== *)
(** * The credentials of the constructor *)
(* ===================================================================== *)

Lemma resolve_first_found environ config (arg : option string) (env_name key : string) :
  resolve environ config arg env_name key =
  first_found (credential_sources environ config arg env_name key).
Proof.
  unfold resolve, credential_sources, given. simpl.
  destruct (truthy arg) eqn:Ha; simpl.
  - destruct arg; [reflexivity | discriminate].
  - destruct (environ !! env_name); [reflexivity|].
    now destruct (config_credential config key).
Qed.

Lemma given_truthy (v : option string) :
  truthy v = true -> exists s, v = Some s /\ (if truthy v then v else None) = Some s.
Proof. intros H. rewrite H. destruct v; [eauto | discriminate]. Qed.


(* ===================================================================== *)
(** * Version detection and namespaces *)
(* ===================================================================== *)

Lemma bind_inv {A B} (m : M A) (k : A -> M B) (w w' : world) (b : B) :
  bind m k w = (Return b, w') ->
  exists a w1, m w = (Return a, w1) /\ k a w1 = (Return b, w').
Proof.
  unfold bind. destruct (m w) as [[a|e] w1]; intros H; [eauto | discriminate].
Qed.

Lemma attr_inv {A} (name : string) (f : Client -> option A) (w w' : world) (a : A) :
  attr name f w = (Return a, w') -> w' = w /\ f (self w) = Some a.
Proof.
  unfold attr. destruct (f (self w)); intros H; inversion H; subst; auto.
Qed.

(** A constructor that returns has set both namespaces. *)
Lemma constructed_namespaces (P : Platform) environ config (fuel : nat)
      (u p t s : option string) (secret : bool) (c : Client) :
  fst (__init__ P environ config fuel u p t s secret) = Return c ->
  is_Some (xip_ns c) /\ is_Some (entity_ns c).
Proof.
  unfold __init__. destruct (credentials _ _ _ _ _ _ _) as [c0|e]; [|discriminate].
  destruct (connect P fuel _) as [r w] eqn:Hc. simpl. intros ->.
  unfold connect in Hc.
  apply bind_inv in Hc as (? & w1 & _ & Hc).
  apply bind_inv in Hc as (? & w2 & _ & Hc).
  apply bind_inv in Hc as (? & w3 & _ & Hc).
  apply bind_inv in Hc as (? & w4 & _ & Hc).
  apply bind_inv in Hc as (ns1 & w5 & Hx & Hc).
  apply bind_inv in Hc as (ns2 & w6 & Hy & Hc).
  apply attr_inv in Hx as [-> Hx]. apply attr_inv in Hy as [-> Hy].
  unfold get_self in Hc. inversion Hc; subst. rewrite Hx, Hy. eauto.
Qed.

(** C4 (amended). When the version endpoint answers 200 with a
    [CurrentVersion] text whose first three dot-separated fields are the
    numbers 6, [b] and [c], the constructor's version step sets major,
    minor and patch to 6, [b] and [c] and derives [xip_ns] and
    [entity_ns]: the fixed v6.0 namespaces when [b < 2], the namespaces of
    version [6.b] otherwise. Whatever the version, a constructor that
    returns has set both attributes. *)
Theorem version_namespaces (P : Platform) (fuel : nat) (w : world) (tok : pyval)
        (sa sb sc : string) (more : list string) (b c : Z) :
  token (self w) = Some tok ->
  let rq := mkRequest GET ("https://" +:+ server_name (self w)
                           +:+ "/api/entity/versiondetails/version")
                      [("Preservica-Access-Token", tok)] [] [] in
  let resp := server P (log w ++ [rq]) in
  status_code resp = 200 ->
  PyStr.split "." (current_version (content resp)) = sa :: sb :: sc :: more ->
  PyStr.int sa = Return 6 -> PyStr.int sb = Return b -> PyStr.int sc = Return c ->
  (exists w', version_and_namespace P (S fuel) w = (Return tt, w') /\
     log w' = log w ++ [rq] /\
     major_version (self w') = Some 6 /\
     minor_version (self w') = Some b /\
     patch_version (self w') = Some c /\
     version (self w') = Some (PStr (current_version (content resp))) /\
     xip_ns (self w') =
       Some (if b <? 2 then "http://preservica.com/XIP/v6.0"
             else "http://preservica.com/XIP/v6." +:+ PyStr.str_of_Z b) /\
     entity_ns (self w') =
       Some (if b <? 2 then "http://preservica.com/EntityAPI/v6.0"
             else "http://preservica.com/EntityAPI/v6." +:+ PyStr.str_of_Z b))
  /\ (forall environ config n u p t s secret client,
        fst (__init__ P environ config n u p t s secret) = Return client ->
        is_Some (xip_ns client) /\ is_Some (entity_ns client)).
Proof.
  intros Htok rq resp Hs Hsplit Ha Hb Hc.
  split; [|intros; eapply constructed_namespaces; eauto].
  assert (Hok : (status_code resp =? codes.ok) = true) by now rewrite Hs.
  assert (Hrun : version_and_namespace P (S fuel) w =
                 __version_namespace__
                   (mkWorld (with_version
                               (with_patch_version
                                  (with_minor_version
                                     (with_major_version
                                        (with_version_hash (self w) "RHVOMzJHNzdk") 6) b) c)
                               (PStr (current_version (content resp))))
                            (log w ++ [rq]))).
  { unfold version_and_namespace. simpl. unfold_monad. rewrite Htok. simpl.
    unfold version_url, HEADER_TOKEN. simpl. fold rq. fold resp.
    rewrite Hok, Hsplit. simpl. rewrite Ha. simpl. rewrite Hb. simpl. now rewrite Hc. }
  rewrite Hrun. unfold __version_namespace__. unfold_monad. simpl.
  destruct (b <? 2); simpl; eexists; repeat split.
Qed.

(** The server of version 6.4.1. *)
Lemma version_namespaces_witness :
  let P := test_platform [r200 (version_body "6.4.1")] in
  let w := mkWorld (test_client PNone false) [] in
  exists w', version_and_namespace P 1 w = (Return tt, w') /\
             minor_version (self w') = Some 4 /\
             xip_ns (self w') = Some "http://preservica.com/XIP/v6.4" /\
             entity_ns (self w') = Some "http://preservica.com/EntityAPI/v6.4".
Proof.
  intros P w.
  destruct (version_namespaces P 0 w (PStr "t0") "6" "4" "1" [] 4 1
              eq_refl eq_refl eq_refl eq_refl eq_refl eq_refl)
    as [(w' & H & _ & _ & Hm & _ & _ & Hx & He) _].
  exists w'. repeat split; assumption.
Defined.

(** C4 (counterexample). The version endpoint of a 7.0.0 server answers
    200 and the three numbers are parsed, but no namespace is derived:
    [xip_ns] and [entity_ns] stay unset and the constructor fails on its
    first read of [xip_ns]. *)
Lemma version_7_no_namespace :
  let w := mkWorld (test_client PNone false) [] in
  let r := version_and_namespace (test_platform [r200 (version_body "7.0.0")]) 1 w in
  fst r = Return tt /\
  major_version (self (snd r)) = Some 7 /\
  minor_version (self (snd r)) = Some 0 /\
  patch_version (self (snd r)) = Some 0 /\
  xip_ns (self (snd r)) = None /\
  entity_ns (self (snd r)) = None /\
  fst (__init__ (server_of_version "7.0.0") test_environ test_config 5
                None (Some "pw") None None false) = Raise (AttributeError "xip_ns").
Proof. vm_compute. repeat split. Qed.

(* ===================================================================== *)
(** * What the read operations leave unchanged *)
(* ===================================================================== *)

Lemma refreshed_refl (c : Client) : refreshed c c.
Proof. split; auto. Qed.

Lemma refreshed_trans (c1 c2 c3 : Client) :
  refreshed c1 c2 -> refreshed c2 c3 -> refreshed c1 c3.
Proof.
  intros [F1 T1] [F2 T2]. split; [congruence|].
  intros H. rewrite T2; [auto|]. rewrite T1; auto.
Qed.

Lemma preserves_ret {A} (a : A) : preserves (ret a).
Proof. intros w. apply refreshed_refl. Qed.

Lemma preserves_raise {A} (e : exn) : preserves (@raise world A e).
Proof. intros w. apply refreshed_refl. Qed.

Lemma preserves_lift {A} (r : result A) : preserves (lift r).
Proof. intros w. apply refreshed_refl. Qed.

Lemma preserves_get_self : preserves get_self.
Proof. intros w. apply refreshed_refl. Qed.

Lemma preserves_attr {A} (name : string) (f : Client -> option A) : preserves (attr name f).
Proof. intros w. unfold attr. destruct (f (self w)); apply refreshed_refl. Qed.

Lemma preserves_send (P : Platform) (r : request) : preserves (send P r).
Proof. intros w. apply refreshed_refl. Qed.

Lemma preserves_get_url (P : Platform) (url : option string) headers :
  preserves (get_url P url headers).
Proof. destruct url; [apply preserves_send | apply preserves_raise]. Qed.

Lemma preserves_parse_xml (P : Platform) (s : string) : preserves (parse_xml P s).
Proof. unfold parse_xml. destruct (fromstring P s); [apply preserves_ret | apply preserves_raise]. Qed.

Lemma preserves_bind {A B} (m : M A) (k : A -> M B) :
  preserves m -> (forall a, preserves (k a)) -> preserves (bind m k).
Proof.
  intros Hm Hk w. unfold bind. specialize (Hm w).
  destruct (m w) as [[a|e] w1]; simpl in *; [|exact Hm].
  eapply refreshed_trans; [exact Hm | apply Hk].
Qed.

Lemma preserves_for_each {A B} (f : A -> M B) (l : list A) :
  (forall a, preserves (f a)) -> preserves (for_each f l).
Proof.
  intros Hf. induction l as [|a l IH]; simpl.
  - apply preserves_ret.
  - apply preserves_bind; [apply Hf | intros b].
    apply preserves_bind; [exact IH | intros bs; apply preserves_ret].
Qed.

Lemma preserves_set_token (t : pyval) : preserves (update (fun c => with_token c t)).
Proof. intros w. split; reflexivity. Qed.

(** [__token__] assigns [tenant] only when it is [None]. *)
Lemma preserves_token (P : Platform) : preserves (__token__ P).
Proof.
  intros w. unfold __token__. unfold_monad.
  destruct (shared_secret (self w)); simpl; repeat case_scrutinee;
    try apply refreshed_refl.
  all: split; [reflexivity|]; intros H; destruct (tenant (self w)); try discriminate;
    now contradict H.
Qed.

Lemma preserves_refresh_token (P : Platform) : preserves (refresh_token P).
Proof.
  unfold refresh_token. apply preserves_bind; [apply preserves_token|].
  intros t. apply preserves_set_token.
Qed.

(** Decomposition of a method body into the steps above. *)
Ltac preserves_step :=
  first
    [ assumption
    | apply preserves_ret | apply preserves_raise | apply preserves_lift
    | apply preserves_get_self | apply preserves_attr | apply preserves_send
    | apply preserves_get_url | apply preserves_parse_xml
    | apply preserves_refresh_token | apply preserves_token
    | apply preserves_for_each; intros
    | apply preserves_bind; [|intros]
    | match goal with
      | IH : forall x, preserves _ |- _ => apply IH
      | IH : forall x y, preserves _ |- _ => apply IH
      | IH : forall x y z, preserves _ |- _ => apply IH
      | |- preserves (match ?x with _ => _ end) => destruct x
      end ].

Ltac preserves_tac :=
  unfold global_entity_from_string, getattr__path, http_get;
  repeat preserves_step.

Lemma preserves_asset (P : Platform) (fuel : nat) : forall reference,
  preserves (asset P fuel reference).
Proof. induction fuel as [|fuel IH]; intros; simpl; preserves_tac. Qed.

Lemma preserves_folder (P : Platform) (fuel : nat) : forall reference,
  preserves (folder P fuel reference).
Proof. induction fuel as [|fuel IH]; intros; simpl; preserves_tac. Qed.

Lemma preserves_content_object (P : Platform) (fuel : nat) : forall reference,
  preserves (content_object P fuel reference).
Proof. induction fuel as [|fuel IH]; intros; simpl; preserves_tac. Qed.

Lemma preserves_metadata (P : Platform) (fuel : nat) : forall uri,
  preserves (metadata_of P fuel uri).
Proof. induction fuel as [|fuel IH]; intros; simpl; preserves_tac. Qed.

Lemma preserves_children (P : Platform) (fuel : nat) : forall folder_reference maximum next_page,
  preserves (children P fuel folder_reference maximum next_page).
Proof. induction fuel as [|fuel IH]; intros; simpl; preserves_tac. Qed.

Lemma preserves_identifiers_for_entity (P : Platform) (fuel : nat) : forall entity,
  preserves (identifiers_for_entity P fuel entity).
Proof. induction fuel as [|fuel IH]; intros; simpl; preserves_tac. Qed.

Lemma preserves_representations (P : Platform) (fuel : nat) : forall asset,
  preserves (representations P fuel asset).
Proof. induction fuel as [|fuel IH]; intros; simpl; preserves_tac. Qed.

Lemma preserves_bitstream (P : Platform) (fuel : nat) : forall url,
  preserves (bitstream P fuel url).
Proof. induction fuel as [|fuel IH]; intros; simpl; preserves_tac. Qed.

Lemma preserves_generation (P : Platform) (fuel : nat) : forall url,
  preserves (generation P fuel url).
Proof.
  induction fuel as [|fuel IH]; intros; simpl; preserves_tac.
  apply preserves_bitstream.
Qed.

Lemma preserves_generations (P : Platform) (fuel : nat) : forall content_object,
  preserves (generations P fuel content_object).
Proof.
  induction fuel as [|fuel IH]; intros; simpl; preserves_tac.
  apply preserves_generation.
Qed.

(** C7 (amended). Every read operation of the entity layer leaves every
    field of the client unchanged except [token] and [tenant]; [tenant]
    changes only when it was [None] (the token refresh fills it from the
    login response). *)
Theorem read_operations_frame (P : Platform) (fuel : nat) (w : world) :
  (forall reference, refreshed (self w) (self (snd (asset P fuel reference w)))) /\
  (forall reference, refreshed (self w) (self (snd (folder P fuel reference w)))) /\
  (forall reference, refreshed (self w) (self (snd (content_object P fuel reference w)))) /\
  (forall uri, refreshed (self w) (self (snd (metadata_of P fuel uri w)))) /\
  (forall folder_reference maximum next_page,
      refreshed (self w) (self (snd (children P fuel folder_reference maximum next_page w)))) /\
  (forall entity, refreshed (self w) (self (snd (identifiers_for_entity P fuel entity w)))) /\
  (forall asset, refreshed (self w) (self (snd (representations P fuel asset w)))) /\
  (forall content_object,
      refreshed (self w) (self (snd (generations P fuel content_object w)))).
Proof.
  split; [intros; apply preserves_asset|].
  split; [intros; apply preserves_folder|].
  split; [intros; apply preserves_content_object|].
  split; [intros; apply preserves_metadata|].
  split; [intros; apply preserves_children|].
  split; [intros; apply preserves_identifiers_for_entity|].
  split; [intros; apply preserves_representations|].
  intros; apply preserves_generations.
Qed.

(** C7 (counterexample). A client without tenant calls [asset]; the
    server answers 401, then accepts the login, then answers 404. The
    [tenant] field of the client has changed. *)
Lemma asset_changes_tenant :
  let P := test_platform [r401; r200 "t1"; r404] in
  let w := mkWorld (test_client PNone false) [] in
  tenant (self w) = PNone /\
  tenant (self (snd (asset P 5 (Some "ref1") w))) = PStr "acme" /\
  frame_but_token (self (snd (asset P 5 (Some "ref1") w))) <> frame_but_token (self w).
Proof. vm_compute. repeat split. discriminate. Qed.

(* ===================================================================== *)
(** * Retry after 401 *)
(* ===================================================================== *)

Lemma refresh_token_log (P : Platform) (w : world) :
  log (snd (refresh_token P w)) = log w ++ [token_request P w].
Proof.
  unfold refresh_token, bind, update. pose proof (token_log P w) as H.
  destruct (__token__ P w) as [[t|e] w1]; simpl in *; exact H.
Qed.

Section RetryFacts.

Variable P : Platform.
Context {A : Type}.
(** An operation, its request, and a condition on the client under
    which a 401 answer leads to a refresh and a new call. *)
Variable op : nat -> M A.
Variable rq : Client -> pyval -> request.
Variable Inv : Client -> Prop.
Hypothesis Inv_refreshed : forall c c', refreshed c c' -> Inv c -> Inv c'.
Hypothesis op_401 : forall fuel w,
  Inv (self w) -> is_Some (token (self w)) ->
  status_code (server P (log (sent rq w))) = 401 ->
  op (S fuel) w = bind (refresh_token P) (fun _ => op fuel) (sent rq w).

Lemma rounds_run (k : nat) : forall fuel w,
  Inv (self w) -> unauthorized_rounds P rq k w ->
  op (k + fuel) w = op fuel (after_rounds P rq k w).
Proof.
  induction k as [|k IH]; intros fuel w HI Hk; simpl in *; [reflexivity|].
  destruct Hk as (Ht & Hs & Hr & Hk).
  rewrite op_401 by assumption.
  unfold bind, after_round in *.
  pose proof (preserves_refresh_token P (sent rq w)) as Hp.
  destruct (refresh_token P (sent rq w)) as [[[]|e] w1]; simpl in *; [|discriminate].
  apply IH; [|exact Hk]. eapply Inv_refreshed; eauto.
Qed.

End RetryFacts.

Lemma rounds_log (P : Platform) (rq : Client -> pyval -> request) (k : nat) : forall w,
  log (after_rounds P rq k w) = log w ++ rounds_trace P rq k w.
Proof.
  induction k as [|k IH]; intros w; simpl.
  - now rewrite app_nil_r.
  - rewrite IH. unfold after_round at 1. rewrite refresh_token_log.
    unfold sent at 1. simpl. now rewrite <- !app_assoc.
Qed.

Lemma rounds_trace_length (P : Platform) (rq : Client -> pyval -> request) (k : nat) : forall w,
  length (rounds_trace P rq k w) = (2 * k)%nat.
Proof. induction k as [|k IH]; intros w; simpl; [reflexivity|]. rewrite IH. lia. Qed.

Lemma current_token_Some (w : world) :
  is_Some (token (self w)) -> token (self w) = Some (current_token w).
Proof. intros [t Ht]. unfold current_token. now rewrite Ht. Qed.

Ltac solve_op_401 :=
  intros fuel w _ Ht Hs; apply current_token_Some in Ht;
  simpl; unfold bind at 1; unfold attr at 1; rewrite Ht;
  unfold bind at 1; unfold get_self at 1;
  unfold bind at 1; unfold http_get, send at 1;
  unfold sent in Hs; simpl in Hs;
  match goal with
  | |- context [status_code ?r =? codes.ok] =>
      replace (status_code r) with 401 by (symmetry; exact Hs)
  end;
  reflexivity.

Lemma asset_401 (P : Platform) (reference : option string) : forall fuel w,
  True -> is_Some (token (self w)) ->
  status_code (server P (log (sent (asset_request reference) w))) = 401 ->
  asset P (S fuel) reference w =
  bind (refresh_token P) (fun _ => asset P fuel reference) (sent (asset_request reference) w).
Proof. solve_op_401. Qed.

Lemma folder_401 (P : Platform) (reference : option string) : forall fuel w,
  True -> is_Some (token (self w)) ->
  status_code (server P (log (sent (folder_request reference) w))) = 401 ->
  folder P (S fuel) reference w =
  bind (refresh_token P) (fun _ => folder P fuel reference) (sent (folder_request reference) w).
Proof. solve_op_401. Qed.

Lemma content_object_401 (P : Platform) (reference : option string) : forall fuel w,
  True -> is_Some (token (self w)) ->
  status_code (server P (log (sent (content_object_request reference) w))) = 401 ->
  content_object P (S fuel) reference w =
  bind (refresh_token P) (fun _ => content_object P fuel reference)
       (sent (content_object_request reference) w).
Proof. solve_op_401. Qed.

Lemma older_than_6_3_1_false (w : world) :
  at_least_6_3_1 (self w) -> older_than_6_3_1 w = (Return false, w).
Proof.
  intros (major & minor & patch & Ha & Hb & Hc & H).
  unfold older_than_6_3_1, bind, attr, ret. rewrite Ha.
  destruct (major <? 7); [|reflexivity]. rewrite Hb.
  destruct (minor <? 4); [|reflexivity]. rewrite Hc.
  simpl in H. now rewrite H.
Qed.

Lemma at_least_6_3_1_refreshed (c c' : Client) :
  refreshed c c' -> at_least_6_3_1 c -> at_least_6_3_1 c'.
Proof.
  intros [F _] (major & minor & patch & Ha & Hb & Hc & H).
  unfold frame in F. injection F as _ _ _ _ _ Hmaj Hmin Hpat _ _ _ _ _ _ _.
  exists major, minor, patch. repeat split; congruence.
Qed.

Lemma security_tags_401 (P : Platform) (with_permissions : bool) : forall fuel w,
  at_least_6_3_1 (self w) -> is_Some (token (self w)) ->
  status_code (server P (log (sent security_tags_request w))) = 401 ->
  security_tags_base P (S fuel) with_permissions w =
  bind (refresh_token P) (fun _ => security_tags_base P fuel false)
       (sent security_tags_request w).
Proof.
  intros fuel w HI Ht Hs. apply current_token_Some in Ht.
  simpl. unfold bind at 1. rewrite (older_than_6_3_1_false w HI).
  unfold bind at 1; unfold attr at 1; rewrite Ht.
  unfold bind at 1; unfold get_self at 1.
  unfold bind at 1; unfold http_get, send at 1.
  unfold sent in Hs; simpl in Hs.
  match goal with
  | |- context [status_code ?r =? codes.ok] =>
      replace (status_code r) with 401 by (symmetry; exact Hs)
  end.
  reflexivity.
Qed.




(* ===================================================================== *)
(** * Reading an entity *)
(* ===================================================================== *)

(** [AuthenticatedAPI.entity_from_string], the method of common.py,
    returns the texts of the first [Ref], [Title], [Description],
    [SecurityTag] and [Parent] elements of the client's XIP namespace and
    the schema of every metadata fragment. *)
Lemma entity_from_string_fields (P : Platform) (w : world) (xml_data xip ens : string)
      (e ref tag : XML.Element) (md : list (option string * string)) :
  fromstring P xml_data = Some e ->
  xip_ns (self w) = Some xip ->
  entity_ns (self w) = Some ens ->
  XML.find e (XML.qname xip "Ref") = Some ref ->
  XML.find e (XML.qname xip "SecurityTag") = Some tag ->
  fragments_to_dict
    (XML.findall_child e (XML.qname ens "Metadata") (XML.qname ens "Fragment")) [] = Return md ->
  entity_from_string P xml_data w =
  (Return (mkEntityDict (XML.text ref)
                        (text_or_None (XML.find e (XML.qname xip "Title")))
                        (text_or_None (XML.find e (XML.qname xip "Description")))
                        (XML.text tag)
                        (text_or_None (XML.find e (XML.qname xip "Parent")))
                        md), w).
Proof.
  intros He Hx Hn Hr Ht Hm. unfold entity_from_string. unfold_monad.
  rewrite He, Hx, Hn, Hm, Hr, Ht. reflexivity.
Qed.

Example entity_from_string_example :
  fst (entity_from_string entity_platform "body" (mkWorld client_6_4 [])) =
  Return (mkEntityDict (Some "a1") (Some "Letter") None (Some "open") (Some "f1")
            [(Some "https://example.org/api/entity/information-objects/a1/metadata/m1",
              "http://purl.org/dc/elements/1.1/")]).
Proof. reflexivity. Qed.

Ltac run_first_request Ht :=
  simpl; unfold bind at 1; unfold attr at 1; rewrite Ht;
  unfold bind at 1; unfold get_self at 1;
  unfold bind at 1; unfold http_get, send at 1; simpl.

(** Rewriting the status of the answer with a hypothesis that states it
    for a convertible request. *)
Ltac rewrite_status Hs :=
  match goal with
  | |- context [status_code ?r =? codes.ok] =>
      let E := fresh "E" in
      assert (E : status_code r = _) by exact Hs; rewrite E
  end.

(** C2. What [asset], [folder] and [content_object] do with the answer
    to their GET request. A 404 answer raises the error that says that
    the requested reference is not found in the repository. A 200 answer
    does not produce an entity: the three methods call the bare name
    [entity_from_string], which is not bound in entityAPI.py, and raise
    [NameError]. *)
Theorem entity_read_outcomes (P : Platform) (fuel : nat) (reference : option string)
        (w : world) (tok : pyval) :
  token (self w) = Some tok ->
  let answer (rq : Client -> pyval -> request) := server P (log w ++ [rq (self w) tok]) in
  let not_found :=
    Raise (RuntimeError [pyval_of_text reference;
                         PStr "The requested reference is not found in the repository"]) in
  (status_code (answer (asset_request reference)) = 200 ->
   fst (asset P (S fuel) reference w) = Raise (NameError "entity_from_string")) /\
  (status_code (answer (folder_request reference)) = 200 ->
   fst (folder P (S fuel) reference w) = Raise (NameError "entity_from_string")) /\
  (status_code (answer (content_object_request reference)) = 200 ->
   fst (content_object P (S fuel) reference w) = Raise (NameError "entity_from_string")) /\
  (status_code (answer (asset_request reference)) = 404 ->
   fst (asset P (S fuel) reference w) = not_found) /\
  (status_code (answer (folder_request reference)) = 404 ->
   fst (folder P (S fuel) reference w) = not_found) /\
  (status_code (answer (content_object_request reference)) = 404 ->
   fst (content_object P (S fuel) reference w) = not_found).
Proof.
  intros Ht answer not_found. unfold answer, not_found.
  repeat split; intros Hs; run_first_request Ht; rewrite_status Hs; reflexivity.
Qed.

(** A 200 answer to [asset]. *)
Lemma entity_read_outcomes_witness :
  fst (asset (test_platform [r200 "body"]) 1 (Some "a1")
             (mkWorld (test_client PNone false) [])) = Raise (NameError "entity_from_string")
  /\ fst (folder (test_platform [r404]) 1 (Some "f1")
                 (mkWorld (test_client PNone false) [])) =
     Raise (RuntimeError [PStr "f1";
                          PStr "The requested reference is not found in the repository"]).
Proof.
  split.
  - apply (entity_read_outcomes (test_platform [r200 "body"]) 0 (Some "a1")
             (mkWorld (test_client PNone false) []) (PStr "t0") eq_refl).
    reflexivity.
  - apply (entity_read_outcomes (test_platform [r404]) 0 (Some "f1")
             (mkWorld (test_client PNone false) []) (PStr "t0") eq_refl).
    reflexivity.
Defined.

(* ===================================================================== *)
(** * Requests per call *)
(* ===================================================================== *)

Ltac not_unauthorized Hs :=
  match goal with
  | |- context [status_code ?r =? codes.unauthorized] =>
      let E := fresh "E" in
      assert (E : (status_code r =? codes.unauthorized) = false)
        by (apply Z.eqb_neq; exact Hs);
      rewrite E
  end.

Ltac one_request Ht Hs :=
  simpl; unfold global_entity_from_string; unfold_monad; rewrite Ht; simpl;
  not_unauthorized Hs; repeat case_scrutinee; reflexivity.




(* ===================================================================== *)
(** * sanitize *)
(* ===================================================================== *)

Import Sanitize.

(** [sanitize] depends on the normaliser and on [isspace] only through
    their values on the cleaned name. *)
Lemma sanitize_ext (nfkd1 nfkd2 : pystr -> pystr) (sp1 sp2 : N -> bool) (s : pystr) :
  let cleaned :=
    List.filter (fun c => (31 <? ord c)%N)
                (List.filter (fun c => negb (str_in [c] blacklist)) s) in
  nfkd1 cleaned = nfkd2 cleaned ->
  strip sp1 (rstrip_chars (lit ". ") (nfkd2 cleaned)) =
  strip sp2 (rstrip_chars (lit ". ") (nfkd2 cleaned)) ->
  sanitize nfkd1 sp1 s = sanitize nfkd2 sp2 s.
Proof. intros cleaned H1 H2. unfold sanitize. fold cleaned. now rewrite H1, H2. Qed.

Lemma drop_while_head (p : N -> bool) (c : N) (s : pystr) :
  p c = false -> drop_while p (c :: s) = c :: s.
Proof. intros H. simpl. now rewrite H. Qed.

(** [strip] changes nothing when the first and the last character are
    not white space. *)
Lemma strip_id (sp : N -> bool) (c d : N) (s : pystr) :
  sp c = false -> sp d = false -> strip sp (c :: s ++ [d]) = c :: s ++ [d].
Proof.
  intros Hc Hd. unfold strip. rewrite drop_while_head by assumption.
  change (c :: s ++ [d]) with ((c :: s) ++ [d]). rewrite rev_app_distr.
  change (rev [d] ++ rev (c :: s)) with (d :: rev (c :: s)).
  rewrite drop_while_head by assumption.
  change (d :: rev (c :: s)) with (rev [d] ++ rev (c :: s)).
  rewrite <- rev_app_distr. apply rev_involutive.
Qed.

(** The value [sanitize] returns is never the empty string. *)
Lemma sanitize_nonempty (nfkd : pystr -> pystr) (sp : N -> bool) (s : pystr) :
  sanitize nfkd sp s <> [].
Proof.
  unfold sanitize.
  set (f := if (length _ =? 0)%nat then _ else _).
  assert (Hf : f <> []).
  { unfold f. destruct (length _ =? 0)%nat eqn:E; [discriminate|].
    apply Nat.eqb_neq in E. intros H. rewrite H in E. now apply E. }
  destruct (255 <? length f)%nat; [|exact Hf].
  unfold truncate. cbv zeta.
  destruct (if (1 <? _)%nat then _ else _) as [fn ext].
  match goal with
  | |- (if (length ?x =? 0)%nat then _ else _) <> [] =>
      destruct (length x =? 0)%nat eqn:E; [discriminate|];
      apply Nat.eqb_neq in E; intros H; rewrite H in E; now apply E
  end.
Qed.

(** C8. Two file names on which [sanitize] breaks the limits its
    docstring and comments announce. The names are ASCII, where NFKD
    normalisation is the identity and the blank is the only white space
    above code point 31. The first result has 347 characters, more than
    255; the second result is the reserved device name [CON]. *)
Theorem sanitize_breaks_limits (normalize_NFKD : pystr -> pystr) (isspace : N -> bool) :
  (forall s, all_ascii s = true -> normalize_NFKD s = s) ->
  (forall c, (32 < c < 128)%N -> isspace c = false) ->
  length (sanitize normalize_NFKD isspace long_extension) = 347%nat /\
  sanitize normalize_NFKD isspace hidden_reserved = lit "CON" /\
  str_in (sanitize normalize_NFKD isspace hidden_reserved) reserved = true.
Proof.
  intros Hn Hs.
  assert (Hx : isspace 120%N = false) by (apply Hs; lia).
  assert (Ha : isspace 97%N = false) by (apply Hs; lia).
  assert (HC : isspace 67%N = false) by (apply Hs; lia).
  assert (HN : isspace 78%N = false) by (apply Hs; lia).
  assert (E1 : sanitize normalize_NFKD isspace long_extension =
               sanitize ascii_NFKD ascii_isspace long_extension).
  { apply sanitize_ext.
    - apply Hn. vm_compute. reflexivity.
    - unfold ascii_NFKD.
      match goal with
      | |- strip _ ?t = _ =>
          let v := eval vm_compute in t in
          change t with v
      end.
      match goal with
      | |- strip _ (?c :: ?t) = _ =>
          let r := eval vm_compute in (removelast t) in
          change (c :: t) with (c :: r ++ [120%N])
      end.
      rewrite !strip_id; auto. }
  assert (E2 : sanitize normalize_NFKD isspace hidden_reserved =
               sanitize ascii_NFKD ascii_isspace hidden_reserved).
  { apply sanitize_ext.
    - apply Hn. vm_compute. reflexivity.
    - unfold ascii_NFKD.
      match goal with
      | |- strip _ ?t = _ =>
          let v := eval vm_compute in t in
          change t with v
      end.
      match goal with
      | |- strip _ (?c :: ?t) = _ =>
          let r := eval vm_compute in (removelast t) in
          change (c :: t) with (c :: r ++ [78%N])
      end.
      rewrite !strip_id; auto. }
  rewrite E1, E2. vm_compute. repeat split.
Qed.

(** The ASCII instances satisfy the two assumptions. *)
Lemma sanitize_breaks_limits_witness :
  length (sanitize ascii_NFKD ascii_isspace long_extension) = 347%nat /\
  sanitize ascii_NFKD ascii_isspace hidden_reserved = lit "CON" /\
  str_in (sanitize ascii_NFKD ascii_isspace hidden_reserved) reserved = true.
Proof.
  apply sanitize_breaks_limits.
  - intros s _. reflexivity.
  - intros c Hc. unfold ascii_isspace.
    destruct (N.eqb_spec c 32); [lia|].
    destruct (N.leb_spec c 13); [|destruct (N.leb_spec c 31)]; simpl.
    + destruct (N.leb_spec 9 c); [lia|]. simpl.
      destruct (N.leb_spec 28 c); [lia|]. reflexivity.
    + lia.
    + now rewrite !andb_false_r.
Defined.

(* ===================================================================== *)
(** * The package builders without files *)
(* ===================================================================== *)

Lemma validate_ok (host : Host) (d : disk) (export_folder : string) (parent_folder : parent_arg) :
  isdir (fs d) export_folder = true ->
  validate host (Some export_folder) (Some parent_folder) d =
  (Return (export_folder, parent_folder), d).
Proof. intros Hd. unfold validate, bind, read_fs. rewrite Hd. reflexivity. Qed.

(** Without files and without identifiers or asset metadata to add, both
    builders return [None] and leave the disk as it was. *)
Lemma no_files_returns_None (host : Host) (d : disk) (export_folder : string)
      (parent_folder : parent_arg) (compress : bool) (kwargs : Kwargs)
      (preservation access : option (list string))
      (preservation_dict access_dict : option (list (string * list string))) :
  isdir (fs d) export_folder = true ->
  has_files preservation = false -> has_files access = false ->
  has_files preservation_dict = false -> has_files access_dict = false ->
  Identifiers kwargs = None -> Asset_Metadata kwargs = None ->
  complex_asset_package host preservation access (Some export_folder) (Some parent_folder)
                        compress kwargs d = (Return None, d) /\
  generic_asset_package host preservation_dict access_dict (Some export_folder)
                        (Some parent_folder) compress kwargs d = (Return None, d).
Proof.
  intros Hd Hp Ha Hpd Had Hi Hm.
  unfold complex_asset_package, generic_asset_package, bind.
  rewrite validate_ok by assumption.
  rewrite Hp, Ha, Hpd, Had. unfold finish, bind, ret. rewrite Hi, Hm. split; reflexivity.
Qed.

(** C10. Without files but with an identifier to add, both builders
    raise [TypeError]: the [Identifiers] block calls [SubElement] on the
    tree, which is still [None]. *)
Theorem no_files_with_identifier (host : Host) (d : disk) (export_folder : string)
        (parent_folder : parent_arg) (compress : bool) (kwargs : Kwargs)
        (key value : string) (more : list (string * string))
        (preservation access : option (list string))
        (preservation_dict access_dict : option (list (string * list string))) :
  isdir (fs d) export_folder = true ->
  has_files preservation = false -> has_files access = false ->
  has_files preservation_dict = false -> has_files access_dict = false ->
  Identifiers kwargs = Some ((key, value) :: more) ->
  key <> "" -> value <> "" ->
  let type_error :=
    Raise (TypeError "SubElement() argument 1 must be xml.etree.ElementTree.Element, not None") in
  complex_asset_package host preservation access (Some export_folder) (Some parent_folder)
                        compress kwargs d = (type_error, d) /\
  generic_asset_package host preservation_dict access_dict (Some export_folder)
                        (Some parent_folder) compress kwargs d = (type_error, d).
Proof.
  intros Hd Hp Ha Hpd Had Hi Hk Hv type_error.
  apply String.eqb_neq in Hk, Hv.
  unfold complex_asset_package, generic_asset_package, bind.
  rewrite validate_ok by assumption.
  rewrite Hp, Ha, Hpd, Had. unfold finish, bind, ret. rewrite Hi. simpl.
  rewrite Hk, Hv. simpl. split; reflexivity.
Qed.

(** Empty preservation list, no access list, one identifier. *)
Lemma no_files_with_identifier_witness :
  fst (complex_asset_package test_host (Some []) None (Some "/out") (Some (ParentRef "p1"))
                             true (with_identifiers [("DOI", "10.1/x")]) test_disk)
  = Raise (TypeError "SubElement() argument 1 must be xml.etree.ElementTree.Element, not None")
  /\ fst (generic_asset_package test_host None (Some []) (Some "/out") (Some (ParentRef "p1"))
                                true (with_identifiers [("DOI", "10.1/x")]) test_disk)
  = Raise (TypeError "SubElement() argument 1 must be xml.etree.ElementTree.Element, not None").
Proof.
  destruct (no_files_with_identifier test_host test_disk "/out" (ParentRef "p1") true
              (with_identifiers [("DOI", "10.1/x")]) "DOI" "10.1/x" []
              (Some []) None None (Some [])) as [Hc Hg]; try reflexivity; try discriminate.
  split; [now rewrite Hc | now rewrite Hg].
Defined.


(** Without compression the archive is not written: [shutil.make_archive]
    passes the keyword [logger] to the function registered for [szip],
    whose parameter is named [zlogger]. The staging folder stays. *)
Lemma uncompressed_package_raises :
  let r := complex_asset_package test_host (Some ["/in/y.txt"]) None
                                 (Some "/out") (Some (ParentRef "p1")) false no_kwargs test_disk in
  fst r = Raise (TypeError "_make_stored_zipfile() got an unexpected keyword argument 'logger'") /\
  fs (snd r) !! "/out/uuid-0.zip" = None /\
  fs (snd r) !! "/out/uuid-0/uuid-0/content/y.txt" = Some (File "third").
Proof. vm_compute. repeat split. Qed.

(* ===================================================================== *)
(** * Facts about path strings *)
(* ===================================================================== *)

Lemma chars_app (a b : string) : path.chars (a +:+ b) = path.chars a ++ path.chars b.
Proof. induction a as [|c a IH]; simpl; [reflexivity|]. unfold path.chars in *. simpl. now rewrite IH. Qed.

Lemma str_chars (s : string) : path.str (path.chars s) = s.
Proof. apply string_of_list_ascii_of_string. Qed.

Lemma chars_str (l : list ascii) : path.chars (path.str l) = l.
Proof. apply list_ascii_of_string_of_list_ascii. Qed.

Lemma chars_inj (a b : string) : path.chars a = path.chars b -> a = b.
Proof. intros H. rewrite <- (str_chars a), <- (str_chars b). now rewrite H. Qed.

Lemma append_inv_head (a x y : string) : a +:+ x = a +:+ y -> x = y.
Proof.
  intros H. apply chars_inj. apply (f_equal path.chars) in H.
  rewrite !chars_app in H. now apply app_inv_head in H.
Qed.

Lemma append_neq_self (a x : string) : x <> "" -> a +:+ x <> a.
Proof.
  intros Hx H. apply Hx. apply (append_inv_head a). rewrite H.
  apply chars_inj. rewrite chars_app. simpl. now rewrite app_nil_r.
Qed.

Lemma append_assoc (a b c : string) : (a +:+ b) +:+ c = a +:+ (b +:+ c).
Proof. apply chars_inj. rewrite !chars_app. now rewrite app_assoc. Qed.

Lemma existsb_app_false {A} (p : A -> bool) (l1 l2 : list A) :
  existsb p (l1 ++ l2) = false <-> existsb p l1 = false /\ existsb p l2 = false.
Proof. rewrite existsb_app. apply orb_false_iff. Qed.

(** Below a separator that is followed by no other separator. *)
Lemma after_last_sep (l b : list ascii) :
  existsb path.is_sep b = false ->
  path.after_last path.is_sep (l ++ "/"%char :: b) = b.
Proof.
  intros Hb. induction l as [|c l IH]; simpl.
  - rewrite Hb. reflexivity.
  - rewrite existsb_app. simpl. rewrite orb_true_r. exact IH.
Qed.

Lemma after_last_no_sep (b : list ascii) :
  existsb path.is_sep b = false -> path.after_last path.is_sep b = b.
Proof.
  induction b as [|c b IH]; simpl; [reflexivity|].
  intros H. apply orb_false_iff in H as [Hc Hb]. now rewrite Hb, Hc.
Qed.

Lemma after_last_free (p : ascii -> bool) (l : list ascii) :
  existsb p (path.after_last p l) = false.
Proof.
  induction l as [|c l IH]; simpl; [reflexivity|].
  destruct (existsb p l) eqn:E; [exact IH|].
  destruct (p c) eqn:Ec; [exact E|]. simpl. now rewrite Ec, E.
Qed.

Lemma simple_basename (f : string) : path.basename f <> "" -> simple_name (path.basename f).
Proof.
  intros H. split; [exact H|]. unfold path.basename. rewrite chars_str.
  apply after_last_free.
Qed.

Lemma simple_chars (b : string) :
  simple_name b -> exists c l, path.chars b = c :: l /\ path.is_sep c = false /\
                               existsb path.is_sep l = false.
Proof.
  intros [Hne Hs]. destruct (path.chars b) as [|c l] eqn:E.
  - exfalso. apply Hne. apply chars_inj. exact E.
  - simpl in Hs. apply orb_false_iff in Hs as [Hc Hl]. eauto.
Qed.

Lemma join_simple (a b : string) :
  proper_dir a -> simple_name b -> path.join a b = a +:+ "/" +:+ b.
Proof.
  intros (l & c & Ha & Hc) Hb. destruct (simple_chars b Hb) as (k & r & Eb & Hk & _).
  unfold path.join. rewrite Eb, Ha, rev_app_distr. simpl.
  unfold path.is_sep in *.
  destruct k as [[] [] [] [] [] [] [] []]; try reflexivity; try discriminate;
  destruct c as [[] [] [] [] [] [] [] []]; try reflexivity; discriminate.
Qed.

Lemma rstrip_sep_slash (l : list ascii) (c : ascii) :
  path.is_sep c = false -> path.rstrip_sep ((l ++ [c]) ++ ["/"%char]) = l ++ [c].
Proof.
  intros Hc. unfold path.rstrip_sep. rewrite !rev_app_distr. simpl.
  rewrite Hc. simpl. now rewrite rev_involutive.
Qed.

Lemma dirname_join (a b : string) :
  proper_dir a -> simple_name b -> path.dirname (a +:+ "/" +:+ b) = a.
Proof.
  intros (l & c & Ha & Hc) Hb. destruct (simple_chars b Hb) as (k & r & Eb & Hk & Hr).
  assert (Hnb : existsb path.is_sep (path.chars b) = false) by apply Hb.
  unfold path.dirname, path.upto_last.
  rewrite !chars_app. change (path.chars "/") with ["/"%char].
  assert (E : existsb path.is_sep (path.chars a ++ ["/"%char] ++ path.chars b) = true).
  { rewrite !existsb_app. simpl. now rewrite orb_true_r. }
  rewrite E.
  change (path.chars a ++ ["/"%char] ++ path.chars b)
    with (path.chars a ++ "/"%char :: path.chars b).
  rewrite after_last_sep by assumption.
  replace (length (path.chars a ++ "/"%char :: path.chars b) - length (path.chars b))%nat
    with (length (path.chars a ++ ["/"%char])).
  2:{ rewrite !length_app. simpl. lia. }
  replace (path.chars a ++ "/"%char :: path.chars b)
    with ((path.chars a ++ ["/"%char]) ++ path.chars b) by now rewrite <- app_assoc.
  rewrite take_app_length. rewrite Ha.
  assert (F : forallb path.is_sep ((l ++ [c]) ++ ["/"%char]) = false).
  { rewrite !forallb_app. simpl. rewrite Hc. simpl. now rewrite andb_false_r. }
  rewrite F. rewrite rstrip_sep_slash by assumption. rewrite <- Ha. apply str_chars.
Qed.

Lemma proper_join (a b : string) : simple_name b -> proper_dir (a +:+ "/" +:+ b).
Proof.
  intros Hb. destruct (simple_chars b Hb) as (k & r & Eb & Hk & Hr).
  unfold proper_dir. rewrite !chars_app. rewrite Eb.
  change (path.chars "/") with ["/"%char].
  destruct (exists_last (l := k :: r)) as (r' & z & Ez); [discriminate|].
  exists (path.chars a ++ ["/"%char] ++ r'), z. split.
  - rewrite Ez. now rewrite <- !app_assoc.
  - assert (Hz : existsb path.is_sep (k :: r) = false) by (simpl; now rewrite Hk, Hr).
    rewrite Ez in Hz. apply existsb_app_false in Hz as [_ Hz]. simpl in Hz.
    now apply orb_false_iff in Hz as [Hz _].
Qed.

Lemma strip_prefix_Some (pre s r : list ascii) :
  strip_prefix pre s = Some r -> s = pre ++ r.
Proof.
  revert s. induction pre as [|c pre IH]; intros s; simpl.
  - now intros [= ->].
  - destruct s as [|b s]; [discriminate|].
    destruct (Ascii.eqb_spec c b) as [->|]; [|discriminate].
    intros H. now rewrite (IH _ H).
Qed.

Lemma strip_prefix_self (pre s : list ascii) : strip_prefix pre (pre ++ s) = Some s.
Proof.
  induction pre as [|c pre IH]; simpl; [reflexivity|]. now rewrite Ascii.eqb_refl.
Qed.

Lemma below_Some (root p rel : string) :
  below root p = Some rel <-> (rel <> "" /\ p = root +:+ "/" +:+ rel).
Proof.
  unfold below. split.
  - destruct (strip_prefix _ _) as [[|c r]|] eqn:E; try discriminate.
    intros Heq. assert (Hrel : rel = path.str (c :: r)) by congruence.
    clear Heq. subst rel. split.
    + intros H. unfold path.str in H. simpl in H. discriminate.
    + apply strip_prefix_Some in E. apply chars_inj.
      rewrite E, !chars_app, chars_str, <- app_assoc. reflexivity.
  - intros [Hne ->]. rewrite <- append_assoc, (chars_app (root +:+ "/") rel), strip_prefix_self.
    destruct (path.chars rel) as [|c r] eqn:E.
    + exfalso. apply Hne. apply chars_inj. exact E.
    + rewrite <- E. now rewrite str_chars.
Qed.

Lemma below_join (root rel : string) : rel <> "" -> below root (root +:+ "/" +:+ rel) = Some rel.
Proof. intros H. apply below_Some. auto. Qed.

Lemma below_self (root : string) : below root root = None.
Proof.
  destruct (below root root) as [rel|] eqn:E; [|reflexivity].
  apply below_Some in E as [Hne E]. symmetry in E. apply append_neq_self in E; [easy|].
  discriminate.
Qed.

(* ===================================================================== *)
(** * Facts about the file system *)
(* ===================================================================== *)

Lemma subtree_keys_NoDup (root : string) (l : list (string * node)) :
  NoDup (l.*1) ->
  NoDup ((omap (M := list)
               (fun kv : string * node =>
                  match below root kv.1 with
                  | Some rel => Some (rel, kv.2)
                  | None => None
                  end) l).*1).
Proof.
  induction l as [|[p n] l IH]; simpl; intros ND; [constructor|].
  apply NoDup_cons in ND as [Hp ND]. specialize (IH ND).
  destruct (below root p) as [rel|] eqn:B; simpl; [|exact IH].
  apply NoDup_cons. split; [|exact IH].
  intros Hin. apply list_elem_of_fmap in Hin as ([rel' n'] & Heq & Hin). simpl in Heq. subst rel'.
  apply list_elem_of_omap in Hin as ([p' n''] & Hin & Hg). simpl in Hg.
  destruct (below root p') as [r'|] eqn:B'; [|discriminate].
  injection Hg as -> ->.
  apply below_Some in B as [_ ->]. apply below_Some in B' as [_ ->].
  apply Hp. apply list_elem_of_fmap. exists (root +:+ "/" +:+ rel, n'). auto.
Qed.

(** An entry of the archive is the node at the same relative path below
    the root. *)
Lemma lookup_subtree (root rel : string) (f : gmap string node) :
  rel <> "" -> subtree root f !! rel = f !! (root +:+ "/" +:+ rel).
Proof.
  intros Hne. unfold subtree.
  destruct (f !! (root +:+ "/" +:+ rel)) as [n|] eqn:E.
  - apply elem_of_list_to_map_1.
    + apply subtree_keys_NoDup, NoDup_fst_map_to_list.
    + apply list_elem_of_omap. exists (root +:+ "/" +:+ rel, n). split.
      * now apply elem_of_map_to_list.
      * simpl. now rewrite below_join.
  - apply not_elem_of_list_to_map_1. intros Hin.
    apply list_elem_of_fmap in Hin as ([rel' n'] & Heq & Hin). simpl in Heq. subst rel'.
    apply list_elem_of_omap in Hin as ([p n''] & Hin & Hg). simpl in Hg.
    destruct (below root p) as [r'|] eqn:B; [|discriminate].
    injection Hg as -> ->. apply below_Some in B as [_ ->].
    apply elem_of_map_to_list in Hin. congruence.
Qed.

Lemma isdir_insert_ne (f : gmap string node) (p q : string) (n : node) :
  p <> q -> isdir (<[p := n]> f) q = isdir f q.
Proof. intros H. unfold isdir. now rewrite lookup_insert_ne. Qed.

Lemma isdir_insert_eq (f : gmap string node) (p : string) : isdir (<[p := Dir]> f) p = true.
Proof. unfold isdir. now rewrite lookup_insert_eq. Qed.

Lemma mkdir_ok (d : disk) (p : string) :
  fs d !! p = None -> isdir (fs d) (path.dirname p) = true ->
  mkdir p d = (Return tt, with_fs d (<[p := Dir]> (fs d))).
Proof. intros Hp Hd. unfold mkdir, bind, read_fs, write_fs. now rewrite Hp, Hd. Qed.

Lemma write_file_ok (d : disk) (p : string) (n : node) :
  fs d !! p <> Some Dir -> isdir (fs d) (path.dirname p) = true ->
  write_file p n d = (Return tt, with_fs d (<[p := n]> (fs d))).
Proof.
  intros Hp Hd. unfold write_file, bind, read_fs, write_fs.
  destruct (fs d !! p) as [[]|]; try congruence; now rewrite Hd.
Qed.

Lemma isfile_lookup (f : gmap string node) (p : string) :
  isfile f p = true -> exists n, f !! p = Some n /\ n <> Dir.
Proof.
  unfold isfile. destruct (f !! p) as [[]|]; try discriminate; eauto.
Qed.

Lemma copyfile_ok (d : disk) (src dst : string) (n : node) :
  src <> dst -> fs d !! src = Some n -> n <> Dir ->
  fs d !! dst <> Some Dir -> isdir (fs d) (path.dirname dst) = true ->
  copyfile src dst d = (Return tt, with_fs d (<[dst := n]> (fs d))).
Proof.
  intros Hne Hs Hn Hd Hp. unfold copyfile. apply String.eqb_neq in Hne. rewrite Hne.
  unfold bind at 1. unfold read_file, bind, read_fs. rewrite Hs.
  destruct n; try congruence; simpl; now apply write_file_ok.
Qed.

Lemma make_archive_ok (d : disk) (base root_dir : string) :
  isdir (fs d) root_dir = true ->
  fs d !! (base +:+ ".zip") <> Some Dir ->
  isdir (fs d) (path.dirname (base +:+ ".zip")) = true ->
  make_archive base true root_dir d =
  (Return (base +:+ ".zip"),
   with_fs d (<[base +:+ ".zip" := ZipFile (subtree root_dir (fs d))]> (fs d))).
Proof.
  intros Hr Hz Hd. unfold make_archive. unfold bind at 1. unfold read_fs at 1.
  rewrite Hr. cbn [negb]. unfold bind. cbv beta. now rewrite write_file_ok.
Qed.

Lemma rmtree_ok (d : disk) (root : string) :
  isdir (fs d) root = true ->
  rmtree root d =
  (Return tt, with_fs d (filter (fun kv => kv.1 <> root /\ below root kv.1 = None) (fs d))).
Proof. intros Hr. unfold rmtree, bind, read_fs. now rewrite Hr. Qed.

Lemma fs_with_fs (d : disk) (f : gmap string node) : fs (with_fs d f) = f.
Proof. reflexivity. Qed.

Lemma with_fs_with_fs (d : disk) (f g : gmap string node) :
  with_fs (with_fs d f) g = with_fs d g.
Proof. reflexivity. Qed.

(** The copies change the targets only. *)
Lemma copies_other (content : string) (items : list (string * string)) :
  forall (f : gmap string node) (p : string),
  Forall (fun item => target content item <> p) items ->
  copies content items f !! p = f !! p.
Proof.
  unfold copies. induction items as [|[r src] items IH]; intros f p Hp; simpl; [reflexivity|].
  apply Forall_cons in Hp as [Hp Hps]. rewrite IH by assumption.
  destruct (f !! src); [|reflexivity]. now apply lookup_insert_ne.
Qed.

Lemma target_below (content : string) (item : string * string) :
  path.basename item.2 <> "" -> below content (target content item) = Some (path.basename item.2).
Proof. intros H. now apply below_join. Qed.

(** The copies touch nothing outside the [content] folder. *)
Lemma copies_outside (content : string) (items : list (string * string))
      (f : gmap string node) (p : string) :
  Forall (fun item => path.basename item.2 <> "") items ->
  below content p = None -> copies content items f !! p = f !! p.
Proof.
  intros Hb Hp. apply copies_other. eapply Forall_impl; [exact Hb|].
  intros item Hi <-. rewrite (target_below content item Hi) in Hp. discriminate.
Qed.

(** With pairwise distinct base names every target holds the copy of
    its source. *)
Lemma copies_lookup (content : string) (items : list (string * string)) :
  forall (f : gmap string node),
  NoDup (map (fun item => path.basename item.2) items) ->
  Forall (fun item => path.basename item.2 <> "" /\ below content item.2 = None /\
                      is_Some (f !! item.2)) items ->
  forall item, In item items -> copies content items f !! target content item = f !! item.2.
Proof.
  induction items as [|[r src] items IH]; intros f ND Hok item Hin; [destruct Hin|].
  simpl in ND. apply NoDup_cons in ND as [Hnew ND].
  apply Forall_cons in Hok as [(Hb & Hs & [n Hn]) Hok]. simpl in Hb, Hs, Hn.
  assert (Hstep : copies content ((r, src) :: items) f =
                  copies content items (<[target content (r, src) := n]> f)).
  { unfold copies. simpl. now rewrite Hn. }
  rewrite Hstep.
  assert (Hok' : Forall (fun item => path.basename item.2 <> "" /\ below content item.2 = None /\
                                     is_Some (<[target content (r, src) := n]> f !! item.2)) items).
  { eapply Forall_impl; [exact Hok|]. intros [r' src'] (Hb' & Hs' & Hn'). simpl in *.
    repeat split; try assumption. rewrite lookup_insert_ne; [assumption|].
    intros E. rewrite <- E in Hs'. rewrite (target_below content (r, src) Hb) in Hs'.
    discriminate. }
  destruct Hin as [<-|Hin].
  - rewrite copies_other.
    + rewrite lookup_insert_eq. simpl. now rewrite Hn.
    + apply Forall_forall. intros [r' src'] Hin' E. apply Hnew.
      apply list_elem_of_In, in_map_iff. exists (r', src').
      split; [|now apply list_elem_of_In].
      unfold target in E. simpl in *. now apply append_inv_head, append_inv_head in E.
  - rewrite (IH _ ND Hok' item Hin).
    apply lookup_insert_ne.
    rewrite Forall_forall in Hok. destruct (Hok item) as (_ & Hs' & _).
    { now apply list_elem_of_In. }
    intros E. rewrite <- E in Hs'. rewrite (target_below content (r, src) Hb) in Hs'.
    discriminate.
Qed.

Lemma copy_ready_step (content : string) (item : string * string)
      (items : list (string * string)) (f : gmap string node) (n : node) :
  copy_ready content (item :: items) f -> f !! item.2 = Some n ->
  copy_ready content items (<[target content item := n]> f).
Proof.
  intros (Hd & Hfree & Hok) Hn. apply Forall_cons in Hok as [(Hb & Hs & Hf) Hok].
  assert (Hnd : n <> Dir).
  { destruct (isfile_lookup _ _ Hf) as (n' & Hn' & Hnd). congruence. }
  pose proof (target_below content item Hb) as Ht.
  split; [|split].
  - rewrite isdir_insert_ne; [assumption|]. intros E. rewrite E, below_self in Ht. discriminate.
  - intros p rel Hp. destruct (decide (target content item = p)) as [<-|Hne].
    + rewrite lookup_insert_eq. congruence.
    + rewrite lookup_insert_ne by assumption. eapply Hfree; eauto.
  - eapply Forall_impl; [exact Hok|]. intros item' (Hb' & Hs' & Hf').
    repeat split; try assumption. unfold isfile. rewrite lookup_insert_ne; [exact Hf'|].
    intros E. rewrite <- E, Ht in Hs'. discriminate.
Qed.

Lemma copies_cons (content : string) (item : string * string)
      (items : list (string * string)) (f : gmap string node) (n : node) :
  f !! item.2 = Some n ->
  copies content (item :: items) f = copies content items (<[target content item := n]> f).
Proof. intros Hn. unfold copies. simpl. now rewrite Hn. Qed.

Lemma copies_app (content : string) (l1 l2 : list (string * string)) (f : gmap string node) :
  copies content (l1 ++ l2) f = copies content l2 (copies content l1 f).
Proof. unfold copies. apply fold_left_app. Qed.

Lemma copy_ready_app (content : string) (l1 l2 : list (string * string)) :
  forall f, copy_ready content (l1 ++ l2) f -> copy_ready content l2 (copies content l1 f).
Proof.
  induction l1 as [|item l1 IH]; intros f Hr; [exact Hr|].
  pose proof Hr as (_ & _ & Hok). apply Forall_cons in Hok as [(_ & _ & Hf) _].
  destruct (isfile_lookup _ _ Hf) as (n & Hn & _).
  rewrite (copies_cons _ _ _ _ _ Hn). apply IH.
  now apply (copy_ready_step content item (l1 ++ l2) f n).
Qed.

(** [copy_content] succeeds and leaves the files of [copies]. *)
Lemma copy_content_ok (inner : string) (items : list (string * string)) :
  proper_dir inner ->
  forall d, copy_ready (inner +:+ "/" +:+ "content") items (fs d) ->
  copy_content inner items d =
  (Return tt, with_fs d (copies (inner +:+ "/" +:+ "content") items (fs d))).
Proof.
  intros Hinner. set (content := inner +:+ "/" +:+ "content").
  assert (Hsimple : simple_name "content") by (split; [discriminate | reflexivity]).
  assert (Hjoin : path.join inner "content" = content) by now apply join_simple.
  assert (Hcontent : proper_dir content) by now apply proper_join.
  induction items as [|[r src] items IH]; intros d Hr.
  - simpl. unfold ret, with_fs. now destruct d.
  - pose proof Hr as (Hd & Hfree & Hok). apply Forall_cons in Hok as [(Hb & Hs & Hf) Hok].
    simpl in Hb, Hs, Hf. destruct (isfile_lookup _ _ Hf) as (n & Hn & Hnd).
    pose proof (target_below content (r, src) Hb) as Ht.
    change (copy_content inner ((r, src) :: items))
      with (bind (copyfile src (path.join (path.join inner "content") (path.basename src)))
                 (fun _ => copy_content inner items)).
    rewrite Hjoin.
    rewrite (join_simple content (path.basename src)) by auto using simple_basename.
    change (content +:+ "/" +:+ path.basename src) with (target content (r, src)).
    unfold bind at 1. rewrite (copyfile_ok d src (target content (r, src)) n); try assumption.
    + rewrite (copies_cons content (r, src) items (fs d) n Hn). rewrite IH.
      * reflexivity.
      * now apply (copy_ready_step content (r, src) items (fs d) n).
    + intros E. rewrite E, Ht in Hs. discriminate.
    + eapply Hfree. exact Ht.
    + unfold target. simpl. rewrite dirname_join; auto using simple_basename.
Qed.

(* ===================================================================== *)
(** * Writing the package *)
(* ===================================================================== *)

Lemma slash_neq_empty (x : string) : "/" +:+ x <> "".
Proof. discriminate. Qed.

Lemma below_neq (root p rel : string) : below root p = Some rel -> p <> root.
Proof. intros H E. subst p. rewrite below_self in H. discriminate. Qed.

(** Below a folder that lies below the root. *)
Lemma below_deeper (root rel p r : string) :
  rel <> "" -> below (root +:+ "/" +:+ rel) p = Some r ->
  below root p = Some (rel +:+ "/" +:+ r).
Proof.
  intros Hrel H. apply below_Some in H as [Hr ->]. apply below_Some. split.
  - intros E. apply Hrel. destruct rel; [reflexivity | discriminate].
  - now rewrite !append_assoc.
Qed.

Lemma simple_zip (io_ref : string) : simple_name io_ref -> simple_name (io_ref +:+ ".zip").
Proof.
  intros [Hne Hs]. split.
  - destruct io_ref; [contradiction | discriminate].
  - rewrite chars_app, existsb_app, Hs. reflexivity.
Qed.

Lemma below_zip (top : string) : below top (top +:+ ".zip") = None.
Proof.
  destruct (below top (top +:+ ".zip")) as [rel|] eqn:E; [|reflexivity].
  apply below_Some in E as [_ E]. apply append_inv_head in E. discriminate.
Qed.

Section WritePackage.

Variable host : Host.
Variable xip : XML.Element.
Variables io_ref export_folder : string.
Variables pres access : list (string * string).
Variable d : disk.

Let top := export_folder +:+ "/" +:+ io_ref.
Let inner := top +:+ "/" +:+ io_ref.
Let content := inner +:+ "/" +:+ "content".
Let meta := inner +:+ "/" +:+ "metadata.xml".
Let items := pres ++ access.

Hypothesis Hexport : proper_dir export_folder.
Hypothesis Hio : simple_name io_ref.
Hypothesis Hdir : isdir (fs d) export_folder = true.
Hypothesis Hfresh : forall p, p = top \/ below top p <> None -> fs d !! p = None.
Hypothesis Hzip : fs d !! (top +:+ ".zip") <> Some Dir.
Hypothesis Hfiles : Forall (fun item => input_file (fs d) item.2) items.

Let f4 : gmap string node :=
  <[meta := File (prettify host xip)]>
    (<[content := Dir]> (<[inner := Dir]> (<[top := Dir]> (fs d)))).

Lemma io_ref_neq : io_ref <> "".
Proof. apply Hio. Qed.

Lemma below_inner : below top inner = Some io_ref.
Proof. apply below_join, io_ref_neq. Qed.

Lemma below_content : below top content = Some (io_ref +:+ "/" +:+ "content").
Proof. apply (below_deeper top io_ref); [apply io_ref_neq|]. now apply below_join. Qed.

Lemma below_meta : below top meta = Some (io_ref +:+ "/" +:+ "metadata.xml").
Proof. apply (below_deeper top io_ref); [apply io_ref_neq|]. now apply below_join. Qed.

Lemma below_content_top (p rel : string) :
  below content p = Some rel -> below top p = Some (io_ref +:+ "/" +:+ "content" +:+ "/" +:+ rel).
Proof.
  intros H. apply (below_deeper inner "content") in H; [|discriminate].
  apply (below_deeper top io_ref) in H; [|apply io_ref_neq].
  exact H.
Qed.

(** A path that is neither the staging folder nor below it is not
    touched by the staging. *)
Lemma f4_outside (p : string) :
  p <> top -> below top p = None -> f4 !! p = fs d !! p.
Proof.
  intros Hp Hb. unfold f4.
  rewrite !lookup_insert_ne; [reflexivity| | | |]; intros E; subst p.
  - now apply Hp.
  - rewrite below_inner in Hb. discriminate.
  - rewrite below_content in Hb. discriminate.
  - rewrite below_meta in Hb. discriminate.
Qed.

Lemma existing_outside (p : string) (n : node) :
  fs d !! p = Some n -> p <> top /\ below top p = None.
Proof.
  intros Hn. split.
  - intros E. rewrite Hfresh in Hn by auto. discriminate.
  - destruct (below top p) eqn:E; [|reflexivity].
    rewrite Hfresh in Hn; [discriminate|]. right. congruence.
Qed.

Lemma proper_top : proper_dir top.
Proof. apply proper_join, Hio. Qed.

Lemma proper_inner : proper_dir inner.
Proof. apply proper_join, Hio. Qed.

Lemma f4_ready : copy_ready content items f4.
Proof.
  split; [|split].
  - unfold f4. rewrite isdir_insert_ne.
    + apply isdir_insert_eq.
    + intros E. apply append_inv_head in E. discriminate.
  - intros p rel Hp. pose proof (below_content_top p rel Hp) as Ht.
    destruct (decide (p = meta)) as [->|Hm].
    + unfold f4. rewrite lookup_insert_eq. discriminate.
    + unfold f4. rewrite lookup_insert_ne by congruence.
      rewrite lookup_insert_ne by (intros E; symmetry in E; revert E; eapply below_neq, Hp).
      rewrite lookup_insert_ne.
      2:{ intros E. subst p. apply below_Some in Hp as [_ Hp].
          unfold content in Hp. rewrite append_assoc in Hp.
          symmetry in Hp. apply append_neq_self in Hp; [easy | discriminate]. }
      rewrite lookup_insert_ne by (intros E; symmetry in E; revert E; eapply below_neq, Ht).
      rewrite Hfresh; [discriminate|]. right. congruence.
  - eapply Forall_impl; [exact Hfiles|]. intros [r src] [Hf Hb]. simpl in *.
    destruct (isfile_lookup _ _ Hf) as (n & Hn & _).
    destruct (existing_outside src n Hn) as [Hne Hnb].
    repeat split; [assumption| |].
    + destruct (below content src) as [rel|] eqn:E; [|reflexivity].
      apply below_content_top in E. congruence.
    + unfold isfile. now rewrite f4_outside.
Qed.

Lemma staged_eq : staged host top io_ref xip items (fs d) = copies content items f4.
Proof. reflexivity. Qed.

Lemma items_named : Forall (fun item : string * string => path.basename item.2 <> "") items.
Proof. eapply Forall_impl; [exact Hfiles|]. intros item [_ Hb]. exact Hb. Qed.

Lemma content_outside (p : string) :
  below top p = None -> below content p = None.
Proof.
  intros Hb. destruct (below content p) as [rel|] eqn:E; [|reflexivity].
  apply below_content_top in E. congruence.
Qed.

(** The staging does not touch what lies outside the staging folder. *)
Lemma staged_outside (p : string) :
  p <> top -> below top p = None ->
  staged host top io_ref xip items (fs d) !! p = fs d !! p.
Proof.
  intros Hp Hb. rewrite staged_eq, copies_outside.
  - now apply f4_outside.
  - apply items_named.
  - now apply content_outside.
Qed.

Lemma staged_top : staged host top io_ref xip items (fs d) !! top = Some Dir.
Proof.
  rewrite staged_eq, copies_outside.
  - unfold f4.
    rewrite lookup_insert_ne by (eapply below_neq, below_meta).
    rewrite lookup_insert_ne by (eapply below_neq, below_content).
    rewrite lookup_insert_ne by (eapply below_neq, below_inner).
    apply lookup_insert_eq.
  - apply items_named.
  - apply content_outside, below_self.
Qed.

Lemma staged_metadata :
  staged host top io_ref xip items (fs d) !! meta = Some (File (prettify host xip)).
Proof.
  rewrite staged_eq, copies_outside.
  - unfold f4. apply lookup_insert_eq.
  - apply items_named.
  - destruct (below content meta) as [rel|] eqn:E; [|reflexivity].
    apply below_Some in E as [_ E]. unfold meta, content in E.
    rewrite append_assoc in E. apply append_inv_head in E. discriminate.
Qed.

Lemma staged_copy (item : string * string) :
  NoDup (map (fun item : string * string => path.basename item.2) items) ->
  In item items ->
  staged host top io_ref xip items (fs d) !! target content item = fs d !! item.2.
Proof.
  intros ND Hin. rewrite staged_eq.
  pose proof f4_ready as (_ & _ & Hok).
  rewrite copies_lookup; try assumption.
  - rewrite Forall_forall in Hfiles. destruct (Hfiles item) as [Hf _].
    { now apply list_elem_of_In. }
    destruct (isfile_lookup _ _ Hf) as (n & Hn & _).
    destruct (existing_outside _ _ Hn). now apply f4_outside.
  - eapply Forall_impl; [exact Hok|]. intros it (Hb & Hs & Hf).
    repeat split; try assumption.
    destruct (isfile_lookup _ _ Hf) as (n & Hn & _). eauto.
Qed.

(** [write_package] succeeds: the result is the path of the archive and
    the files are those of [packaged]. *)
Lemma write_package_ok :
  write_package host xip io_ref export_folder true pres access d =
  (Return (top +:+ ".zip"),
   with_fs d (packaged host top io_ref xip items (fs d))).
Proof.
  unfold write_package.
  rewrite (join_simple export_folder io_ref Hexport Hio). fold top.
  rewrite (join_simple top io_ref proper_top Hio). fold inner.
  rewrite (join_simple inner "content" proper_inner) by (split; [discriminate|reflexivity]).
  rewrite (join_simple inner "metadata.xml" proper_inner) by (split; [discriminate|reflexivity]).
  fold content. fold meta.
  unfold bind at 1. rewrite mkdir_ok.
  2:{ apply Hfresh. now left. }
  2:{ unfold top. now rewrite dirname_join. }
  unfold bind at 1. rewrite mkdir_ok.
  2:{ rewrite fs_with_fs, lookup_insert_ne.
      - apply Hfresh. right. rewrite below_inner. discriminate.
      - intros E. symmetry in E. revert E. eapply below_neq, below_inner. }
  2:{ rewrite fs_with_fs. unfold inner. rewrite dirname_join by auto using proper_top.
      apply isdir_insert_eq. }
  rewrite with_fs_with_fs, fs_with_fs.
  unfold bind at 1. rewrite mkdir_ok.
  2:{ rewrite fs_with_fs, !lookup_insert_ne.
      - apply Hfresh. right. rewrite below_content. discriminate.
      - intros E. symmetry in E. revert E. eapply below_neq, below_content.
      - intros E. symmetry in E. apply append_neq_self in E; [easy | discriminate]. }
  2:{ rewrite fs_with_fs. unfold content. rewrite dirname_join.
      - apply isdir_insert_eq.
      - apply proper_inner.
      - split; [discriminate | reflexivity]. }
  rewrite with_fs_with_fs, fs_with_fs.
  unfold bind at 1. rewrite write_file_ok.
  2:{ rewrite fs_with_fs, !lookup_insert_ne.
      - rewrite Hfresh; [discriminate|]. right. rewrite below_meta. discriminate.
      - intros E. symmetry in E. revert E. eapply below_neq, below_meta.
      - intros E. symmetry in E. apply append_neq_self in E; [easy | discriminate].
      - intros E. apply append_inv_head in E. discriminate. }
  2:{ rewrite fs_with_fs. unfold meta. rewrite dirname_join.
      - rewrite isdir_insert_ne; [apply isdir_insert_eq|].
        intros E. apply append_neq_self in E; [easy | discriminate].
      - apply proper_inner.
      - split; [discriminate | reflexivity]. }
  rewrite with_fs_with_fs, fs_with_fs. fold f4.
  pose proof f4_ready as Hready.
  assert (Hpres : copy_ready content pres f4).
  { destruct Hready as (H1 & H2 & H3). repeat split; try assumption.
    unfold items in H3. now apply Forall_app in H3 as [H3 _]. }
  unfold bind at 1. rewrite (copy_content_ok inner pres proper_inner) by exact Hpres.
  rewrite with_fs_with_fs, fs_with_fs. fold content.
  unfold bind at 1. rewrite (copy_content_ok inner access proper_inner).
  2:{ rewrite fs_with_fs. now apply copy_ready_app. }
  rewrite with_fs_with_fs, fs_with_fs. fold content.
  rewrite <- copies_app. fold items. rewrite <- staged_eq.
  set (s := staged host top io_ref xip items (fs d)).
  assert (Hs_top : isdir s top = true) by (unfold isdir, s; now rewrite staged_top).
  unfold bind at 1. rewrite make_archive_ok.
  2:{ now rewrite fs_with_fs. }
  2:{ rewrite fs_with_fs. unfold s. rewrite staged_outside.
      - exact Hzip.
      - apply append_neq_self. discriminate.
      - apply below_zip. }
  2:{ rewrite fs_with_fs. unfold top at 1. rewrite append_assoc, append_assoc.
      change ("/" +:+ io_ref +:+ ".zip") with ("/" +:+ (io_ref +:+ ".zip")).
      rewrite dirname_join by auto using simple_zip.
      unfold isdir, s. rewrite staged_outside.
      - exact Hdir.
      - intros E. unfold isdir in Hdir. rewrite E, Hfresh in Hdir by auto. discriminate.
      - destruct (below top export_folder) eqn:E; [|reflexivity].
        unfold isdir in Hdir. rewrite Hfresh in Hdir; [discriminate|]. right. congruence. }
  rewrite with_fs_with_fs, fs_with_fs.
  unfold bind at 1. rewrite rmtree_ok.
  2:{ rewrite fs_with_fs, isdir_insert_ne by (apply append_neq_self; discriminate).
      exact Hs_top. }
  rewrite with_fs_with_fs, fs_with_fs. reflexivity.
Qed.

(** The archive is at [<export_folder>/<reference>.zip]. *)
Lemma packaged_zip :
  packaged host top io_ref xip items (fs d) !! (top +:+ ".zip") =
  Some (ZipFile (subtree top (staged host top io_ref xip items (fs d)))).
Proof.
  unfold packaged. apply map_lookup_filter_Some_2.
  - apply lookup_insert_eq.
  - simpl. split; [apply append_neq_self; discriminate | apply below_zip].
Qed.

(** The staging folder is gone. *)
Lemma packaged_staging (p : string) :
  p = top \/ below top p <> None ->
  packaged host top io_ref xip items (fs d) !! p = None.
Proof.
  intros Hp. unfold packaged. apply map_lookup_filter_None_2. right.
  intros x _ [H1 H2]. simpl in *. destruct Hp; contradiction.
Qed.

(** Every other path holds what it held. *)
Lemma packaged_outside (p : string) :
  p <> top +:+ ".zip" -> p <> top -> below top p = None ->
  packaged host top io_ref xip items (fs d) !! p = fs d !! p.
Proof.
  intros Hz Hp Hb. unfold packaged.
  assert (E : <[top +:+ ".zip" := ZipFile (subtree top (staged host top io_ref xip items (fs d)))]>
                (staged host top io_ref xip items (fs d)) !! p = fs d !! p).
  { rewrite lookup_insert_ne by congruence. now apply staged_outside. }
  destruct (fs d !! p) as [n|] eqn:En.
  - apply map_lookup_filter_Some_2; [exact E | now split].
  - apply map_lookup_filter_None_2. now left.
Qed.

(** The archive holds [metadata.xml] with the pretty-printed tree. *)
Lemma archive_metadata :
  subtree top (staged host top io_ref xip items (fs d)) !! (io_ref +:+ "/" +:+ "metadata.xml") =
  Some (File (prettify host xip)).
Proof.
  rewrite lookup_subtree.
  - rewrite <- staged_metadata. unfold meta, inner. now rewrite !append_assoc.
  - intros E. apply io_ref_neq. destruct io_ref; [reflexivity | discriminate].
Qed.

(** With pairwise distinct base names the archive holds a copy of every
    input file in its [content] folder. *)
Lemma archive_copy (item : string * string) :
  NoDup (map (fun item : string * string => path.basename item.2) items) ->
  In item items ->
  subtree top (staged host top io_ref xip items (fs d))
    !! (io_ref +:+ "/" +:+ "content" +:+ "/" +:+ path.basename item.2) = fs d !! item.2.
Proof.
  intros ND Hin. rewrite lookup_subtree.
  - rewrite <- (staged_copy item ND Hin). unfold target, content, inner.
    now rewrite !append_assoc.
  - intros E. apply io_ref_neq. destruct io_ref; [reflexivity | discriminate].
Qed.

End WritePackage.

(* ===================================================================== *)
(** * Building the XIP tree *)
(* ===================================================================== *)

Lemma SubElement_add (xip child : XML.Element) : XML.SubElement xip child = add_children xip [child].
Proof. now destruct xip. Qed.

Lemma add_children_add (xip : XML.Element) (a b : list XML.Element) :
  add_children (add_children xip a) b = add_children xip (a ++ b).
Proof. destruct xip. simpl. now rewrite <- app_assoc. Qed.

Lemma add_children_nil (xip : XML.Element) : add_children xip [] = xip.
Proof. destruct xip. simpl. now rewrite app_nil_r. Qed.

Lemma children_add_children (xip : XML.Element) (cs : list XML.Element) :
  XML.children (add_children xip cs) = XML.children xip ++ cs.
Proof. now destruct xip. Qed.

Lemma tag_add_children (xip : XML.Element) (cs : list XML.Element) :
  XML.tag (add_children xip cs) = XML.tag xip.
Proof. now destruct xip. Qed.

(** A fold of steps that each add one child adds one child per item. *)
Lemma fold_adds (T : string) (fsys : gmap string node) {A}
      (step : XML.Element -> A -> Prog disk XML.Element) (l : list A) :
  Forall (adds T fsys step) l ->
  forall xip d, fs d = fsys ->
    exists cs d', fold_xip step l xip d = (Return (add_children xip cs), d') /\
                  map XML.tag cs = replicate (length l) T /\ fs d' = fsys.
Proof.
  induction l as [|a l IH]; intros Hl xip d Hd.
  - exists [], d. simpl. unfold ret. now rewrite add_children_nil.
  - apply Forall_cons in Hl as [Ha Hl].
    destruct (Ha xip d Hd) as (child & d1 & E1 & T1 & F1).
    destruct (IH Hl (XML.SubElement xip child) d1 F1) as (cs & d2 & E2 & T2 & F2).
    exists (child :: cs), d2. simpl. unfold bind. rewrite E1, E2.
    rewrite SubElement_add, add_children_add. simpl. now rewrite T1, T2.
Qed.

Lemma adds_complex_preservation (fsys : gmap string node) (kwargs : Kwargs)
      (io_ref security_tag content_type : string) (item : string * string) :
  covers (Preservation_Content_Title kwargs) item.2 ->
  covers (Preservation_Content_Description kwargs) item.2 ->
  adds "ContentObject" fsys
       (complex_preservation_content kwargs io_ref security_tag content_type) item.
Proof.
  intros Ht Hd xip d Hfs. destruct item as [r f]. simpl in Ht, Hd.
  unfold complex_preservation_content, __make_content_objects__, kwargs_get, by_file, bind, ret.
  destruct (Preservation_Content_Title kwargs) as [[s1|d1]|];
    destruct (Preservation_Content_Description kwargs) as [[s2|d2]|]; simpl in Ht, Hd;
    repeat match goal with H : is_Some _ |- _ => destruct H as [? ->] end;
    eexists _, d; repeat split; assumption.
Qed.

Lemma adds_complex_access (fsys : gmap string node) (kwargs : Kwargs)
      (io_ref security_tag content_type : string) (item : string * string) :
  covers (Access_Content_Title kwargs) item.2 ->
  is_text (Access_Content_Description kwargs) ->
  adds "ContentObject" fsys
       (complex_access_content kwargs io_ref security_tag content_type) item.
Proof.
  intros Ht Hd xip d Hfs. destruct item as [r f]. simpl in Ht.
  unfold complex_access_content, __make_content_objects__, kwargs_get, by_file, bind, ret.
  destruct (Access_Content_Title kwargs) as [[s1|d1]|];
    destruct (Access_Content_Description kwargs) as [[s2|d2]|]; simpl in Ht, Hd;
    try contradiction; repeat match goal with H : is_Some _ |- _ => destruct H as [? ->] end;
    eexists _, d; repeat split; assumption.
Qed.

Lemma adds_generation (host : Host) (fsys : gmap string node) (label : string)
      (item : string * string) :
  adds "Generation" fsys (generation_step host label) item.
Proof.
  intros xip d Hfs. destruct item as [r f].
  unfold generation_step, __make_generation__, bind, now, ret.
  eexists _, _. repeat split. exact Hfs.
Qed.

Lemma adds_bitstream (host : Host) (fsys : gmap string node)
      (callback : option (string -> string -> fixity_result)) (item : string * string) :
  never_other callback -> isfile fsys item.2 = true ->
  adds "Bitstream" fsys (bitstream_step host (fixity_callback host callback)) item.
Proof.
  intros Hc Hf xip d Hfs. destruct item as [r f]. simpl in Hf. subst fsys.
  destruct (isfile_lookup _ _ Hf) as (n & Hn & Hnd).
  unfold bitstream_step, __make_bitstream__, stat_size, bind, read_fs, ret. rewrite Hn.
  destruct callback as [cb|]; simpl.
  - unfold ret. specialize (Hc (path.basename f) f).
    destruct (cb (path.basename f) f); try contradiction;
      eexists _, d; repeat split.
  - unfold Sha1FixityCallBack, read_file, bind, read_fs, ret. rewrite Hn.
    destruct n; try contradiction; eexists _, d; repeat split.
Qed.

(* ===================================================================== *)
(** * The stages of [complex_asset_package] *)
(* ===================================================================== *)

Lemma dict_set_fresh {V} (d : list (string * V)) (k : string) (v : V) :
  ~ In k (map fst d) -> dict_set d k v = d ++ [(k, v)].
Proof.
  induction d as [|[k' v'] d IH]; simpl; intros Hk; [reflexivity|].
  destruct (decide (k' = k)) as [->|Hne].
  - exfalso. apply Hk. now left.
  - rewrite IH; [reflexivity|]. intros Hin. apply Hk. now right.
Qed.

Lemma create_io_ok (host : Host) (d : disk) (file_name : string) (parent_folder : parent_arg)
      (kwargs : Kwargs) :
  exists io d',
    __create_io__ host None file_name parent_folder kwargs d =
    (Return (XML.Elem "XIP" [("xmlns", "http://preservica.com/XIP/v6.0")] None [io],
             kwargs_get (IO_Identifier_callback kwargs) (uuid4 host (uuids_drawn d))), d') /\
    XML.tag io = "InformationObject" /\ fs d' = fs d.
Proof.
  unfold __create_io__, bind, kwargs_get.
  destruct (IO_Identifier_callback kwargs) as [ident|]; simpl; eexists _, _; repeat split.
Qed.

(** With references that never repeat, the dictionary from reference to
    file lists the files in their order. *)
Lemma content_object_refs_ok (host : Host) :
  (forall i j, uuid4 host i = uuid4 host j -> i = j) ->
  forall (rep_files : list string) (content_objects : list XML.Element)
         (refs_dict : list (string * string)) (d : disk),
    (forall k, In k (map fst refs_dict) ->
               exists j, (j < uuids_drawn d)%nat /\ k = uuid4 host j) ->
    exists cos refs d',
      content_object_refs host rep_files content_objects refs_dict d = (Return (cos, refs), d') /\
      map snd refs = map snd refs_dict ++ rep_files /\ fs d' = fs d.
Proof.
  intros Hinj rep_files.
  induction rep_files as [|f rest IH]; intros cos refs d Hkeys.
  - exists cos, refs, d. simpl. unfold ret. now rewrite app_nil_r.
  - simpl. unfold bind, new_uuid.
    assert (Hfresh : ~ In (uuid4 host (uuids_drawn d)) (map fst refs)).
    { intros Hin. destruct (Hkeys _ Hin) as (j & Hj & E). apply Hinj in E. lia. }
    rewrite (dict_set_fresh _ _ _ Hfresh).
    edestruct (IH (cos ++ [leaf "ContentObject" (Some (uuid4 host (uuids_drawn d)))])
                  (refs ++ [(uuid4 host (uuids_drawn d), f)])
                  (mkDisk (fs d) (S (uuids_drawn d)) (clock_reads d)))
      as (cos' & refs' & d' & E & Hm & Hf).
    { intros k Hk. simpl. rewrite map_app, in_app_iff in Hk. destruct Hk as [Hk|Hk].
      - destruct (Hkeys _ Hk) as (j & Hj & Ej). exists j. split; [lia | exact Ej].
      - simpl in Hk. destruct Hk as [<-|[]]. exists (uuids_drawn d). split; [lia | reflexivity]. }
    exists cos', refs', d'. rewrite E. repeat split.
    + rewrite Hm, map_app. simpl. now rewrite <- app_assoc.
    + exact Hf.
Qed.

Lemma make_representation_ok (host : Host) (xip : XML.Element) (rep_name rep_type : string)
      (rep_files : list string) (io_ref : string) (d : disk) :
  (forall i j, uuid4 host i = uuid4 host j -> i = j) ->
  exists rep refs d',
    __make_representation_multiple_co__ host xip rep_name rep_type rep_files io_ref d =
    (Return (add_children xip [rep], refs), d') /\
    XML.tag rep = "Representation" /\ map snd refs = rep_files /\ fs d' = fs d.
Proof.
  intros Hinj. unfold __make_representation_multiple_co__, bind.
  destruct (content_object_refs_ok host Hinj rep_files [] [] d) as (cos & refs & d' & E & Hm & Hf).
  { intros k []. }
  rewrite E. unfold ret. rewrite SubElement_add. eexists _, refs, d'. repeat split; assumption.
Qed.

Lemma add_identifiers_ok (identifier_map : list (string * string))
      (xip : XML.Element) (io_ref : string) (d : disk) :
  exists cs,
    add_identifiers identifier_map (Some (xip, io_ref)) d =
    (Return (Some (add_children xip cs, io_ref)), d) /\
    map XML.tag cs = replicate (length (List.filter identifier_added identifier_map)) "Identifier".
Proof.
  revert xip. induction identifier_map as [|[k v] rest IH]; intros xip.
  - exists []. simpl. unfold ret. now rewrite add_children_nil.
  - simpl. unfold identifier_added at 1. simpl.
    destruct (negb (k =? "")%string && negb (v =? "")%string).
    + unfold bind. simpl. unfold ret.
      match goal with
      | |- context [XML.SubElement xip ?c] =>
          destruct (IH (XML.SubElement xip c)) as (cs & E & Ht); rewrite E;
          rewrite SubElement_add, add_children_add; exists (c :: cs)
      end.
      split; [reflexivity|]. simpl. now rewrite Ht.
    + apply IH.
Qed.

Lemma add_asset_metadata_ok (host : Host) (metadata_map : list (string * string))
      (xip : XML.Element) (io_ref : string) (d : disk) :
  Forall (metadata_parses host (fs d)) metadata_map ->
  exists cs d',
    add_asset_metadata host true metadata_map (Some (xip, io_ref)) d =
    (Return (Some (add_children xip cs, io_ref)), d') /\
    map XML.tag cs = replicate (length (List.filter identifier_added metadata_map)) "Metadata" /\
    fs d' = fs d.
Proof.
  revert xip d. induction metadata_map as [|[k v] rest IH]; intros xip d Hm.
  - exists [], d. simpl. unfold ret. now rewrite add_children_nil.
  - apply Forall_cons in Hm as [Hkv Hm]. simpl.
    unfold identifier_added at 1. unfold metadata_parses, identifier_added in Hkv. simpl in *.
    destruct (negb (k =? "")%string && negb (v =? "")%string); [|now apply IH].
    specialize (Hkv eq_refl). unfold bind at 1. unfold read_fs.
    destruct (isfile (fs d) v) eqn:Hv.
    + destruct Hkv as (n & root & Hn & Hr). destruct (isfile_lookup _ _ Hv) as (n' & Hn' & Hnd).
      unfold read_file, read_fs, bind. cbv beta. rewrite Hn. assert (n = n') by congruence. subst n'.
      destruct n; try contradiction; unfold ret; rewrite Hr; simpl; unfold new_uuid, ret.
      all: match goal with
           | |- context [XML.SubElement ?x ?c] =>
               match goal with
               | IH' : forall _ _, _ -> _, Hm' : Forall _ _, d0 : disk |- _ =>
                   destruct (IH' (XML.SubElement x c)
                                 (mkDisk (fs d0) (S (uuids_drawn d0)) (clock_reads d0)) Hm')
                     as (cs & d' & E & Ht & Hf);
                   rewrite E, SubElement_add, add_children_add; exists (c :: cs), d'
               end
           end.
      all: split; [reflexivity|]; simpl; match goal with Ht : map _ _ = _ |- _ => now rewrite Ht end.
    + destruct Hkv as (root & Hr). rewrite Hr. unfold bind. simpl. unfold new_uuid, ret.
      match goal with
      | |- context [XML.SubElement xip ?c] =>
          destruct (IH (XML.SubElement xip c)
                       (mkDisk (fs d) (S (uuids_drawn d)) (clock_reads d)) Hm)
            as (cs & d' & E & Ht & Hf);
          rewrite E, SubElement_add, add_children_add; exists (c :: cs), d'
      end.
      split; [reflexivity|]. simpl. now rewrite Ht.
Qed.

(* ===================================================================== *)
(** * complex_asset_package *)
(* ===================================================================== *)

Lemma run_bind {St A B} (m : Prog St A) (k : A -> Prog St B) (s s' : St) (a : A) :
  m s = (Return a, s') -> bind m k s = k a s'.
Proof. intros H. unfold bind. now rewrite H. Qed.

Lemma has_files_files_of {A} (l : option (list A)) : has_files (Some (files_of l)) = has_files l.
Proof. now destruct l as [[]|]. Qed.

Lemma has_files_false {A} (l : option (list A)) : has_files l = false -> files_of l = [].
Proof. now destruct l as [[]|]. Qed.

Lemma first_title_ok (l : list string) (d : disk) :
  l <> [] -> exists t, first_title l d = (Return t, d).
Proof. destruct l; [contradiction|]. intros _. eexists. reflexivity. Qed.

(** The fold of one of the six loops over a dictionary from reference to
    file. *)
Lemma fold_refs (T : string) (d0 : disk) (step : XML.Element -> string * string -> Prog disk XML.Element)
      (refs : list (string * string)) (rep_files : list string) (xip : XML.Element) (d : disk) :
  (forall item, In item refs -> adds T (fs d0) step item) ->
  map snd refs = rep_files -> fs d = fs d0 ->
  exists cs d', fold_xip step refs xip d = (Return (add_children xip cs), d') /\
                map XML.tag cs = replicate (length rep_files) T /\ fs d' = fs d0.
Proof.
  intros Hs Hm Hd. destruct (fold_adds T (fs d0) step refs) with (xip := xip) (d := d)
    as (cs & d' & E & Ht & Hf).
  - apply Forall_forall. intros item Hi. apply Hs. now apply list_elem_of_In.
  - exact Hd.
  - exists cs, d'. repeat split; [exact E| |exact Hf].
    rewrite Ht, <- Hm. now rewrite length_map.
Qed.

Lemma covered_refs (v : option text_or_dict) (refs : list (string * string))
      (rep_files : list string) (item : string * string) :
  Forall (covers v) rep_files -> map snd refs = rep_files -> In item refs -> covers v item.2.
Proof.
  intros Hf <- Hi. rewrite Forall_map in Hf.
  rewrite List.Forall_forall in Hf. now apply (Hf item Hi).
Qed.

Lemma input_files_refs (f : gmap string node) (refs : list (string * string))
      (rep_files : list string) (item : string * string) :
  Forall (input_file f) rep_files -> map snd refs = rep_files -> In item refs ->
  isfile f item.2 = true.
Proof.
  intros Hf <- Hi. rewrite Forall_map in Hf.
  rewrite List.Forall_forall in Hf. now apply (Hf item Hi).
Qed.


(** ** An example package *)

Lemma str_of_Z_inj (a b : Z) : PyStr.str_of_Z a = PyStr.str_of_Z b -> a = b.
Proof.
  unfold PyStr.str_of_Z. intros H. apply DecimalZ.to_int_inj.
  assert (Hn : forall z, Z.to_int z <> Decimal.Pos Decimal.Nil /\
                         Z.to_int z <> Decimal.Neg Decimal.Nil).
  { intros [|p|p]; simpl; split; try discriminate; intros [= E];
      now apply DecimalPos.Unsigned.to_uint_nonnil in E. }
  apply (f_equal NilZero.int_of_string) in H.
  rewrite !NilZero.isi in H by apply Hn. congruence.
Qed.

Lemma test_uuid4_inj (i j : nat) : uuid4 test_host i = uuid4 test_host j -> i = j.
Proof.
  simpl. intros H. apply append_inv_head, str_of_Z_inj in H. lia.
Qed.

Lemma test_fs_keys (p : string) (n : node) :
  test_fs !! p = Some n ->
  In p ["/tmp"; "/out"; "/in"; "/in/a"; "/in/b"; "/in/a/x.txt"; "/in/b/x.txt"; "/in/y.txt"].
Proof.
  unfold test_fs. intros H.
  repeat (apply lookup_insert_Some in H as [[<- _]|[_ H]]; [simpl; tauto|]).
  apply lookup_singleton_Some in H as [<- _]. simpl. tauto.
Qed.

Lemma test_fs_free (p : string) :
  p = "/out/uuid-0" \/ below "/out/uuid-0" p <> None -> test_fs !! p = None.
Proof.
  intros Hp. destruct (test_fs !! p) as [n|] eqn:E; [exfalso|reflexivity].
  apply test_fs_keys in E. simpl in E.
  repeat (destruct E as [<-|E]; [destruct Hp as [Hp|Hp]; [discriminate | now apply Hp]|]).
  exact E.
Qed.


(* ===================================================================== *)
(** * sanitize on short ASCII names *)
(* ===================================================================== *)

Lemma drop_while_suffix (p : N -> bool) (l : pystr) :
  exists t, l = t ++ drop_while p l.
Proof.
  induction l as [|c l [t IH]]; [now exists []|]. simpl.
  destruct (p c); [|now exists []].
  exists (c :: t). simpl. now rewrite <- IH.
Qed.

Lemma drop_while_stops (p : N -> bool) (l : pystr) (c : N) (r : pystr) :
  drop_while p l = c :: r -> p c = false.
Proof.
  induction l as [|d l IH]; simpl; [discriminate|].
  destruct (p d) eqn:E; [exact IH|]. intros [= <- _]. exact E.
Qed.

(** [rstrip] keeps a prefix, and what it keeps does not end in one of
    the characters. *)
Lemma rstrip_chars_prefix (chars s : pystr) :
  exists t, s = rstrip_chars chars s ++ t.
Proof.
  unfold rstrip_chars.
  destruct (drop_while_suffix (fun c => existsb (N.eqb c) chars) (rev s)) as [t E].
  exists (rev t). rewrite <- rev_app_distr, <- E. now rewrite rev_involutive.
Qed.

Lemma rstrip_chars_last (chars s : pystr) (c : N) (r : pystr) :
  rev (rstrip_chars chars s) = c :: r -> existsb (N.eqb c) chars = false.
Proof.
  unfold rstrip_chars. rewrite rev_involutive. apply drop_while_stops.
Qed.

(** [strip] after [rstrip]: a suffix of its argument, with the same last
    character, when that character is no white space. *)
Lemma strip_suffix (sp : N -> bool) (a : pystr) :
  (forall c r, rev a = c :: r -> sp c = false) ->
  exists t, a = t ++ strip sp a.
Proof.
  intros Hlast. unfold strip.
  destruct (drop_while_suffix sp a) as [t E].
  destruct (drop_while sp a) as [|x a'] eqn:Ea.
  - exists a. simpl. now rewrite app_nil_r.
  - exists t. rewrite E at 1. f_equal.
    destruct (rev (x :: a')) as [|c r] eqn:Er.
    { apply (f_equal (@length N)) in Er. rewrite length_rev in Er. discriminate. }
    assert (Hc : sp c = false).
    { apply (Hlast c (r ++ rev t)). rewrite E, rev_app_distr, Er. reflexivity. }
    simpl. rewrite Hc. rewrite <- Er. now rewrite rev_involutive.
Qed.

Lemma last_of_suffix {A} (t b : list A) (c : A) (r : list A) :
  rev b = c :: r -> exists r', rev (t ++ b) = c :: r'.
Proof. intros E. rewrite rev_app_distr, E. now eexists. Qed.

Lemma all_ascii_filter (p : N -> bool) (s : pystr) :
  all_ascii s = true -> all_ascii (List.filter p s) = true.
Proof.
  unfold all_ascii. rewrite !forallb_forall. intros H c Hc.
  apply filter_In in Hc as [Hc _]. now apply H.
Qed.

Lemma reserved_words (b : pystr) :
  str_in b reserved = true ->
  (length b <= 4)%nat /\ str_in (lit "__" ++ b) reserved = false /\
  (forall c, In c b -> str_in [c] blacklist = false /\ (31 < c)%N) /\
  (forall c r, rev b = c :: r -> c <> 46%N /\ c <> 32%N).
Proof.
  unfold str_in at 1. intros H. apply existsb_exists in H as (x & Hx & E).
  unfold str_eqb in E. apply bool_decide_eq_true in E. subst x.
  vm_compute in Hx.
  repeat (destruct Hx as [<-|Hx];
          [split; [vm_compute; lia|split; [vm_compute; reflexivity|split]];
           [intros c Hc; vm_compute in Hc;
            repeat (destruct Hc as [<-|Hc]; [split; [vm_compute; reflexivity|reflexivity]|]);
            contradiction
           |intros c r Hr; vm_compute in Hr; injection Hr as <- _; split; discriminate]|]).
  contradiction.
Qed.

Lemma forallb_last {A} (p : A -> bool) (l : list A) (c : A) (r : list A) :
  forallb p l = true -> rev l = c :: r -> p c = true.
Proof.
  intros H E. rewrite forallb_forall in H. apply H.
  apply in_rev. rewrite E. now left.
Qed.

Lemma rev_nonempty {A} (x : A) (l : list A) : exists c r, rev (x :: l) = c :: r.
Proof.
  destruct (rev (x :: l)) as [|c r] eqn:E; [|now eexists _, _].
  apply (f_equal (@length A)) in E. rewrite length_rev in E. discriminate.
Qed.

(** X1. On an ASCII name of at most 255 characters [sanitize] keeps what
    its docstring announces: the result is not empty, has at most 255
    characters, holds no blacklisted character and no character below
    code point 32, does not end in a dot or a blank, and is no reserved
    device name. *)
Theorem sanitize_short_ascii (normalize_NFKD : pystr -> pystr) (isspace : N -> bool) (s : pystr) :
  (forall s, all_ascii s = true -> normalize_NFKD s = s) ->
  (forall c, (32 < c < 128)%N -> isspace c = false) ->
  all_ascii s = true -> (length s <= 255)%nat ->
  let r := sanitize normalize_NFKD isspace s in
  r <> [] /\
  (length r <= 255)%nat /\
  (forall c, In c r -> str_in [c] blacklist = false /\ (31 < c)%N) /\
  (forall c r', rev r = c :: r' -> c <> 46%N /\ c <> 32%N) /\
  str_in r reserved = false.
Proof.
  intros Hn Hs Ha Hlen r.
  set (f1 := List.filter (fun c => (31 <? ord c)%N)
                         (List.filter (fun c => negb (str_in [c] blacklist)) s)).
  assert (Hf1 : forall c, In c f1 ->
                          str_in [c] blacklist = false /\ (31 < c)%N /\ (c < 128)%N).
  { intros c Hc. apply filter_In in Hc as [Hc H31]. apply filter_In in Hc as [Hc Hb].
    unfold all_ascii in Ha. rewrite forallb_forall in Ha. specialize (Ha c Hc).
    split; [now apply negb_true_iff|].
    split; [now apply N.ltb_lt | now apply N.ltb_lt]. }
  assert (Hl1 : (length f1 <= 255)%nat).
  { unfold f1. etransitivity; [apply List.filter_length_le|].
    etransitivity; [apply List.filter_length_le|]. exact Hlen. }
  assert (Hnf : normalize_NFKD f1 = f1).
  { apply Hn. unfold f1. now do 2 apply all_ascii_filter. }
  destruct (rstrip_chars_prefix (lit ". ") f1) as [t1 E1].
  assert (Hlast_a : forall c r, rev (rstrip_chars (lit ". ") f1) = c :: r ->
                                c <> 46%N /\ c <> 32%N).
  { intros c r0 Hr. apply rstrip_chars_last in Hr. simpl in Hr.
    apply orb_false_iff in Hr as [H1 Hr]. apply orb_false_iff in Hr as [H2 _].
    split; [now apply N.eqb_neq | now apply N.eqb_neq]. }
  set (a := rstrip_chars (lit ". ") f1) in *.
  assert (Hin_a : forall c, In c a -> In c f1).
  { intros c Hc. rewrite E1. apply in_or_app. now left. }
  assert (Hsp : forall c r, rev a = c :: r -> isspace c = false).
  { intros c r0 Hr. apply Hs.
    assert (Hc : In c a) by (apply in_rev; rewrite Hr; now left).
    destruct (Hf1 c (Hin_a c Hc)) as (_ & H31 & H128).
    destruct (Hlast_a c r0 Hr) as [_ H32]. lia. }
  destruct (strip_suffix isspace a Hsp) as [t2 E2].
  set (b := strip isspace a) in *.
  assert (Hin_b : forall c, In c b -> In c f1).
  { intros c Hc. apply Hin_a. rewrite E2. apply in_or_app. now right. }
  assert (Hlast_b : forall c r, rev b = c :: r -> c <> 46%N /\ c <> 32%N).
  { intros c r0 Hr. destruct (last_of_suffix t2 b c r0 Hr) as [r1 Hr1].
    rewrite <- E2 in Hr1. exact (Hlast_a c r1 Hr1). }
  assert (Hlen_b : (length b <= 255)%nat).
  { apply (f_equal (@length N)) in E1, E2. rewrite length_app in E1, E2. lia. }
  assert (Er : r = let x := if forallb (N.eqb 46) b then lit "__" ++ b else b in
                   let y := if str_in x reserved then lit "__" ++ x else x in
                   let z := if (length y =? 0)%nat then lit "__" else y in
                   if (255 <? length z)%nat then truncate z else z).
  { subst r. unfold sanitize. fold f1. rewrite Hnf. reflexivity. }
  clearbody r. subst r.
  destruct b as [|x b'] eqn:Eb.
  { split; [vm_compute; discriminate|].
    split; [vm_compute; lia|].
    split; [|split; [|vm_compute; reflexivity]].
    - intros c Hc. vm_compute in Hc. destruct Hc as [<-|[<-|[]]]; split; reflexivity.
    - intros c r' Hr. vm_compute in Hr. injection Hr as <- _. split; discriminate. }
  assert (Hdots : forallb (N.eqb 46) (x :: b') = false).
  { destruct (forallb (N.eqb 46) (x :: b')) eqn:E; [exfalso|reflexivity].
    destruct (rev_nonempty x b') as (c & r0 & Er).
    pose proof (forallb_last _ _ c r0 E Er) as H46. apply N.eqb_eq in H46.
    destruct (Hlast_b c r0 Er) as [H _]. congruence. }
  cbv zeta. rewrite Hdots.
  destruct (str_in (x :: b') reserved) eqn:Eres.
  - destruct (reserved_words _ Eres) as (L4 & Hnr & Hch & Hla).
    change (length (lit "__" ++ x :: b') =? 0)%nat with false. cbv iota.
    assert (L : (255 <? length (lit "__" ++ x :: b'))%nat = false).
    { apply Nat.ltb_ge. rewrite length_app. simpl in *. lia. }
    rewrite L. split; [discriminate|]. split; [now apply Nat.ltb_ge in L|].
    split; [|split; [|exact Hnr]].
    + intros c [<-|[<-|Hc]]; [split; reflexivity..|now apply Hch].
    + intros c r' Hr.
      destruct (rev_nonempty x b') as (c0 & r0 & Er0).
      destruct (last_of_suffix (lit "__") (x :: b') c0 r0 Er0) as [r1 Hr1].
      rewrite Hr in Hr1. injection Hr1 as -> _. now apply (Hla c0 r0).
  - change (length (x :: b') =? 0)%nat with false. cbv iota.
    assert (L : (255 <? length (x :: b'))%nat = false) by (now apply Nat.ltb_ge).
    rewrite L. split; [discriminate|]. split; [exact Hlen_b|].
    split; [|split; [exact Hlast_b|exact Eres]].
    intros c Hc. destruct (Hf1 c (Hin_b c Hc)) as (H1 & H2 & _). now split.
Qed.


(** X2. Whatever the input, the normaliser and the white space test,
    [sanitize] never returns the empty string. The block that shortens
    a name of more than 255 characters ends with a second [rstrip], so
    what it returns never ends in a dot or a blank. *)
Theorem sanitize_never_empty (normalize_NFKD : pystr -> pystr) (isspace : N -> bool) (s : pystr) :
  sanitize normalize_NFKD isspace s <> [] /\
  (forall c r, rev (truncate s) = c :: r -> c <> 46%N /\ c <> 32%N).
Proof.
  split; [apply sanitize_nonempty|].
  unfold truncate. cbv zeta.
  destruct (if (1 <? _)%nat then _ else _) as [fn ext].
  intros c r.
  match goal with
  | |- rev (if (length ?x =? 0)%nat then _ else _) = _ -> _ =>
      destruct (length x =? 0)%nat
  end.
  - intros [= <- _]. split; discriminate.
  - intros Hr. apply rstrip_chars_last in Hr. simpl in Hr.
    apply orb_false_iff in Hr as [H1 Hr]. apply orb_false_iff in Hr as [H2 _].
    split; [now apply N.eqb_neq | now apply N.eqb_neq].
Qed.

(* ===================================================================== *)
(** * The session layer: version guard, unexpected answers *)
(* ===================================================================== *)

(** X3. The version guard of [security_tags_base] is the conjunction
    [major < 7 and minor < 4 and patch < 1]: when it holds the method
    raises [RuntimeError] without sending a request; when one of the
    three tests fails (as for 6.2.5, which is older than 6.3.1) the
    request is sent, and an answer other than 200 and 401 raises
    [RuntimeError] with the status. *)
Theorem security_tags_version_guard (P : Platform) (fuel : nat) (with_permissions : bool)
        (w : world) (major minor patch : Z) (tok : pyval) :
  major_version (self w) = Some major ->
  minor_version (self w) = Some minor ->
  patch_version (self w) = Some patch ->
  token (self w) = Some tok ->
  let too_old :=
    RuntimeError
      [PStr "security_tags API call is only available with a Preservica v6.3.1 system or higher"] in
  let rq := security_tags_request (self w) tok in
  let s := status_code (server P (log w ++ [rq])) in
  (major < 7 /\ minor < 4 /\ patch < 1 ->
   security_tags_base P (S fuel) with_permissions w = (Raise too_old, w)) /\
  (7 <= major \/ 4 <= minor \/ 1 <= patch ->
   s <> 200 -> s <> 401 ->
   security_tags_base P (S fuel) with_permissions w =
   (Raise (RuntimeError [PInt s; PStr "security_tags failed"]),
    mkWorld (self w) (log w ++ [rq]))).
Proof.
  intros Ha Hb Hc Ht too_old rq s. split.
  - intros (H1 & H2 & H3).
    apply Z.ltb_lt in H1, H2, H3.
    assert (Hold : older_than_6_3_1 w = (Return true, w)).
    { unfold older_than_6_3_1, bind, attr, ret. rewrite Ha, H1, Hb, H2, Hc. now rewrite H3. }
    simpl. unfold bind at 1. now rewrite Hold.
  - intros Hv H200 H401.
    assert (Hold : older_than_6_3_1 w = (Return false, w)).
    { apply older_than_6_3_1_false. exists major, minor, patch.
      repeat split; try assumption.
      destruct (Z.ltb_spec major 7), (Z.ltb_spec minor 4), (Z.ltb_spec patch 1);
        try reflexivity. lia. }
    simpl. unfold bind at 1. rewrite Hold.
    unfold bind at 1; unfold attr at 1; rewrite Ht.
    unfold bind at 1; unfold get_self at 1.
    unfold bind at 1; unfold http_get, send at 1.
    change (server P (log w ++ [mkRequest GET (security_tags_url (self w)) (xml_headers tok) [] []]))
      with (server P (log w ++ [rq])).
    fold s.
    assert (E1 : (s =? codes.ok) = false) by (now apply Z.eqb_neq).
    assert (E2 : (s =? codes.unauthorized) = false) by (now apply Z.eqb_neq).
    cbv zeta. cbn [status_code]. 
    change (status_code (server P (log w ++ [rq]))) with s.
    rewrite E1, E2. reflexivity.
Qed.

(** X5. When the version endpoint answers with a status other than 200
    and 401, [__version_number__] raises nothing: the [RuntimeError] it
    builds is not raised, the method returns [None] after one request and
    sets no version number. The constructor then fails with
    [AttributeError] when [__version_namespace__] reads [major_version]. *)
Theorem version_number_unexpected_status (P : Platform) (fuel : nat) (w : world) (tok : pyval) :
  token (self w) = Some tok ->
  let rq := get_request (version_url (self w)) tok in
  let s := status_code (server P (log w ++ [rq])) in
  s <> 200 -> s <> 401 ->
  __version_number__ P (S fuel) w =
    (Return PNone, mkWorld (with_version_hash (self w) "RHVOMzJHNzdk") (log w ++ [rq])) /\
  (major_version (self w) = None ->
   fst (version_and_namespace P (S fuel) w) = Raise (AttributeError "major_version")).
Proof.
  intros Ht rq s H200 H401.
  assert (E1 : (s =? codes.ok) = false) by (now apply Z.eqb_neq).
  assert (E2 : (s =? codes.unauthorized) = false) by (now apply Z.eqb_neq).
  assert (Hrun : __version_number__ P (S fuel) w =
                 (Return PNone,
                  mkWorld (with_version_hash (self w) "RHVOMzJHNzdk") (log w ++ [rq]))).
  { simpl. unfold_monad. rewrite Ht. simpl.
    repeat match goal with
           | |- context [status_code ?r =? _] =>
               lazymatch r with
               | server _ _ => change (status_code r) with s
               end
           end.
    now rewrite E1, E2. }
  split; [exact Hrun|].
  intros Hm. unfold version_and_namespace. unfold bind at 1. rewrite Hrun.
  unfold __version_namespace__. unfold_monad. simpl. now rewrite Hm.
Qed.


(* ===================================================================== *)
(** * The constructor on a server that accepts the client *)
(* ===================================================================== *)

(** The version step on a version 6 server, with what it leaves of the
    client. *)
Lemma version_6_run (P : Platform) (fuel : nat) (w : world) (tok : pyval)
      (sa sb sc : string) (more : list string) (b c : Z) :
  token (self w) = Some tok ->
  let rq := get_request (version_url (self w)) tok in
  let resp := server P (log w ++ [rq]) in
  status_code resp = 200 ->
  PyStr.split "." (current_version (content resp)) = sa :: sb :: sc :: more ->
  PyStr.int sa = Return 6 -> PyStr.int sb = Return b -> PyStr.int sc = Return c ->
  exists w', version_and_namespace P (S fuel) w = (Return tt, w') /\
    log w' = log w ++ [rq] /\
    (major_version (self w'), minor_version (self w'), patch_version (self w')) =
      (Some 6, Some b, Some c) /\
    version (self w') = Some (PStr (current_version (content resp))) /\
    is_Some (xip_ns (self w')) /\ is_Some (entity_ns (self w')) /\
    (username (self w'), password (self w'), tenant (self w'), server_name (self w'),
     shared_secret (self w'), token (self w')) =
    (username (self w), password (self w), tenant (self w), server_name (self w),
     shared_secret (self w), token (self w)).
Proof.
  intros Htok rq resp Hs Hsplit Ha Hb Hc.
  assert (Hok : (status_code resp =? codes.ok) = true) by now rewrite Hs.
  assert (Hrun : version_and_namespace P (S fuel) w =
                 __version_namespace__
                   (mkWorld (with_version
                               (with_patch_version
                                  (with_minor_version
                                     (with_major_version
                                        (with_version_hash (self w) "RHVOMzJHNzdk") 6) b) c)
                               (PStr (current_version (content resp))))
                            (log w ++ [rq]))).
  { unfold version_and_namespace. simpl. unfold_monad. rewrite Htok. simpl.
    unfold version_url, HEADER_TOKEN. simpl.
    change (server P (log w ++ [_])) with resp.
    rewrite Hok, Hsplit. simpl. rewrite Ha. simpl. rewrite Hb. simpl. now rewrite Hc. }
  rewrite Hrun. unfold __version_namespace__. unfold_monad. simpl.
  destruct (b <? 2); simpl; eexists; repeat split; eauto.
Qed.

(** X7. A constructor whose three requests are accepted sends exactly
    these, in this order: the token request, the GET on the version
    endpoint and the GET on [/api/user/details], the last two with the
    new token. The object it returns has the credentials it resolved,
    the token, the version of the server and the roles of the user. *)
Theorem constructor_three_requests (P : Platform) (environ : gmap string string)
        (config : gmap string (gmap string string)) (fuel : nat)
        (username_arg password_arg tenant_arg server_arg : option string) (secret : bool)
        (c0 : Client) (tok : pyval) (w1 : world)
        (sa sb sc : string) (more : list string) (b c : Z) (j found_roles : pyval) :
  credentials environ config username_arg password_arg tenant_arg server_arg secret
  = Return c0 ->
  __token__ P (mkWorld c0 []) = (Return tok, w1) ->
  let rq1 := token_request P (mkWorld c0 []) in
  let rq2 := get_request (version_url c0) tok in
  let rq3 := mkRequest GET (user_details_url c0) (xml_headers tok) [] [] in
  let resp2 := server P [rq1; rq2] in
  let resp3 := server P [rq1; rq2; rq3] in
  status_code resp2 = 200 ->
  PyStr.split "." (current_version (content resp2)) = sa :: sb :: sc :: more ->
  PyStr.int sa = Return 6 -> PyStr.int sb = Return b -> PyStr.int sc = Return c ->
  status_code resp3 = 200 ->
  json_loads P (content resp3) = Some j ->
  getitem j "roles" = Return found_roles ->
  exists client,
    __init__ P environ config (S fuel) username_arg password_arg tenant_arg server_arg secret
    = (Return client, [rq1; rq2; rq3]) /\
    token client = Some tok /\
    roles client = Some found_roles /\
    version client = Some (PStr (current_version (content resp2))) /\
    (major_version client, minor_version client, patch_version client) =
      (Some 6, Some b, Some c) /\
    (username client, password client, server_name client, shared_secret client) =
      (username c0, password c0, server_name c0, shared_secret c0) /\
    tenant client = tenant (self w1).
Proof.
  intros Hcred Htok rq1 rq2 rq3 resp2 resp3 Hs2 Hsplit Ha Hb Hc Hs3 Hj Hr.
  pose proof (token_log P (mkWorld c0 [])) as Hlog. rewrite Htok in Hlog. simpl in Hlog.
  destruct (token_self P (mkWorld c0 [])) as [tn Hself]. rewrite Htok in Hself.
  simpl in Hself.
  set (wa := mkWorld (with_token (self w1) tok) (log w1)).
  assert (H1 : refresh_token P (mkWorld c0 []) = (Return tt, wa)).
  { unfold refresh_token, bind. rewrite Htok. reflexivity. }
  assert (Hta : token (self wa) = Some tok) by reflexivity.
  assert (Hsv : server_name (self wa) = server_name c0) by (simpl; now rewrite Hself).
  assert (Hrq2 : get_request (version_url (self wa)) tok = rq2).
  { unfold rq2, version_url. now rewrite Hsv. }
  assert (Hlw : log wa ++ [rq2] = [rq1; rq2]) by (simpl; now rewrite Hlog).
  pose proof (version_6_run P fuel wa tok sa sb sc more b c Hta) as Hv6.
  cbv zeta in Hv6. rewrite Hrq2, Hlw in Hv6.
  destruct (Hv6 Hs2 Hsplit Ha Hb Hc) as (wb & H2 & Hlb' & Hver & Hv & Hx & He & Hframe).
  clear Hv6.
  injection Hframe as Hu Hp Hten Hsn Hss Htk.
  assert (Hsb : server_name (self wb) = server_name c0) by (rewrite Hsn; exact Hsv).
  assert (Htb : token (self wb) = Some tok) by (now rewrite Htk).
  set (wc := mkWorld (self wb) (log wb ++ [rq3])).
  assert (H3 : __find_user_roles_ P (S fuel) wb = (Return found_roles, wc)).
  { simpl. unfold_monad. rewrite Htb. simpl.
    assert (E : server P (log wb ++ [mkRequest GET (user_details_url (self wb))
                                               (xml_headers tok) [] []]) = resp3).
    { unfold user_details_url. rewrite Hsb, Hlb'. reflexivity. }
    rewrite E, Hs3. simpl. rewrite Hj, Hr. unfold wc, rq3, user_details_url.
    now rewrite Hsb. }
  destruct Hx as [xns Hx], He as [ens He].
  exists (with_roles (self wb) found_roles).
  split.
  { unfold __init__. rewrite Hcred. unfold connect.
    unfold bind at 1. rewrite H1.
    unfold bind at 1. rewrite H2.
    unfold bind at 1. rewrite H3.
    unfold_monad. simpl. rewrite Hx. simpl. rewrite He. simpl. now rewrite Hlb'. }
  simpl. rewrite Htb, Hv. injection Hver as -> -> ->.
  rewrite Hu, Hp, Hsn, Hss, Hten. simpl. now rewrite Hself.
Qed.

(* ===================================================================== *)
(** * _unpad *)
(* ===================================================================== *)

Lemma replicate_snoc {A} (n : nat) (x : A) : replicate (S n) x = replicate n x ++ [x].
Proof. induction n as [|n IH]; [reflexivity|]. simpl in *. now rewrite <- IH. Qed.

(** X23. [_unpad] reads the code point [k] of the last character and
    drops the last [k] characters: it undoes a padding by [k] copies of
    the character with code point [k], for every [k >= 1]. A string that
    ends in the character with code point 0 is emptied, and the empty
    string raises [TypeError]. *)
Theorem unpad_padding (s : pystr) (k : N) :
  _unpad [] = Raise (TypeError "ord() expected a character, but string of length 0 found") /\
  ((0 < k)%N -> _unpad (s ++ replicate (N.to_nat k) k) = Return s) /\
  _unpad (s ++ [0%N]) = Return [].
Proof.
  split; [reflexivity|]. split.
  - intros Hk. destruct (N.to_nat k) as [|n] eqn:En; [lia|].
    unfold _unpad, slice_from_int, slice_to, ord.
    rewrite replicate_snoc, app_assoc.
    set (body := s ++ replicate n k).
    assert (Hl : length (body ++ [k]) = S (length body)) by (rewrite length_app; simpl; lia).
    rewrite Hl.
    assert (E1 : (Z.of_nat (S (length body)) - 1 <? 0) = false) by (apply Z.ltb_ge; lia).
    rewrite E1.
    replace (Z.to_nat (Z.of_nat (S (length body)) - 1)) with (length body + 0)%nat by lia.
    rewrite drop_app_add. simpl.
    assert (E2 : (- Z.of_N k <? 0) = true) by (apply Z.ltb_lt; lia).
    rewrite E2.
    replace (Z.to_nat (Z.of_nat (S (length body)) + - Z.of_N k)) with (length s).
    2:{ unfold body. rewrite length_app, length_replicate. lia. }
    unfold body. rewrite <- !app_assoc. now rewrite take_app_length.
  - unfold _unpad, slice_from_int, slice_to, ord.
    assert (Hl : length (s ++ [0%N]) = S (length s)) by (rewrite length_app; simpl; lia).
    rewrite Hl.
    assert (E1 : (Z.of_nat (S (length s)) - 1 <? 0) = false) by (apply Z.ltb_ge; lia).
    rewrite E1.
    replace (Z.to_nat (Z.of_nat (S (length s)) - 1)) with (length s + 0)%nat by lia.
    rewrite drop_app_add. reflexivity.
Qed.

(* ===================================================================== *)
(** * content_api_identifier_to_type *)
(* ===================================================================== *)

Lemma remove_absent (old s : string) : forall i,
  0 <= i -> PyStr.find_from old s i = -1 -> remove_from old s 0 = s.
Proof.
  induction s as [|c s IH]; intros i Hi H; [reflexivity|].
  cbn [PyStr.find_from] in H. cbn [remove_from].
  destruct (PyStr.starts_with old (String c s)); [lia|].
  f_equal. apply (IH (i + 1)); [lia | exact H].
Qed.

Lemma split_no_separator (sep : ascii) (s : string) :
  existsb (Ascii.eqb sep) (list_ascii_of_string s) = false -> PyStr.split sep s = [s].
Proof.
  induction s as [|c s IH]; [reflexivity|]. simpl. intros H.
  apply orb_false_iff in H as [H1 H2]. rewrite Ascii.eqb_sym, H1.
  now rewrite (IH H2).
Qed.


(* ===================================================================== *)
(** * Further methods of the session and entity layers *)
(* ===================================================================== *)

(** X9. [manager_token] sends one login request with the given user,
    the given password and the tenant of the client. When the answer is
    not 200 it raises nothing and returns [None]: the [RuntimeError] the
    source builds is not raised. *)
Theorem manager_token_refused (P : Platform) (w : world) (user pass : string) :
  let rq := mkRequest POST ("https://" +:+ server_name (self w) +:+ "/api/accesstoken/login")
                      [] [] [("username", PStr user); ("password", PStr pass);
                             ("tenant", tenant (self w))] in
  status_code (server P (log w ++ [rq])) <> 200 ->
  manager_token P user pass w = (Return PNone, mkWorld (self w) (log w ++ [rq])).
Proof.
  intros rq Hs. unfold manager_token. unfold_monad. simpl.
  apply Z.eqb_neq in Hs.
  match goal with
  | |- context [status_code ?r =? codes.ok] =>
      assert (E : (status_code r =? codes.ok) = false) by exact Hs; rewrite E
  end.
  reflexivity.
Qed.

(** X17. [security_tag_async] on a content object ends the program:
    it raises [SystemExit] before any request. On an asset or a folder
    it PUTs the new tag to the [security-descriptor] of the entity; the
    answer 202 returns the body (the progress token), and an answer other
    than 202 and 401 raises [RuntimeError]. *)
Theorem security_tag_async_outcomes (P : Platform) (fuel : nat) (entity : Entity)
        (new_tag : string) (w : world) (tok : pyval) :
  token (self w) = Some tok ->
  let rq :=
    mkRequest PUT ("https://" +:+ server_name (self w) +:+ "/api/entity/" +:+ path entity +:+ "/"
                   +:+ fmt (reference entity) +:+ "/security-descriptor?includeDescendants=true")
              [("Preservica-Access-Token", tok); ("Content-Type", PStr "text/plain")] []
              [("", PStr new_tag)] in
  let resp := server P (log w ++ [rq]) in
  (entity_type entity = CONTENT_OBJECT ->
   security_tag_async P (S fuel) entity new_tag w = (Raise SystemExit, w)) /\
  ((entity_type entity = ASSET /\ path entity = IO_PATH) \/
   (entity_type entity = FOLDER /\ path entity = SO_PATH) ->
   (status_code resp = 202 ->
    security_tag_async P (S fuel) entity new_tag w =
    (Return (content resp), mkWorld (self w) (log w ++ [rq]))) /\
   (status_code resp <> 202 -> status_code resp <> 401 ->
    security_tag_async P (S fuel) entity new_tag w =
    (Raise (RuntimeError [PInt (status_code resp);
                          PStr ("security_tag_async change failed on "
                                +:+ fmt (reference entity))]),
     mkWorld (self w) (log w ++ [rq])))).
Proof.
  intros Ht rq resp. split.
  - intros Hty. simpl. unfold_monad. now rewrite Ht, Hty.
  - intros Hty.
    assert (Hrun : security_tag_async P (S fuel) entity new_tag w =
                   (if status_code resp =? codes.accepted then ret (content resp)
                    else if status_code resp =? codes.unauthorized then
                           bind (refresh_token P)
                                (fun _ => security_tag_async P fuel entity new_tag)
                         else raise (RuntimeError
                                       [PInt (status_code resp);
                                        PStr ("security_tag_async change failed on "
                                              +:+ fmt (reference entity))]))
                     (mkWorld (self w) (log w ++ [rq]))).
    { assert (Hurl : forall ep p, path entity = p ->
                ep = "/" +:+ p +:+ "/" +:+ fmt (reference entity) +:+ "/security-descriptor" ->
                mkRequest PUT (security_descriptor_url (self w) ep) (text_headers tok) []
                          [("", PStr new_tag)] = rq).
      { intros ep p Hp ->. unfold rq, security_descriptor_url. rewrite Hp.
        f_equal. rewrite !append_assoc. reflexivity. }
      simpl. unfold bind at 1. unfold attr at 1. rewrite Ht.
      destruct Hty as [[Hty Hp]|[Hty Hp]]; rewrite Hty.
      all: unfold bind at 1; unfold ret at 1.
      all: unfold bind at 1; unfold get_self at 1.
      all: unfold bind at 1; unfold http_put_text, send at 1; cbn [self log].
      all: erewrite Hurl by (first [exact Hp | reflexivity]).
      all: reflexivity. }
    rewrite Hrun. split.
    + intros Hs. apply Z.eqb_eq in Hs. unfold codes.accepted. now rewrite Hs.
    + intros H1 H2. apply Z.eqb_neq in H1, H2. unfold codes.accepted, codes.unauthorized.
      now rewrite H1, H2.
Qed.

(** X13. [metadata_for_entity] fetches the fragment of the first entry
    of [entity.metadata] that has the schema, with the one request of
    [metadata]. Without such an entry it returns [None] and sends
    nothing. On an entity whose [metadata] is [None], as [children]
    makes them, it raises [AttributeError]. *)
Theorem metadata_for_entity_outcomes (P : Platform) (fuel : nat) (entity : Entity)
        (schema : string) (w : world) :
  (metadata entity = None ->
   metadata_for_entity P fuel entity schema w = (Raise (AttributeError "items"), w)) /\
  (forall items, metadata entity = Some items ->
     Forall (fun us => us.2 <> schema) items ->
     metadata_for_entity P fuel entity schema w = (Return None, w)) /\
  (forall before uri after,
     metadata entity = Some (before ++ (Some uri, schema) :: after) ->
     Forall (fun us => us.2 <> schema) before ->
     metadata_for_entity P fuel entity schema w =
     (match fst (metadata_of P fuel uri w) with
      | Return fragment => Return (Some fragment)
      | Raise e => Raise e
      end, snd (metadata_of P fuel uri w))).
Proof.
  assert (Hfind : forall l : list (option string * string),
             Forall (fun us => us.2 <> schema) l ->
             forall rest, List.find (fun us : option string * string =>
                                       String.eqb schema us.2) (l ++ rest) =
                          List.find (fun us : option string * string =>
                                       String.eqb schema us.2) rest).
  { induction 1 as [|[u s] l Hs _ IH]; intros rest; [reflexivity|].
    simpl in *. destruct (String.eqb_spec schema s); [congruence | apply IH]. }
  unfold metadata_for_entity. split; [|split].
  - now intros ->.
  - intros items -> Hall. rewrite <- (app_nil_r items), (Hfind _ Hall). reflexivity.
  - intros before uri after -> Hall. rewrite (Hfind _ Hall). simpl.
    rewrite String.eqb_refl. unfold bind, ret, metadata_at.
    destruct (metadata_of P fuel uri w) as [[r|e] w']; reflexivity.
Qed.


(* ===================================================================== *)
(** * Pages of children, generations *)
(* ===================================================================== *)

Lemma child_entities_map (folder_reference : option string) (cs : list XML.Element) :
  Forall (fun c => has_attrib "type" c /\ has_attrib "ref" c /\ has_attrib "title" c) cs ->
  child_entities folder_reference cs = Return (map (listed_child folder_reference) cs).
Proof.
  induction 1 as [|c cs ([ty Hty] & [ref Href] & [ti Hti]) _ IH]; [reflexivity|].
  simpl. rewrite Hty, Href, Hti, IH. unfold listed_child, attrib_or_empty.
  rewrite Hty, Href, Hti. now destruct (String.eqb ty "SO").
Qed.




(** X16. The operations that build their URL from [entity._path] send
    nothing: the entity classes of common.py set [path], so reading
    [_path] raises [AttributeError] before the request is made.
    [representations] returns [None] for an entity that is no asset. *)
Theorem path_operations_send_nothing (P : Platform) (fuel : nat) (entity : Entity)
        (w : world) (tok : pyval) :
  token (self w) = Some tok ->
  identifiers_for_entity P (S fuel) entity w = (Raise (AttributeError "_path"), w) /\
  (forall identifier_type identifier_value,
     delete_identifiers P (S fuel) entity identifier_type identifier_value w =
     (Raise (AttributeError "_path"), w)) /\
  representations P (S fuel) entity w =
    (match entity_type entity with
     | ASSET => Raise (AttributeError "_path")
     | _ => Return None
     end, w).
Proof.
  intros Ht. split; [|split].
  - simpl. unfold getattr__path. unfold_monad. now rewrite Ht.
  - intros ty v. simpl. unfold getattr__path. unfold_monad. now rewrite Ht.
  - simpl. unfold getattr__path, is_Asset. unfold_monad. rewrite Ht.
    now destruct (entity_type entity).
Qed.

(** X8. [entity_from_string] needs a [Ref] and a [SecurityTag] element:
    without one of them it raises [AttributeError]. [Title],
    [Description] and [Parent] may be missing and are then [None]. *)
Theorem entity_from_string_outcomes (P : Platform) (w : world) (xml_data xip ens : string)
        (e : XML.Element) (md : list (option string * string)) :
  fromstring P xml_data = Some e ->
  xip_ns (self w) = Some xip ->
  entity_ns (self w) = Some ens ->
  fragments_to_dict
    (XML.findall_child e (XML.qname ens "Metadata") (XML.qname ens "Fragment")) [] = Return md ->
  entity_from_string P xml_data w =
  (match XML.find e (XML.qname xip "Ref"), XML.find e (XML.qname xip "SecurityTag") with
   | Some ref, Some tag =>
       Return (mkEntityDict (XML.text ref)
                            (text_or_None (XML.find e (XML.qname xip "Title")))
                            (text_or_None (XML.find e (XML.qname xip "Description")))
                            (XML.text tag)
                            (text_or_None (XML.find e (XML.qname xip "Parent")))
                            md)
   | _, _ => Raise (AttributeError "text")
   end, w).
Proof.
  intros He Hx Hn Hm. unfold entity_from_string. unfold_monad.
  rewrite He, Hx, Hn, Hm.
  destruct (XML.find e (XML.qname xip "Ref")) as [ref|];
    destruct (XML.find e (XML.qname xip "SecurityTag")) as [tag|]; reflexivity.
Qed.


(* ===================================================================== *)
(** * Security tags, user roles, fragments and bitstreams *)
(* ===================================================================== *)

Lemma dict_set_In {V} (d : list (string * V)) (k : string) (v : V) (kv : string * V) :
  In kv (dict_set d k v) -> kv = (k, v) \/ In kv d.
Proof.
  induction d as [|[k' v'] d IH]; simpl.
  - intros [<-|[]]. now left.
  - destruct (decide (k' = k)) as [->|Hne]; simpl.
    + intros [<-|H]; [now left | right; now right].
    + intros [<-|H]; [right; now left|]. destruct (IH H) as [->|H']; [now left | right; now right].
Qed.

Lemma dict_set_keys {V} (d : list (string * V)) (k : string) (v : V) (x : string) :
  In x (map fst (dict_set d k v)) <-> x = k \/ In x (map fst d).
Proof.
  induction d as [|[k' v'] d IH]; simpl.
  - intuition.
  - destruct (decide (k' = k)) as [->|Hne]; simpl; [intuition|].
    rewrite IH. intuition.
Qed.

Lemma collect_tags_plain (w : world) (sec : string) :
  sec_ns (self w) = Some sec ->
  forall (tags : list XML.Element) (acc : list (string * pyval)),
    Forall (has_attrib "name") tags ->
    exists r, collect_tags false tags acc w = (Return r, w) /\
              (forall kv, In kv r -> In kv acc \/ kv.2 = PStr kv.1) /\
              (forall x, In x (map fst r) <->
                         In x (map fst acc) \/ In x (map (fun t => attrib_or_empty t "name") tags)).
Proof.
  intros Hsec tags. induction tags as [|t tags IH]; intros acc Hall.
  - exists acc. simpl. repeat split; intuition.
  - apply Forall_cons in Hall as [[name Hname] Hall].
    destruct (IH (dict_set acc name (PStr name)) Hall) as (r & E & H1 & H2).
    exists r. split; [|split].
    + simpl. unfold bind at 1. unfold attr at 1. rewrite Hsec.
      unfold bind at 1. unfold lift at 1. rewrite Hname. exact E.
    + intros kv Hkv. destruct (H1 kv Hkv) as [H|H]; [|now right].
      apply dict_set_In in H as [->|H]; [now right | now left].
    + assert (Hn : attrib_or_empty t "name" = name)
        by (unfold attrib_or_empty; now rewrite Hname).
      intros x. rewrite H2, dict_set_keys. cbn [map In]. rewrite Hn. intuition.
Qed.

(** X4. Without permissions, and on an answer 200, [security_tags_base]
    returns a dictionary that maps every tag name of the answer to
    itself, and has no other key. *)
Theorem security_tags_names (P : Platform) (fuel : nat) (w : world) (tok : pyval)
        (sec : string) (e : XML.Element) :
  at_least_6_3_1 (self w) ->
  token (self w) = Some tok ->
  sec_ns (self w) = Some sec ->
  let rq := security_tags_request (self w) tok in
  let resp := server P (log w ++ [rq]) in
  status_code resp = 200 ->
  fromstring P (content resp) = Some e ->
  Forall (has_attrib "name") (XML.findall e (XML.qname sec "Tag")) ->
  exists tags,
    security_tags_base P (S fuel) false w = (Return tags, mkWorld (self w) (log w ++ [rq])) /\
    (forall kv, In kv tags -> kv.2 = PStr kv.1) /\
    (forall name, In name (map fst tags) <->
                  In name (map (fun t => attrib_or_empty t "name")
                               (XML.findall e (XML.qname sec "Tag")))).
Proof.
  intros Hv Ht Hsec rq resp Hs He Hall.
  set (w' := mkWorld (self w) (log w ++ [rq])).
  destruct (collect_tags_plain w' sec Hsec _ [] Hall) as (r & E & H1 & H2).
  exists r. split; [|split].
  - simpl. rewrite (bind_Return _ _ _ _ _ (older_than_6_3_1_false w Hv)).
    unfold bind at 1. unfold attr at 1. rewrite Ht.
    unfold bind at 1. unfold get_self at 1.
    assert (Hsend : http_get P (security_tags_url (self w)) (xml_headers tok) w =
                    (Return resp, w')) by reflexivity.
    rewrite (bind_Return _ _ _ _ _ Hsend).
    assert (Hok : (status_code resp =? codes.ok) = true) by (now rewrite Hs).
    rewrite Hok.
    assert (Hp : parse_xml P (content resp) w' = (Return e, w')).
    { unfold parse_xml. now rewrite He. }
    rewrite (bind_Return _ _ _ _ _ Hp).
    unfold bind at 1. unfold attr at 1. cbn [self w']. rewrite Hsec. exact E.
  - intros kv Hkv. destruct (H1 kv Hkv) as [[]|H]. exact H.
  - intros name. rewrite H2. simpl. intuition.
Qed.

(** X6. When [/api/user/details] answers with a status other than 200
    and 401, [__find_user_roles_] returns [None] without raising, after
    one request. *)
Theorem user_roles_unexpected_status (P : Platform) (fuel : nat) (w : world) (tok : pyval) :
  token (self w) = Some tok ->
  let rq := mkRequest GET ("https://" +:+ server_name (self w) +:+ "/api/user/details")
                      [("Preservica-Access-Token", tok);
                       ("Content-Type", PStr "application/xml;charset=UTF-8")] [] [] in
  let s := status_code (server P (log w ++ [rq])) in
  s <> 200 -> s <> 401 ->
  __find_user_roles_ P (S fuel) w = (Return PNone, mkWorld (self w) (log w ++ [rq])).
Proof.
  intros Ht rq s H200 H401.
  assert (E1 : (s =? codes.ok) = false) by (now apply Z.eqb_neq).
  assert (E2 : (s =? codes.unauthorized) = false) by (now apply Z.eqb_neq).
  simpl. unfold_monad. rewrite Ht. simpl.
  repeat match goal with
         | |- context [status_code ?r =? _] =>
             lazymatch r with
             | server _ _ => change (status_code r) with s
             end
         end.
  now rewrite E1, E2.
Qed.



(* ===================================================================== *)
(** * The staging folder, whatever the compression *)
(* ===================================================================== *)

Section Staging.

Variable host : Host.
Variable xip : XML.Element.
Variables io_ref export_folder : string.
Variables pres access : list (string * string).
Variable d : disk.

Let top := export_folder +:+ "/" +:+ io_ref.
Let inner := top +:+ "/" +:+ io_ref.
Let content := inner +:+ "/" +:+ "content".
Let meta := inner +:+ "/" +:+ "metadata.xml".

Hypothesis Hexport : proper_dir export_folder.
Hypothesis Hio : simple_name io_ref.
Hypothesis Hdir : isdir (fs d) export_folder = true.
Hypothesis Hfresh : forall p, p = top \/ below top p <> None -> fs d !! p = None.
Hypothesis Hfiles : Forall (fun item => input_file (fs d) item.2) (pres ++ access).

(** Up to the archive, [write_package] does the same with and without
    compression: it leaves the staging folder of [staged]. *)
Lemma write_package_staging (compress : bool) :
  write_package host xip io_ref export_folder compress pres access d =
  (make_archive top compress top ;;; rmtree top ;;; ret (top +:+ ".zip"))
    (with_fs d (staged host top io_ref xip (pres ++ access) (fs d))).
Proof.
  pose proof (proper_top io_ref export_folder Hio) as Ptop.
  pose proof (proper_inner io_ref export_folder Hio) as Pinner.
  fold top in Ptop. fold top inner in Pinner.
  unfold write_package.
  rewrite (join_simple export_folder io_ref Hexport Hio). fold top.
  rewrite (join_simple top io_ref Ptop Hio). fold inner.
  rewrite (join_simple inner "content" Pinner) by (split; [discriminate|reflexivity]).
  rewrite (join_simple inner "metadata.xml" Pinner) by (split; [discriminate|reflexivity]).
  fold content. fold meta.
  unfold bind at 1. rewrite mkdir_ok.
  2:{ apply Hfresh. now left. }
  2:{ unfold top. now rewrite dirname_join. }
  unfold bind at 1. rewrite mkdir_ok.
  2:{ rewrite fs_with_fs, lookup_insert_ne.
      - apply Hfresh. right. unfold top, inner. rewrite below_inner by exact Hio. discriminate.
      - intros E. symmetry in E. revert E. eapply below_neq, below_inner, Hio. }
  2:{ rewrite fs_with_fs. unfold inner. rewrite dirname_join by auto.
      apply isdir_insert_eq. }
  rewrite with_fs_with_fs, fs_with_fs.
  unfold bind at 1. rewrite mkdir_ok.
  2:{ rewrite fs_with_fs, !lookup_insert_ne.
      - apply Hfresh. right. unfold top, content, inner.
        rewrite below_content by exact Hio. discriminate.
      - intros E. symmetry in E. revert E. eapply below_neq, below_content, Hio.
      - intros E. symmetry in E. apply append_neq_self in E; [easy | discriminate]. }
  2:{ rewrite fs_with_fs. unfold content. rewrite dirname_join.
      - apply isdir_insert_eq.
      - exact Pinner.
      - split; [discriminate | reflexivity]. }
  rewrite with_fs_with_fs, fs_with_fs.
  unfold bind at 1. rewrite write_file_ok.
  2:{ rewrite fs_with_fs, !lookup_insert_ne.
      - rewrite Hfresh; [discriminate|]. right. unfold top, meta, inner.
        rewrite below_meta by exact Hio. discriminate.
      - intros E. symmetry in E. revert E. eapply below_neq, below_meta, Hio.
      - intros E. symmetry in E. apply append_neq_self in E; [easy | discriminate].
      - intros E. apply append_inv_head in E. discriminate. }
  2:{ rewrite fs_with_fs. unfold meta. rewrite dirname_join.
      - rewrite isdir_insert_ne; [apply isdir_insert_eq|].
        intros E. apply append_neq_self in E; [easy | discriminate].
      - exact Pinner.
      - split; [discriminate | reflexivity]. }
  rewrite with_fs_with_fs, fs_with_fs.
  pose proof (f4_ready host xip io_ref export_folder pres access d Hio Hfresh Hfiles) as Hready.
  fold top inner content meta in Hready.
  assert (Hpres : copy_ready content pres
                    (<[meta := File (prettify host xip)]>
                       (<[content := Dir]> (<[inner := Dir]> (<[top := Dir]> (fs d)))))).
  { destruct Hready as (H1 & H2 & H3). repeat split; try assumption.
    now apply Forall_app in H3 as [H3 _]. }
  unfold bind at 1. rewrite (copy_content_ok inner pres Pinner) by exact Hpres.
  rewrite with_fs_with_fs, fs_with_fs. fold content.
  unfold bind at 1. rewrite (copy_content_ok inner access Pinner).
  2:{ rewrite fs_with_fs. now apply copy_ready_app. }
  rewrite with_fs_with_fs, fs_with_fs. fold content.
  rewrite <- copies_app.
  pose proof (staged_eq host xip io_ref export_folder pres access d) as Hst.
  fold top inner content meta in Hst. rewrite <- Hst. reflexivity.
Qed.

End Staging.


(* ===================================================================== *)
(** * complex_asset_package, stage by stage *)
(* ===================================================================== *)

(** The stages that read no file: the information object, the
    representations, the content objects and the generations. What is
    left are the bitstreams and the last blocks. *)
Lemma complex_package_start (host : Host) (d : disk) (files : list string)
      (access_files : option (list string)) (export_folder : string)
      (parent_folder : parent_arg) (kwargs : Kwargs) :
  let access := files_of access_files in
  let io_ref := kwargs_get (IO_Identifier_callback kwargs) (uuid4 host (uuids_drawn d)) in
  files <> [] ->
  isdir (fs d) export_folder = true ->
  (forall i j, uuid4 host i = uuid4 host j -> i = j) ->
  Forall (covers (Preservation_Content_Title kwargs)) files ->
  Forall (covers (Preservation_Content_Description kwargs)) files ->
  Forall (covers (Access_Content_Title kwargs)) access ->
  is_text (Access_Content_Description kwargs) ->
  exists (xip : XML.Element) (refs1 refs2 : list (string * string)) (d' : disk),
    fs d' = fs d /\ map snd refs1 = files /\ map snd refs2 = access /\
    forall compress,
      complex_asset_package host (Some files) access_files (Some export_folder)
                            (Some parent_folder) compress kwargs d =
      (xip <~ fold_xip (bitstream_step host
                          (fixity_callback host (Preservation_files_fixity_callback kwargs)))
                       refs1 xip ;;
       xip <~ fold_xip (bitstream_step host
                          (fixity_callback host (Access_files_fixity_callback kwargs)))
                       refs2 xip ;;
       finish host true (Some (xip, io_ref)) export_folder compress kwargs refs1 refs2) d'.
Proof.
  intros access io_ref Hne Hdir Hinj Ht1 Hd1 Ht2 Hd2.
  destruct (first_title_ok files d Hne) as (t & Et).
  destruct (create_io_ok host d t parent_folder kwargs) as (io & d1 & E1 & Tio & F1).
  fold io_ref in E1.
  set (xip0 := XML.Elem "XIP" [("xmlns", "http://preservica.com/XIP/v6.0")] None [io]) in E1.
  destruct (make_representation_ok host xip0
              (kwargs_get (Preservation_Representation_Name kwargs) "Preservation")
              "Preservation" files io_ref d1 Hinj) as (rep1 & refs1 & d2 & E2 & T2 & M2 & F2).
  assert (E3 : exists x2 refs2 d3,
             (if has_files access_files
              then __make_representation_multiple_co__ host (add_children xip0 [rep1])
                     (kwargs_get (Access_Representation_Name kwargs) "Access")
                     "Access" (files_of access_files) io_ref
              else ret (add_children xip0 [rep1], [])) d2
             = (Return (x2, refs2), d3) /\ map snd refs2 = access /\ fs d3 = fs d2).
  { unfold access. destruct (has_files access_files) eqn:Ha.
    - destruct (make_representation_ok host (add_children xip0 [rep1])
                  (kwargs_get (Access_Representation_Name kwargs) "Access")
                  "Access" (files_of access_files) io_ref d2 Hinj)
        as (rep2 & refs2 & d3 & E3 & T3 & M3 & F3).
      exists (add_children (add_children xip0 [rep1]) [rep2]), refs2, d3.
      repeat split; assumption.
    - exists (add_children xip0 [rep1]), [], d2. rewrite (has_files_false _ Ha). now unfold ret. }
  destruct E3 as (x2 & refs2 & d3 & E3 & M3 & F3).
  assert (G0 : fs d3 = fs d) by congruence.
  set (security_tag := kwargs_get (SecurityTag kwargs) "open").
  set (content_type := kwargs_get (CustomType kwargs) "").
  destruct (fold_refs "ContentObject" d
              (complex_preservation_content kwargs io_ref security_tag content_type)
              refs1 files x2 d3)
    as (c1 & d4 & E4 & T4 & F4); [|exact M2|exact G0|].
  { intros item Hi. apply adds_complex_preservation;
      [exact (covered_refs _ refs1 files item Ht1 M2 Hi)
      |exact (covered_refs _ refs1 files item Hd1 M2 Hi)]. }
  destruct (fold_refs "ContentObject" d
              (complex_access_content kwargs io_ref security_tag content_type)
              refs2 access (add_children x2 c1) d4)
    as (c2 & d5 & E5 & T5 & F5); [|exact M3|exact F4|].
  { intros item Hi. apply adds_complex_access;
      [exact (covered_refs _ refs2 access item Ht2 M3 Hi) | exact Hd2]. }
  destruct (fold_refs "Generation" d
              (generation_step host (kwargs_get (Preservation_Generation_Label kwargs) ""))
              refs1 files (add_children (add_children x2 c1) c2) d5)
    as (g1 & d6 & E6 & T6 & F6); [|exact M2|exact F5|].
  { intros item _. apply adds_generation. }
  destruct (fold_refs "Generation" d
              (generation_step host (kwargs_get (Access_Generation_Label kwargs) ""))
              refs2 access (add_children (add_children (add_children x2 c1) c2) g1) d6)
    as (g2 & d7 & E7 & T7 & F7); [|exact M3|exact F6|].
  { intros item _. apply adds_generation. }
  eexists _, refs1, refs2, d7. split; [exact F7|]. split; [exact M2|]. split; [exact M3|].
  intros compress. unfold complex_asset_package.
  rewrite (run_bind _ _ _ _ _ (validate_ok host d export_folder parent_folder Hdir)).
  cbv beta iota zeta.
  replace (has_files (Some files)) with true by (now destruct files).
  cbv beta iota.
  change (files_of (Some files)) with files.
  assert (Ha : (default_asset_title <~ first_title files ;;
                r <~ __create_io__ host None default_asset_title parent_folder kwargs ;;
                ret (Some r)) d = (Return (Some (xip0, io_ref)), d1)).
  { unfold bind. rewrite Et, E1. reflexivity. }
  rewrite (run_bind _ _ _ _ _ Ha). cbv beta iota.
  rewrite (run_bind _ _ _ _ _ E2). cbv beta iota.
  rewrite (run_bind _ _ _ _ _ E3). cbv beta iota.
  fold security_tag content_type.
  rewrite (run_bind _ _ _ _ _ E4), (run_bind _ _ _ _ _ E5), (run_bind _ _ _ _ _ E6),
          (run_bind _ _ _ _ _ E7).
  reflexivity.
Qed.


(** With keyword arguments that lead to no error and input files that
    exist, the builder reaches its last block with a tree and the two
    dictionaries from reference to file. *)
Lemma complex_package_tree (host : Host) (d : disk) (files : list string)
      (access_files : option (list string)) (export_folder : string)
      (parent_folder : parent_arg) (kwargs : Kwargs) :
  let access := files_of access_files in
  let io_ref := kwargs_get (IO_Identifier_callback kwargs) (uuid4 host (uuids_drawn d)) in
  files <> [] ->
  isdir (fs d) export_folder = true ->
  (forall i j, uuid4 host i = uuid4 host j -> i = j) ->
  Forall (input_file (fs d)) (files ++ access) ->
  kwargs_ok host (fs d) files access kwargs ->
  exists (xip : XML.Element) (refs1 refs2 : list (string * string)) (d' : disk),
    fs d' = fs d /\ map snd refs1 = files /\ map snd refs2 = access /\
    forall compress,
      complex_asset_package host (Some files) access_files (Some export_folder)
                            (Some parent_folder) compress kwargs d =
      (zip <~ write_package host xip io_ref export_folder compress refs1 refs2 ;;
       ret (Some zip)) d'.
Proof.
  intros access io_ref Hne Hdir Hinj Hin (Ht1 & Hd1 & Ht2 & Hd2 & Hc1 & Hc2 & Hmeta).
  apply Forall_app in Hin as [Hin1 Hin2].
  destruct (complex_package_start host d files access_files export_folder parent_folder kwargs
              Hne Hdir Hinj Ht1 Hd1 Ht2 Hd2) as (x & refs1 & refs2 & d7 & F7 & M2 & M3 & Hrun).
  fold access in M3. fold io_ref in Hrun.
  destruct (fold_refs "Bitstream" d
              (bitstream_step host (fixity_callback host (Preservation_files_fixity_callback kwargs)))
              refs1 files x d7)
    as (b1 & d8 & E8 & T8 & F8); [|exact M2|exact F7|].
  { intros item Hi. apply adds_bitstream; [exact Hc1|].
    exact (input_files_refs (fs d) refs1 files item Hin1 M2 Hi). }
  destruct (fold_refs "Bitstream" d
              (bitstream_step host (fixity_callback host (Access_files_fixity_callback kwargs)))
              refs2 access (add_children x b1) d8)
    as (b2 & d9 & E9 & T9 & F9); [|exact M3|exact F8|].
  { intros item Hi. apply adds_bitstream; [exact Hc2|].
    exact (input_files_refs (fs d) refs2 access item Hin2 M3 Hi). }
  set (x9 := add_children (add_children x b1) b2) in *.
  assert (E10 : exists x10,
             (match Identifiers kwargs with
              | Some identifier_map => add_identifiers identifier_map (Some (x9, io_ref))
              | None => ret (Some (x9, io_ref))
              end) d9 = (Return (Some (x10, io_ref)), d9)).
  { destruct (Identifiers kwargs) as [m|]; [|exists x9; reflexivity].
    destruct (add_identifiers_ok m x9 io_ref d9) as (ids & E & _). eexists. exact E. }
  destruct E10 as (x10 & E10).
  assert (E11 : exists x11 d11,
             (match Asset_Metadata kwargs with
              | Some metadata_map =>
                  add_asset_metadata host true metadata_map (Some (x10, io_ref))
              | None => ret (Some (x10, io_ref))
              end) d9 = (Return (Some (x11, io_ref)), d11) /\ fs d11 = fs d).
  { unfold kwargs_get in Hmeta. destruct (Asset_Metadata kwargs) as [m|]; [|exists x10, d9; split; [reflexivity | exact F9]].
    rewrite <- F9 in Hmeta.
    destruct (add_asset_metadata_ok host m x10 io_ref d9 Hmeta) as (mds & d11 & E & _ & F).
    eexists _, d11. split; [exact E | congruence]. }
  destruct E11 as (x11 & d11 & E11 & F11).
  exists x11, refs1, refs2, d11. split; [exact F11|]. split; [exact M2|]. split; [exact M3|].
  intros compress. rewrite Hrun.
  rewrite (run_bind _ _ _ _ _ E8), (run_bind _ _ _ _ _ E9).
  unfold finish. rewrite (run_bind _ _ _ _ _ E10), (run_bind _ _ _ _ _ E11). reflexivity.
Qed.

(** X21. When [<export_folder>/<reference>] exists already,
    [complex_asset_package] raises [FileExistsError] at its first
    [mkdir], with and without compression, and the files are as they
    were. *)
Theorem staging_folder_in_the_way (host : Host) (d : disk) (files : list string)
        (access_files : option (list string)) (export_folder : string)
        (parent_folder : parent_arg) (compress : bool) (kwargs : Kwargs) (n : node) :
  let access := files_of access_files in
  let io_ref := kwargs_get (IO_Identifier_callback kwargs) (uuid4 host (uuids_drawn d)) in
  let top := export_folder +:+ "/" +:+ io_ref in
  files <> [] ->
  isdir (fs d) export_folder = true ->
  proper_dir export_folder ->
  simple_name io_ref ->
  Forall (input_file (fs d)) (files ++ access) ->
  (forall i j, uuid4 host i = uuid4 host j -> i = j) ->
  kwargs_ok host (fs d) files access kwargs ->
  fs d !! top = Some n ->
  exists d',
    complex_asset_package host (Some files) access_files (Some export_folder)
                          (Some parent_folder) compress kwargs d
    = (Raise (FileExistsError top), d') /\
    fs d' = fs d.
Proof.
  intros access io_ref top Hne Hdir Hexp Hio Hin Hinj Hk Htop.
  destruct (complex_package_tree host d files access_files export_folder parent_folder kwargs
              Hne Hdir Hinj Hin Hk) as (xip & refs1 & refs2 & d' & F & _ & _ & Hrun).
  exists d'. split; [|exact F].
  rewrite Hrun. fold io_ref. unfold write_package.
  rewrite (join_simple export_folder io_ref Hexp Hio). fold top.
  assert (Hm : mkdir top d' = (Raise (FileExistsError top), d')).
  { unfold mkdir, bind, read_fs. cbv beta. rewrite F, Htop. reflexivity. }
  unfold bind. now rewrite Hm.
Qed.



(* ===================================================================== *)
(** * References of a representation *)
(* ===================================================================== *)

Lemma fresh_refs_S (host : Host) (d : disk) (n : nat) :
  fresh_refs host d (S n) =
  uuid4 host (uuids_drawn d) ::
  fresh_refs host (mkDisk (fs d) (S (uuids_drawn d)) (clock_reads d)) n.
Proof.
  unfold fresh_refs. simpl. rewrite Nat.add_0_r. f_equal.
  rewrite <- seq_shift, map_map. apply map_ext. intros k. f_equal. lia.
Qed.

(** The references drawn for [n] files, from the state [d] on. *)
Lemma content_object_refs_run (host : Host) :
  (forall i j, uuid4 host i = uuid4 host j -> i = j) ->
  forall (rep_files : list string) (content_objects : list XML.Element)
         (refs_dict : list (string * string)) (d : disk),
    (forall k, In k (map fst refs_dict) ->
               exists j, (j < uuids_drawn d)%nat /\ k = uuid4 host j) ->
    content_object_refs host rep_files content_objects refs_dict d =
    (Return (content_objects ++
             map (fun r => leaf "ContentObject" (Some r)) (fresh_refs host d (length rep_files)),
             refs_dict ++ combine (fresh_refs host d (length rep_files)) rep_files),
     mkDisk (fs d) (uuids_drawn d + length rep_files) (clock_reads d)).
Proof.
  intros Hinj rep_files.
  induction rep_files as [|f rest IH]; intros cos refs d Hkeys.
  - simpl. unfold ret, fresh_refs. simpl. rewrite !app_nil_r, Nat.add_0_r. now destruct d.
  - cbn [content_object_refs length]. unfold bind, new_uuid.
    assert (Hfresh : ~ In (uuid4 host (uuids_drawn d)) (map fst refs)).
    { intros Hin. destruct (Hkeys _ Hin) as (j & Hj & E). apply Hinj in E. lia. }
    rewrite (dict_set_fresh _ _ _ Hfresh).
    rewrite IH.
    2:{ intros k Hk. simpl. rewrite map_app, in_app_iff in Hk. destruct Hk as [Hk|Hk].
        - destruct (Hkeys _ Hk) as (j & Hj & Ej). exists j. split; [lia | exact Ej].
        - simpl in Hk. destruct Hk as [<-|[]]. exists (uuids_drawn d). split; [lia | reflexivity]. }
    rewrite fresh_refs_S. simpl. rewrite <- !app_assoc. simpl.
    now replace (uuids_drawn d + S (length rest))%nat
      with (S (uuids_drawn d + length rest))%nat by lia.
Qed.

(** X19. [__make_representation_multiple_co__] draws one reference per
    file. When references never repeat, the dictionary it returns pairs
    the k-th reference with the k-th file, and the [ContentObjects]
    element of the new [Representation] lists the same references in the
    same order. No file is read. *)
Theorem representation_references (host : Host) (xip : XML.Element) (rep_name rep_type : string)
        (rep_files : list string) (io_ref : string) (d : disk) :
  (forall i j, uuid4 host i = uuid4 host j -> i = j) ->
  let refs := fresh_refs host d (length rep_files) in
  __make_representation_multiple_co__ host xip rep_name rep_type rep_files io_ref d =
  (Return (XML.SubElement xip
             (XML.Elem "Representation" [] None
                [XML.Elem "InformationObject" [] (Some io_ref) [];
                 XML.Elem "Name" [] (Some rep_name) [];
                 XML.Elem "Type" [] (Some rep_type) [];
                 XML.Elem "ContentObjects" [] None
                   (map (fun r => XML.Elem "ContentObject" [] (Some r) []) refs)]),
           combine refs rep_files),
   mkDisk (fs d) (uuids_drawn d + length rep_files) (clock_reads d)) /\
  length refs = length rep_files /\ NoDup refs.
Proof.
  intros Hinj refs. split; [|split].
  - unfold __make_representation_multiple_co__, bind.
    rewrite (content_object_refs_run host Hinj rep_files [] [] d) by (intros k []).
    reflexivity.
  - unfold refs, fresh_refs. now rewrite length_map, length_seq.
  - unfold refs, fresh_refs. apply NoDup_fmap_2_strong; [|apply NoDup_seq].
    intros i j _ _ E. apply Hinj in E. lia.
Qed.


(* ===================================================================== *)
(** * Refused calls of the builders *)
(* ===================================================================== *)

(** X18. The three builders validate their arguments first: when the
    export folder (the temporary folder when none is given) is no
    directory they raise [RuntimeError] with the folder and a message,
    and with a directory but no parent folder they raise [RuntimeError]
    with a message. Nothing is written in either case. *)
Theorem builders_validate (host : Host) (d : disk)
        (files access_files : option (list string))
        (files_dict access_dict : option (list (string * list string)))
        (preservation_file access_file : option string)
        (export_folder : option string) (parent_folder : option parent_arg)
        (compress : bool) (kwargs : Kwargs) :
  let folder := match export_folder with Some e => e | None => gettempdir host end in
  let no_folder := RuntimeError [PStr folder; PStr "Export Folder Does Not Exist"] in
  let no_parent :=
    RuntimeError [PStr "You must specify a parent folder for the package asset"] in
  let outcome (e : exn) :=
    complex_asset_package host files access_files export_folder parent_folder compress kwargs d
    = (Raise e, d) /\
    generic_asset_package host files_dict access_dict export_folder parent_folder compress
                          kwargs d
    = (Raise e, d) /\
    simple_asset_package host preservation_file access_file export_folder parent_folder
                         compress kwargs d
    = (Raise e, d) in
  (isdir (fs d) folder = false -> outcome no_folder) /\
  (isdir (fs d) folder = true -> parent_folder = None -> outcome no_parent).
Proof.
  intros folder no_folder no_parent outcome. split.
  - intros Hd.
    assert (Hv : validate host export_folder parent_folder d = (Raise no_folder, d)).
    { unfold validate, bind, read_fs. cbv beta. fold folder. now rewrite Hd. }
    unfold outcome, complex_asset_package, generic_asset_package, simple_asset_package.
    unfold bind. now rewrite Hv.
  - intros Hd ->.
    assert (Hv : validate host export_folder None d = (Raise no_parent, d)).
    { unfold validate, bind, read_fs. cbv beta. fold folder. now rewrite Hd. }
    unfold outcome, complex_asset_package, generic_asset_package, simple_asset_package.
    unfold bind. now rewrite Hv.
Qed.

Lemma fold_xip_raises {A} (T : string) (fsys : gmap string node)
      (step : XML.Element -> A -> Prog disk XML.Element) (e : exn)
      (before : list A) (item : A) (after : list A) :
  Forall (adds T fsys step) before ->
  (forall xip d, fs d = fsys -> exists d', step xip item d = (Raise e, d') /\ fs d' = fsys) ->
  forall xip d, fs d = fsys ->
    exists d', fold_xip step (before ++ item :: after) xip d = (Raise e, d') /\ fs d' = fsys.
Proof.
  intros Hb Hi. induction Hb as [|a l Ha _ IH]; intros xip d Hd.
  - destruct (Hi xip d Hd) as (d' & E & F). exists d'. simpl. unfold bind. now rewrite E.
  - destruct (Ha xip d Hd) as (child & d1 & E1 & _ & F1).
    destruct (IH (XML.SubElement xip child) d1 F1) as (d' & E & F).
    exists d'. simpl. unfold bind. rewrite E1. now split.
Qed.

(** X20. A preservation file that does not exist makes
    [complex_asset_package] raise [FileNotFoundError] for the first such
    file, when its size is asked for the [Bitstream] element. This
    happens before anything is written: no staging folder is made and
    the files are as they were. *)
Theorem missing_preservation_file (host : Host) (d : disk)
        (before : list string) (missing : string) (after : list string)
        (access_files : option (list string)) (export_folder : string)
        (parent_folder : parent_arg) (compress : bool) (kwargs : Kwargs) :
  let files := before ++ missing :: after in
  let access := files_of access_files in
  isdir (fs d) export_folder = true ->
  Forall (fun f => isfile (fs d) f = true) before ->
  fs d !! missing = None ->
  (forall i j, uuid4 host i = uuid4 host j -> i = j) ->
  kwargs_ok host (fs d) files access kwargs ->
  exists d',
    complex_asset_package host (Some files) access_files (Some export_folder)
                          (Some parent_folder) compress kwargs d
    = (Raise (FileNotFoundError missing), d') /\
    fs d' = fs d.
Proof.
  intros files access Hdir Hbefore Hmiss Hinj (Ht1 & Hd1 & Ht2 & Hd2 & Hc1 & _ & _).
  assert (Hne : files <> []) by (unfold files; now destruct before).
  destruct (complex_package_start host d files access_files export_folder parent_folder kwargs
              Hne Hdir Hinj Ht1 Hd1 Ht2 Hd2) as (x & refs1 & refs2 & d7 & F7 & M2 & _ & Hrun).
  unfold files in M2. apply map_eq_app in M2 as (rb & rest & -> & Mb & Mr).
  apply map_eq_cons in Mr as ([r f] & ra & -> & Hf & Ma). simpl in Hf. subst f.
  destruct (fold_xip_raises "Bitstream" (fs d)
              (bitstream_step host
                 (fixity_callback host (Preservation_files_fixity_callback kwargs)))
              (FileNotFoundError missing) rb (r, missing) ra) with (xip := x) (d := d7)
    as (d' & E & F).
  - apply List.Forall_forall. intros item Hi. apply adds_bitstream; [exact Hc1|].
    rewrite List.Forall_forall in Hbefore. apply Hbefore. rewrite <- Mb.
    now apply (in_map snd).
  - intros xip d0 Hd0. exists d0. split; [|exact Hd0].
    unfold bitstream_step, __make_bitstream__, stat_size, bind, read_fs. cbv beta.
    now rewrite Hd0, Hmiss.
  - exact F7.
  - exists d'. split; [|exact F]. rewrite Hrun. unfold bind at 1. now rewrite E.
Qed.


(* ===================================================================== *)
(** * generic_asset_package with one representation of each type *)
(* ===================================================================== *)

Lemma run_raise {St A B} (m : Prog St A) (k : A -> Prog St B) (s s' : St) (e : exn) :
  m s = (Raise e, s') -> bind m k s = (Raise e, s').
Proof. intros H. unfold bind. now rewrite H. Qed.

Lemma fold_xip_ext {A} (step1 step2 : XML.Element -> A -> Prog disk XML.Element) :
  (forall xip a d, step1 xip a d = step2 xip a d) ->
  forall l xip d, fold_xip step1 l xip d = fold_xip step2 l xip d.
Proof.
  intros H l. induction l as [|a l IH]; intros xip d; [reflexivity|].
  simpl. unfold bind. rewrite H. destruct (step2 xip a d) as [[x|e] d']; [apply IH | reflexivity].
Qed.

Lemma generic_title_text (v : option text_or_dict) (default : string) :
  is_text v ->
  match kwargs_get v (Text default) with
  | Text s => s = generic_title v default
  | Dict _ => False
  end.
Proof. unfold generic_title, kwargs_get. destruct v as [[s|dd]|]; simpl; auto. Qed.

Lemma generic_preservation_content_text (kwargs : Kwargs) (io_ref security_tag content_type : string)
      (xip : XML.Element) (item : string * string) (d : disk) :
  is_text (Preservation_Content_Title kwargs) ->
  is_text (Preservation_Content_Description kwargs) ->
  generic_preservation_content kwargs io_ref security_tag content_type xip item d =
  complex_preservation_content kwargs io_ref security_tag content_type xip item d.
Proof.
  intros Ht Hd. destruct item as [r f].
  unfold generic_preservation_content, complex_preservation_content, generic_title, kwargs_get,
    bind, ret.
  destruct (Preservation_Content_Title kwargs) as [[s1|d1]|]; try contradiction;
    destruct (Preservation_Content_Description kwargs) as [[s2|d2]|]; try contradiction;
    reflexivity.
Qed.

Lemma generic_access_content_text (kwargs : Kwargs) (io_ref security_tag content_type : string)
      (xip : XML.Element) (item : string * string) (d : disk) :
  is_text (Access_Content_Title kwargs) ->
  is_text (Access_Content_Description kwargs) ->
  generic_access_content kwargs io_ref security_tag content_type xip item d =
  complex_access_content kwargs io_ref security_tag content_type xip item d.
Proof.
  intros Ht Hd. destruct item as [r f].
  unfold generic_access_content, complex_access_content, generic_title, kwargs_get,
    bind, ret.
  destruct (Access_Content_Title kwargs) as [[s1|d1]|]; try contradiction;
    destruct (Access_Content_Description kwargs) as [[s2|d2]|]; try contradiction;
    reflexivity.
Qed.

Lemma make_representations_single (host : Host) (rep_type name : string) (files : list string)
      (io_ref : string) (xip : XML.Element) (d : disk) :
  make_representations host rep_type [(name, files)] io_ref xip [] d =
  match __make_representation_multiple_co__ host xip name rep_type files io_ref d with
  | (Return (x, refs), d') => (Return (x, [(name, refs)]), d')
  | (Raise e, d') => (Raise e, d')
  end.
Proof.
  cbn [make_representations]. unfold bind.
  destruct (__make_representation_multiple_co__ host xip name rep_type files io_ref d)
    as [[[x refs]|?] ?]; reflexivity.
Qed.

(** Running a shared step of both builders: the result is named and
    both sides go on with it, or both end with the exception. *)
Ltac shared_step m :=
  let r := fresh "r" in
  let d := fresh "d" in
  let E := fresh "E" in
  destruct m as [[r|?] d] eqn:E;
  [rewrite ?(run_bind _ _ _ _ _ E) | rewrite !(run_raise _ _ _ _ _ E); reflexivity].

(** X24. With one preservation representation and at most one access
    representation, [generic_asset_package] does what
    [complex_asset_package] does with the two lists of files, when the
    titles and descriptions are strings and no asset metadata is
    given: the same result, the same files, the same references drawn. *)
Theorem generic_single_representation (host : Host) (d : disk) (files access : list string)
        (export_folder : option string) (parent_folder : option parent_arg)
        (compress : bool) (kwargs : Kwargs) :
  files <> [] ->
  is_text (Preservation_Content_Title kwargs) ->
  is_text (Preservation_Content_Description kwargs) ->
  is_text (Access_Content_Title kwargs) ->
  is_text (Access_Content_Description kwargs) ->
  Asset_Metadata kwargs = None ->
  let preservation_name := kwargs_get (Preservation_Representation_Name kwargs) "Preservation" in
  let access_name := kwargs_get (Access_Representation_Name kwargs) "Access" in
  let access_dict := match access with [] => None | _ => Some [(access_name, access)] end in
  generic_asset_package host (Some [(preservation_name, files)]) access_dict
                        export_folder parent_folder compress kwargs d =
  complex_asset_package host (Some files) (Some access)
                        export_folder parent_folder compress kwargs d.
Proof.
  intros Hne Ht1 Hd1 Ht2 Hd2 Hmd pname aname access_dict.
  unfold generic_asset_package, complex_asset_package.
  destruct (validate host export_folder parent_folder d) as [[[e p]|err] d0] eqn:Ev.
  2:{ now rewrite !(run_raise _ _ _ _ _ Ev). }
  rewrite !(run_bind _ _ _ _ _ Ev). cbv beta iota zeta.
  replace (has_files (Some files)) with true by (now destruct files).
  change (has_files (Some [(pname, files)])) with true. cbv beta iota.
  change (first_files (files_of (Some [(pname, files)]))) with files.
  change (files_of (Some files)) with files.
  change (files_of (Some [(pname, files)])) with [(pname, files)].
  destruct (first_title_ok files d0 Hne) as (t & Et).
  destruct (create_io_ok host d0 t p kwargs) as (io & d1 & E1 & _ & _).
  set (io_ref := kwargs_get (IO_Identifier_callback kwargs) (uuid4 host (uuids_drawn d0))) in *.
  set (xip0 := XML.Elem "XIP" [("xmlns", "http://preservica.com/XIP/v6.0")] None [io]) in *.
  assert (G1 : (t0 <~ first_title files ;; ret (Some t0)) d0 = (Return (Some t), d0)).
  { unfold bind. now rewrite Et. }
  assert (G2 : (r <~ __create_io__ host None t p kwargs ;; ret (Some r)) d0 =
               (Return (Some (xip0, io_ref)), d1)).
  { unfold bind. now rewrite E1. }
  assert (C1 : (default_asset_title <~ first_title files ;;
                r <~ __create_io__ host None default_asset_title p kwargs ;;
                ret (Some r)) d0 = (Return (Some (xip0, io_ref)), d1)).
  { unfold bind. rewrite Et, E1. reflexivity. }
  rewrite (run_bind _ _ _ _ _ G1). cbv beta iota.
  rewrite (run_bind _ _ _ _ _ G2). cbv beta iota.
  rewrite (run_bind _ _ _ _ _ C1). cbv beta iota.
  assert (G3 : (if has_files access_dict
                then ret (Some (xip0, io_ref)) else ret (Some (xip0, io_ref))) d1 =
               (Return (Some (xip0, io_ref)), d1)).
  { now destruct (has_files access_dict). }
  rewrite (run_bind _ _ _ _ _ G3). cbv beta iota.
  (* the preservation representation *)
  pose proof (make_representations_single host "Preservation" pname files io_ref xip0 d1) as Gp.
  destruct (__make_representation_multiple_co__ host xip0 pname "Preservation" files io_ref d1)
    as [[[x1 refs1]|err] d2] eqn:E2.
  2:{ rewrite (run_raise _ _ _ _ _ Gp). now rewrite (run_raise _ _ _ _ _ E2). }
  rewrite (run_bind _ _ _ _ _ Gp), (run_bind _ _ _ _ _ E2). cbv beta iota.
  (* the access representation *)
  assert (Ga : exists r,
             make_representations host "Access" (files_of access_dict) io_ref x1 [] d2 = r /\
             (if has_files (Some access)
              then __make_representation_multiple_co__ host x1 aname "Access"
                     (files_of (Some access)) io_ref
              else ret (x1, [])) d2 =
             match r with
             | (Return (x, refs), d') => (Return (x, all_items refs), d')
             | (Raise err, d') => (Raise err, d')
             end).
  { eexists. split; [reflexivity|]. subst access_dict. destruct access as [|a access].
    - reflexivity.
    - change (files_of (Some [(aname, a :: access)])) with [(aname, a :: access)].
      rewrite make_representations_single. cbn [has_files files_of].
      destruct (__make_representation_multiple_co__ host x1 aname "Access" (a :: access)
                  io_ref d2) as [[[x refs]|err] d']; [|reflexivity].
      unfold all_items. simpl. now rewrite app_nil_r. }
  destruct Ga as (r & Ga & Ca).
  destruct r as [[[x2 refs2]|err] d3].
  2:{ rewrite (run_raise _ _ _ _ _ Ga). now rewrite (run_raise _ _ _ _ _ Ca). }
  rewrite (run_bind _ _ _ _ _ Ga), (run_bind _ _ _ _ _ Ca). cbv beta iota zeta.
  replace (all_items [(pname, refs1)]) with refs1
    by (unfold all_items; simpl; now rewrite app_nil_r).
  (* the content objects *)
  pose proof (fold_xip_ext _ _
                (fun x a d => generic_preservation_content_text kwargs io_ref
                                (kwargs_get (SecurityTag kwargs) "open")
                                (kwargs_get (CustomType kwargs) "") x a d Ht1 Hd1)
                refs1 x2 d3) as Gc.
  destruct (fold_xip (complex_preservation_content _ _ _ _) refs1 x2 d3)
    as [[x3|err] d4] eqn:E3.
  2:{ rewrite (run_raise _ _ _ _ _ Gc). now rewrite (run_raise _ _ _ _ _ E3). }
  rewrite (run_bind _ _ _ _ _ Gc), (run_bind _ _ _ _ _ E3). clear Gc.
  pose proof (fold_xip_ext _ _
                (fun x a d => generic_access_content_text kwargs io_ref
                                (kwargs_get (SecurityTag kwargs) "open")
                                (kwargs_get (CustomType kwargs) "") x a d Ht2 Hd2)
                (all_items refs2) x3 d4) as Gc.
  destruct (fold_xip (complex_access_content _ _ _ _) (all_items refs2) x3 d4)
    as [[x4|err] d5] eqn:E4.
  2:{ rewrite (run_raise _ _ _ _ _ Gc). now rewrite (run_raise _ _ _ _ _ E4). }
  rewrite (run_bind _ _ _ _ _ Gc), (run_bind _ _ _ _ _ E4). clear Gc.
  (* generations and bitstreams *)
  repeat match goal with
         | |- bind ?m _ ?d = _ => shared_step (m d)
         end.
  (* identifiers, then the archive *)
  unfold finish. rewrite Hmd.
  reflexivity.
Qed.

Lemma generic_single_representation_witness :
  generic_asset_package test_host (Some [("Preservation", ["/in/y.txt"])])
                        (Some [("Access", ["/in/a/x.txt"])])
                        (Some "/out") (Some (ParentRef "p1")) true no_kwargs test_disk =
  complex_asset_package test_host (Some ["/in/y.txt"]) (Some ["/in/a/x.txt"])
                        (Some "/out") (Some (ParentRef "p1")) true no_kwargs test_disk.
Proof.
  apply (generic_single_representation test_host test_disk ["/in/y.txt"] ["/in/a/x.txt"]
           (Some "/out") (Some (ParentRef "p1")) true no_kwargs);
    [discriminate | exact I | exact I | exact I | exact I | reflexivity].
Defined.

(** X25. A first representation with an empty list of files makes
    [generic_asset_package] raise [IndexError] when it reads the first
    file for the default title: no reference is drawn and nothing is
    written, whatever the other representations hold. *)
Theorem generic_empty_first_representation (host : Host) (d : disk) (name : string)
        (rest : list (string * list string)) (access : option (list (string * list string)))
        (export_folder : string) (parent_folder : parent_arg) (compress : bool)
        (kwargs : Kwargs) :
  isdir (fs d) export_folder = true ->
  generic_asset_package host (Some ((name, []) :: rest)) access (Some export_folder)
                        (Some parent_folder) compress kwargs d =
  (Raise IndexError, d).
Proof.
  intros Hdir. unfold generic_asset_package.
  rewrite (run_bind _ _ _ _ _ (validate_ok host d export_folder parent_folder Hdir)).
  reflexivity.
Qed.

Lemma generic_empty_first_representation_witness :
  generic_asset_package test_host (Some [("Preservation", []); ("Other", ["/in/y.txt"])])
                        None (Some "/out") (Some (ParentRef "p1")) true no_kwargs test_disk =
  (Raise IndexError, test_disk).
Proof.
  apply (generic_empty_first_representation test_host test_disk "Preservation"
           [("Other", ["/in/y.txt"])] None "/out" (ParentRef "p1") true no_kwargs).
  reflexivity.
Defined.

(* ===================================================================== *)
(** * The further properties on the test data *)
(* ===================================================================== *)

Lemma ascii_isspace_printable (c : N) : (32 < c < 128)%N -> ascii_isspace c = false.
Proof.
  intros Hc. unfold ascii_isspace.
  destruct (N.eqb_spec c 32); [lia|].
  destruct (N.leb_spec c 13); [|destruct (N.leb_spec c 31)]; simpl.
  - destruct (N.leb_spec 9 c); [lia|]. simpl.
    destruct (N.leb_spec 28 c); [lia|]. reflexivity.
  - lia.
  - now rewrite !andb_false_r.
Qed.

(** The name [ re:port?.txt. ] becomes [report.txt]. *)
Lemma sanitize_short_ascii_witness :
  sanitize ascii_NFKD ascii_isspace (lit " re:port?.txt. ") = lit "report.txt" /\
  (length (sanitize ascii_NFKD ascii_isspace (lit " re:port?.txt. ")) <= 255)%nat /\
  str_in (sanitize ascii_NFKD ascii_isspace (lit " re:port?.txt. ")) reserved = false.
Proof.
  destruct (sanitize_short_ascii ascii_NFKD ascii_isspace (lit " re:port?.txt. "))
    as (_ & Hl & _ & _ & Hr).
  - intros s _. reflexivity.
  - exact ascii_isspace_printable.
  - reflexivity.
  - vm_compute. lia.
  - split; [reflexivity|]. split; [exact Hl | exact Hr].
Defined.

(** Version 6.2.5 is older than 6.3.1 and passes the guard. *)
Lemma security_tags_version_guard_witness :
  security_tags_base (test_platform [r404]) 1 false (mkWorld client_6_2_5 []) =
  (Raise (RuntimeError [PInt 404; PStr "security_tags failed"]),
   mkWorld client_6_2_5 [security_tags_request client_6_2_5 (PStr "t0")]).
Proof.
  apply (security_tags_version_guard (test_platform [r404]) 0 false (mkWorld client_6_2_5 [])
           6 2 5 (PStr "t0") eq_refl eq_refl eq_refl eq_refl).
  - right. right. lia.
  - discriminate.
  - discriminate.
Defined.

Lemma version_number_unexpected_status_witness :
  fst (__version_number__ (test_platform [r404]) 1 (mkWorld (test_client PNone false) []))
  = Return PNone /\
  fst (version_and_namespace (test_platform [r404]) 1 (mkWorld (test_client PNone false) []))
  = Raise (AttributeError "major_version").
Proof.
  destruct (version_number_unexpected_status (test_platform [r404]) 0
              (mkWorld (test_client PNone false) []) (PStr "t0") eq_refl) as [H1 H2].
  - discriminate.
  - discriminate.
  - split; [now rewrite H1 | now apply H2].
Defined.

(** The constructor against a server of version 6.4.1. *)
Lemma constructor_three_requests_witness :
  exists client,
    __init__ (server_of_version "6.4.1") test_environ test_config 1
             None (Some "pw") None None false
    = (Return client,
       [mkRequest POST "https://example.org/api/accesstoken/login" [] []
                  [("username", PStr "bob"); ("password", PStr "pw");
                   ("includeUserDetails", PStr "true")];
        get_request "https://example.org/api/entity/versiondetails/version" (PStr "tok");
        mkRequest GET "https://example.org/api/user/details" (xml_headers (PStr "tok")) [] []])
    /\ token client = Some (PStr "tok") /\ tenant client = PStr "acme".
Proof.
  destruct (constructor_three_requests
              (server_of_version "6.4.1") test_environ test_config 0
              None (Some "pw") None None false
              (new_client "bob" "pw" PNone "example.org" false) (PStr "tok")
              (mkWorld (with_tenant (new_client "bob" "pw" PNone "example.org" false)
                                    (PStr "acme"))
                       [mkRequest POST "https://example.org/api/accesstoken/login" [] []
                                  [("username", PStr "bob"); ("password", PStr "pw");
                                   ("includeUserDetails", PStr "true")]])
              "6" "4" "1" [] 4 1
              (PDict [("token", PStr "details"); ("tenant", PStr "acme"); ("roles", PList [])])
              (PList []))
    as (client & H & Ht & _ & _ & _ & _ & Hten); try reflexivity.
  exists client. split; [exact H|]. split; [exact Ht | exact Hten].
Defined.

Lemma entity_from_string_outcomes_witness :
  fst (entity_from_string entity_platform "body" (mkWorld client_6_4 [])) =
  Return (mkEntityDict (Some "a1") (Some "Letter") None (Some "open") (Some "f1")
            [(Some "https://example.org/api/entity/information-objects/a1/metadata/m1",
              "http://purl.org/dc/elements/1.1/")]) /\
  fst (entity_from_string (document_platform [] children_xml) "body" (mkWorld client_6_4 [])) =
  Raise (AttributeError "text").
Proof.
  split.
  - rewrite (entity_from_string_outcomes entity_platform (mkWorld client_6_4 []) "body"
               "http://preservica.com/XIP/v6.4" "http://preservica.com/EntityAPI/v6.4"
               entity_xml _ eq_refl eq_refl eq_refl eq_refl).
    reflexivity.
  - rewrite (entity_from_string_outcomes (document_platform [] children_xml)
               (mkWorld client_6_4 []) "body"
               "http://preservica.com/XIP/v6.4" "http://preservica.com/EntityAPI/v6.4"
               children_xml _ eq_refl eq_refl eq_refl eq_refl).
    reflexivity.
Defined.



Lemma path_operations_send_nothing_witness :
  identifiers_for_entity (test_platform []) 1 test_asset (mkWorld client_6_4 []) =
  (Raise (AttributeError "_path"), mkWorld client_6_4 []).
Proof.
  apply (path_operations_send_nothing (test_platform []) 0 test_asset (mkWorld client_6_4 [])
           (PStr "t0") eq_refl).
Defined.

Lemma security_tag_async_outcomes_witness :
  security_tag_async (test_platform []) 1 test_content_object "closed" (mkWorld client_6_4 [])
  = (Raise SystemExit, mkWorld client_6_4 []) /\
  fst (security_tag_async (test_platform [mkResponse 202 "progress-1"]) 1 test_asset "closed"
                          (mkWorld client_6_4 [])) = Return "progress-1".
Proof.
  split.
  - apply (security_tag_async_outcomes (test_platform []) 0 test_content_object "closed"
             (mkWorld client_6_4 []) (PStr "t0") eq_refl). reflexivity.
  - destruct (security_tag_async_outcomes (test_platform [mkResponse 202 "progress-1"]) 0
                test_asset "closed" (mkWorld client_6_4 []) (PStr "t0") eq_refl) as [_ H].
    destruct H as [H _]; [left; split; reflexivity|].
    now rewrite H.
Defined.

Lemma manager_token_refused_witness :
  fst (manager_token (test_platform [r401]) "carol" "pw2" (mkWorld client_6_4 [])) = Return PNone.
Proof.
  rewrite (manager_token_refused (test_platform [r401]) (mkWorld client_6_4 []) "carol" "pw2").
  - reflexivity.
  - discriminate.
Defined.


Lemma security_tags_names_witness :
  fst (security_tags_base (document_platform [r200 "tags"] tags_xml) 1 false
                          (mkWorld client_6_4 [])) =
  Return [("open", PStr "open"); ("closed", PStr "closed")].
Proof.
  destruct (security_tags_names (document_platform [r200 "tags"] tags_xml) 0
              (mkWorld client_6_4 []) (PStr "t0") "http://preservica.com/SecurityAPI/v6.4"
              tags_xml) as (tags & H & _).
  - exists 6, 4, 1. repeat split.
  - reflexivity.
  - reflexivity.
  - reflexivity.
  - reflexivity.
  - repeat constructor; eexists; reflexivity.
  - reflexivity.
Defined.

Lemma user_roles_unexpected_status_witness :
  fst (__find_user_roles_ (test_platform [r404]) 1 (mkWorld client_6_4 [])) = Return PNone.
Proof.
  rewrite (user_roles_unexpected_status (test_platform [r404]) 0 (mkWorld client_6_4 [])
             (PStr "t0") eq_refl); [reflexivity | discriminate | discriminate].
Defined.




Lemma staging_folder_in_the_way_witness :
  exists d',
    complex_asset_package test_host (Some ["/in/y.txt"]) None (Some "/out")
                          (Some (ParentRef "p1")) true no_kwargs (mkDisk test_fs_busy 0 0)
    = (Raise (FileExistsError "/out/uuid-0"), d') /\
    fs d' = test_fs_busy.
Proof.
  apply (staging_folder_in_the_way test_host (mkDisk test_fs_busy 0 0) ["/in/y.txt"] None "/out"
           (ParentRef "p1") true no_kwargs Dir).
  - discriminate.
  - reflexivity.
  - exists ["/"; "o"; "u"]%char, "t"%char. split; reflexivity.
  - split; [discriminate | reflexivity].
  - repeat (constructor; [split; [reflexivity | discriminate]|]). constructor.
  - exact test_uuid4_inj.
  - repeat split; simpl; repeat constructor.
  - reflexivity.
Defined.

Lemma missing_preservation_file_witness :
  exists d',
    complex_asset_package test_host (Some ["/in/y.txt"; "/in/none.txt"; "/in/a/x.txt"]) None
                          (Some "/out") (Some (ParentRef "p1")) true no_kwargs test_disk
    = (Raise (FileNotFoundError "/in/none.txt"), d') /\
    fs d' = test_fs.
Proof.
  apply (missing_preservation_file test_host test_disk ["/in/y.txt"] "/in/none.txt"
           ["/in/a/x.txt"] None "/out" (ParentRef "p1") true no_kwargs).
  - reflexivity.
  - repeat constructor.
  - reflexivity.
  - exact test_uuid4_inj.
  - repeat split; simpl; repeat constructor.
Defined.


Lemma representation_references_witness :
  fst (__make_representation_multiple_co__ test_host (XML.Elem "XIP" [] None []) "Preservation"
         "Preservation" ["/in/y.txt"; "/in/a/x.txt"] "io-1" test_disk) =
  Return (XML.Elem "XIP" [] None
            [XML.Elem "Representation" [] None
               [XML.Elem "InformationObject" [] (Some "io-1") [];
                XML.Elem "Name" [] (Some "Preservation") [];
                XML.Elem "Type" [] (Some "Preservation") [];
                XML.Elem "ContentObjects" [] None
                  [XML.Elem "ContentObject" [] (Some "uuid-0") [];
                   XML.Elem "ContentObject" [] (Some "uuid-1") []]]],
          [("uuid-0", "/in/y.txt"); ("uuid-1", "/in/a/x.txt")]).
Proof.
  destruct (representation_references test_host (XML.Elem "XIP" [] None []) "Preservation"
              "Preservation" ["/in/y.txt"; "/in/a/x.txt"] "io-1" test_disk test_uuid4_inj)
    as [H _].
  now rewrite H.
Defined.

Lemma sanitize_never_empty_witness :
  sanitize (fun s => s) ascii_isspace [] <> [] /\
  (forall c r, rev (truncate (lit "a.b. ")) = c :: r -> c <> 46%N /\ c <> 32%N).
Proof.
  split.
  - apply (sanitize_never_empty (fun s => s) ascii_isspace []).
  - apply (sanitize_never_empty (fun s => s) ascii_isspace (lit "a.b. ")).
Defined.

Lemma metadata_for_entity_outcomes_witness :
  metadata_for_entity (test_platform []) 1 test_asset "dc" (mkWorld client_6_4 []) =
  (Raise (AttributeError "items"), mkWorld client_6_4 []) /\
  metadata_for_entity (test_platform []) 1
                      (Asset (Some "a1") (Some "Letter") None None None
                             (Some [(Some "https://example.org/m1", "mods")]))
                      "dc" (mkWorld client_6_4 []) =
  (Return None, mkWorld client_6_4 []) /\
  fst (metadata_for_entity (document_platform [r200 "m"] fragment_xml) 1
                           (Asset (Some "a1") (Some "Letter") None None None
                                  (Some [(Some "https://example.org/m0", "mods");
                                         (Some "https://example.org/m1", "dc")]))
                           "dc" (mkWorld client_6_4 [])) = Return (Some "dc").
Proof.
  split; [|split].
  - apply (metadata_for_entity_outcomes (test_platform []) 1 test_asset "dc"
             (mkWorld client_6_4 [])). reflexivity.
  - destruct (metadata_for_entity_outcomes (test_platform []) 1
                (Asset (Some "a1") (Some "Letter") None None None
                       (Some [(Some "https://example.org/m1", "mods")]))
                "dc" (mkWorld client_6_4 [])) as (_ & H & _).
    apply (H [(Some "https://example.org/m1", "mods")] eq_refl).
    repeat constructor. discriminate.
  - destruct (metadata_for_entity_outcomes (document_platform [r200 "m"] fragment_xml) 1
                (Asset (Some "a1") (Some "Letter") None None None
                       (Some [(Some "https://example.org/m0", "mods");
                              (Some "https://example.org/m1", "dc")]))
                "dc" (mkWorld client_6_4 [])) as (_ & _ & H).
    rewrite (H [(Some "https://example.org/m0", "mods")] "https://example.org/m1" [] eq_refl).
    + reflexivity.
    + repeat constructor. discriminate.
Defined.

Lemma builders_validate_witness :
  simple_asset_package test_host (Some "/in/y.txt") None (Some "/nowhere")
                       (Some (ParentRef "p1")) true no_kwargs test_disk =
  (Raise (RuntimeError [PStr "/nowhere"; PStr "Export Folder Does Not Exist"]), test_disk) /\
  generic_asset_package test_host (Some [("Preservation", ["/in/y.txt"])]) None (Some "/out")
                        None true no_kwargs test_disk =
  (Raise (RuntimeError [PStr "You must specify a parent folder for the package asset"]),
   test_disk).
Proof.
  split.
  - destruct (builders_validate test_host test_disk None None None None (Some "/in/y.txt") None
                (Some "/nowhere") (Some (ParentRef "p1")) true no_kwargs) as [H _].
    apply H. reflexivity.
  - destruct (builders_validate test_host test_disk None None
                (Some [("Preservation", ["/in/y.txt"])]) None None None
                (Some "/out") None true no_kwargs) as [_ H].
    apply H; reflexivity.
Defined.

Lemma unpad_padding_witness :
  _unpad (lit "secret" ++ [4; 4; 4; 4]%N) = Return (lit "secret").
Proof.
  destruct (unpad_padding (lit "secret") 4) as (_ & H & _).
  apply H. reflexivity.
Defined.
